(** * ollama_monitor: metrics store, sampler tick, generation test and proxy

    A shallow embedding of [ollama_monitor.py].  The SQLite file is a record
    of three tables (lists of rows in rowid order), the upstream server and
    the host are explicit environments, exceptions are a sum type and a call
    that never returns is [None]. *)

From Stdlib Require Import ZArith NArith List String Ascii Bool Lia.
From Stdlib Require Import Permutation Sorted Floats DecimalString.
Import ListNotations.

Open Scope string_scope.
Open Scope Z_scope.
Open Scope list_scope.

Set Warnings "-register-all".

(** ** Values, exceptions and results *)

(** A Python object as [json.loads] builds it (the decoded body of an upstream
    answer, or of an inbound POST). *)
Inductive json :=
| JNull
| JBool (b : bool)
| JInt (z : Z)
| JFloat (f : float)
| JString (s : string)
| JArray (items : list json)
| JObject (members : list (string * json)).

(** A value as [sqlite3] returns it from a row: [None], [int], [float], [str].
    What a row holds is what the column made of the object that was bound:
    see [store_real] and [integer_affinity] below. *)
Inductive value :=
| VNone
| VInt (z : Z)
| VFloat (f : float)
| VStr (s : string).

Inductive exn :=
| RequestException (detail : string)   (* requests.exceptions.RequestException *)
| AccessDenied (detail : string)       (* psutil.AccessDenied *)
| OtherException (detail : string).    (* any other Exception *)

Inductive result (A : Type) :=
| Ok (a : A)
| Raise (e : exn).
Arguments Ok {A} a.
Arguments Raise {A} e.

Definition bind {A B : Type} (r : result A) (k : A -> result B) : result B :=
  match r with
  | Ok a => k a
  | Raise e => Raise e
  end.

Notation "x <- r ;; k" := (bind r (fun x => k))
  (at level 61, r at next level, right associativity).

(** [str(e)] *)
Definition str_exn (e : exn) : string :=
  match e with
  | RequestException d => d
  | AccessDenied d => d
  | OtherException d => d
  end.

(** [dict.get(key, default)] on the members of a JSON object. *)
Fixpoint dict_get (members : list (string * json)) (key : string) (default : json) : json :=
  match members with
  | [] => default
  | (k, v) :: rest => if String.eqb k key then v else dict_get rest key default
  end.

(** [str(n)] for a Python [int]. *)
Definition str_int (n : Z) : string := NilZero.string_of_int (Z.to_int n).

(** ** The database file *)

Module SystemMetrics.
Record row := {
  id : Z;
  timestamp : string;
  server_status : Z;
  cpu_percent : value;
  memory_percent : value;
  disk_percent : value;
  network_bytes_sent : Z;
  network_bytes_recv : Z;
  ollama_cpu_percent : value;
  ollama_memory_percent : value;
  ollama_connections : Z
}.
End SystemMetrics.

Module RequestLogs.
Record row := {
  id : Z;
  timestamp : string;
  client_ip : string;
  model_name : string;
  input_tokens : value;
  output_tokens : value;
  response_time : value;
  status_code : Z;
  endpoint : string
}.
End RequestLogs.

Module Models.
Record row := {
  id : Z;
  timestamp : string;
  model_name : string;
  model_size : string;
  parameter_size : string;
  modified_at : string;
  model_family : string
}.
End Models.

(** A table that was never created is [None]; a created table lists its rows
    in rowid order. *)
Record db_file := {
  system_metrics : option (list SystemMetrics.row);
  request_logs : option (list RequestLogs.row);
  models : option (list Models.row)
}.

(** A file that does not exist yet. *)
Definition new_file : db_file :=
  {| system_metrics := None; request_logs := None; models := None |}.

(** [CREATE TABLE IF NOT EXISTS] *)
Definition create_table_if_not_exists {A : Type} (t : option (list A)) : option (list A) :=
  match t with
  | None => Some []
  | Some rows => Some rows
  end.

Definition _create_tables (db : db_file) : db_file :=
  {| system_metrics := create_table_if_not_exists (system_metrics db);
     request_logs := create_table_if_not_exists (request_logs db);
     models := create_table_if_not_exists (models db) |}.

(** [OllamaMetricsDB(db_file)]: the constructor only runs [_create_tables]. *)
Definition OllamaMetricsDB (db : db_file) : db_file := _create_tables db.

Definition rows_of {A : Type} (t : option (list A)) : list A :=
  match t with
  | None => []
  | Some rows => rows
  end.

(** A statement on a missing table fails when it is prepared. *)
Definition table {A : Type} (name : string) (t : option (list A)) : result (list A) :=
  match t with
  | None => Raise (OtherException ("no such table: " ++ name)%string)
  | Some rows => Ok rows
  end.

(** [INTEGER PRIMARY KEY AUTOINCREMENT]: one more than the largest rowid; no
    row is ever deleted, so that is the largest rowid ever used. *)
Definition next_id (ids : list Z) : Z := fold_right Z.max 0 ids + 1.

(** [sqlite3] refuses a Python [int] outside the signed 64-bit range. *)
Definition bind_int (n : Z) : result Z :=
  if (-(2 ^ 63) <=? n) && (n <? 2 ^ 63) then Ok n
  else Raise (OtherException "Python int too large to convert to SQLite INTEGER").

(** *** Column affinity *)

(** A Python [float] in a REAL column: SQLite binds NaN as NULL, and keeps a
    float without fraction as an integer in the record, so that the negative
    zero comes back as 0.0; any other float comes back as it was. *)
Definition store_real (f : float) : value :=
  if is_nan f then VNone
  else if (f =? 0)%float then VFloat 0
  else VFloat f.

(** A Python [int] of the 64-bit range in a REAL column comes back as the
    nearest float. *)
Definition real_of_int (n : Z) : float := SF2Prim (binary_normalize prec emax n 0 false).

(** The integer a float is equal to, when it has no fraction. *)
Definition integer_of_float (f : float) : option Z :=
  match Prim2SF f with
  | S754_zero _ => Some 0
  | S754_finite sign m e =>
      let magnitude :=
        if 0 <=? e then Some (Z.pos m * 2 ^ e)
        else if Z.pos m mod 2 ^ (- e) =? 0 then Some (Z.pos m / 2 ^ (- e))
        else None in
      match magnitude with
      | Some z => Some (if sign then - z else z)
      | None => None
      end
  | S754_infinity _ | S754_nan => None
  end.

(** A Python [float] in an INTEGER column: NaN is bound as NULL; a float equal
    to an integer strictly between the least and the greatest 64-bit integer
    is kept as that integer; any other float is kept as a float. *)
Definition integer_affinity (f : float) : value :=
  if is_nan f then VNone
  else match integer_of_float f with
       | Some z => if (- 2 ^ 63 <? z) && (z <? 2 ^ 63 - 1) then VInt z else VFloat f
       | None => VFloat f
       end.

(** Binding a Python object to an INTEGER column.  A text that SQLite reads
    as a number is kept as that number and any other text as it is; how
    SQLite reads a text is [numeric_text], a parameter. *)
Definition bind_param (numeric_text : string -> value) (v : json) : result value :=
  match v with
  | JNull => Ok VNone
  | JBool b => Ok (VInt (if b then 1 else 0))
  | JInt z => n <- bind_int z ;; Ok (VInt n)
  | JFloat f => Ok (integer_affinity f)
  | JString s => Ok (numeric_text s)
  | JArray _ | JObject _ => Raise (OtherException "Error binding parameter: type is not supported")
  end.

(** *** Writes *)

Record system_info := {
  cpu_percent : float;
  memory_percent : float;
  disk_percent : float;
  network_bytes_sent : Z;
  network_bytes_recv : Z
}.

(** The dictionary [get_ollama_process_info] returns; the two percentages are
    what [psutil] left in [proc.info], a float or [None]. *)
Record process_info := {
  pid : Z;
  process_cpu_percent : option float;
  process_memory_percent : option float;
  connections : Z
}.

(** The Python objects the sampler binds to a REAL column: [None], a [float],
    or the [int] 0 of a missing key. *)
Inductive number :=
| NoNumber
| IntNumber (n : Z)
| FloatNumber (f : float).

Definition number_of_float (f : option float) : number :=
  match f with
  | Some x => FloatNumber x
  | None => NoNumber
  end.

(** What a REAL column keeps of such an object. *)
Definition real_affinity (v : number) : value :=
  match v with
  | NoNumber => VNone
  | IntNumber n => VFloat (real_of_int n)
  | FloatNumber f => store_real f
  end.

(** The same object read as a value, had the column kept it as it was. *)
Definition as_written (v : number) : value :=
  match v with
  | NoNumber => VNone
  | IntNumber n => VInt n
  | FloatNumber f => VFloat f
  end.

(** The [metrics] dictionary; [ollama_process = None] is the empty dictionary. *)
Record metrics := {
  timestamp : string;
  server_status : bool;
  system : system_info;
  ollama_process : option process_info
}.

(** [ollama_process.get(key, 0)] *)
Definition process_get {A : Type} (p : option process_info) (field : process_info -> A)
    (default : A) : A :=
  match p with
  | None => default
  | Some info => field info
  end.

(** [ollama_process.get('cpu_percent', 0)] and
    [ollama_process.get('memory_percent', 0)]: the percentage of the process,
    the integer 0 when there is none. *)
Definition process_percent (p : option process_info) (field : process_info -> option float)
    : number :=
  process_get p (fun info => number_of_float (field info)) (IntNumber 0).

Definition save_system_metrics (db : db_file) (m : metrics) : result db_file :=
  rows <- table "system_metrics" (system_metrics db) ;;
  let ollama_process := ollama_process m in
  sent <- bind_int (network_bytes_sent (system m)) ;;
  recv <- bind_int (network_bytes_recv (system m)) ;;
  let pcpu := process_percent ollama_process process_cpu_percent in
  let pmem := process_percent ollama_process process_memory_percent in
  conns <- bind_int (process_get ollama_process connections 0) ;;
  let r := {| SystemMetrics.id := next_id (map SystemMetrics.id rows);
              SystemMetrics.timestamp := timestamp m;
              SystemMetrics.server_status := if server_status m then 1 else 0;
              SystemMetrics.cpu_percent := store_real (cpu_percent (system m));
              SystemMetrics.memory_percent := store_real (memory_percent (system m));
              SystemMetrics.disk_percent := store_real (disk_percent (system m));
              SystemMetrics.network_bytes_sent := sent;
              SystemMetrics.network_bytes_recv := recv;
              SystemMetrics.ollama_cpu_percent := real_affinity pcpu;
              SystemMetrics.ollama_memory_percent := real_affinity pmem;
              SystemMetrics.ollama_connections := conns |} in
  Ok {| system_metrics := Some (rows ++ [r]);
        request_logs := request_logs db;
        models := models db |}.

(** Several samples written one after the other. *)
Fixpoint save_all_system_metrics (db : db_file) (samples : list metrics) : result db_file :=
  match samples with
  | [] => Ok db
  | m :: rest => db' <- save_system_metrics db m ;; save_all_system_metrics db' rest
  end.

(** One entry of the upstream's model list, as [get_models] returns it; an
    absent key is [None]. *)
Record model_details := {
  details_parameter_size : option string;
  details_family : option string
}.

Record model := {
  name : option string;
  size : option Z;
  model_modified_at : option string;
  details : option model_details
}.

Definition get_default {A : Type} (o : option A) (default : A) : A :=
  match o with
  | Some a => a
  | None => default
  end.

Definition models_row (rowid : Z) (ts : string) (m : model) : Models.row :=
  let details := get_default (details m) {| details_parameter_size := None; details_family := None |} in
  {| Models.id := rowid;
     Models.timestamp := ts;
     Models.model_name := get_default (name m) "";
     Models.model_size := str_int (get_default (size m) 0);
     Models.parameter_size := get_default (details_parameter_size details) "";
     Models.modified_at := get_default (model_modified_at m) "";
     Models.model_family := get_default (details_family details) "" |}.

(** The [for] loop of [save_models]: one INSERT per model, in order. *)
Fixpoint insert_models (rows : list Models.row) (ts : string) (ms : list model) : list Models.row :=
  match ms with
  | [] => rows
  | m :: rest =>
      insert_models (rows ++ [models_row (next_id (map Models.id rows)) ts m]) ts rest
  end.

Definition save_models (db : db_file) (ts : string) (ms : list model) : result db_file :=
  match ms with
  | [] => Ok db          (* nothing is executed, the commit is empty *)
  | _ =>
      rows <- table "models" (models db) ;;
      Ok {| system_metrics := system_metrics db;
            request_logs := request_logs db;
            models := Some (insert_models rows ts ms) |}
  end.

Record log_data := {
  log_timestamp : string;
  log_client_ip : string;
  log_model_name : string;
  log_input_tokens : json;
  log_output_tokens : json;
  log_response_time : float;
  log_status_code : Z;
  log_endpoint : string
}.

Definition save_request_log (numeric_text : string -> value) (db : db_file) (l : log_data)
    : result db_file :=
  rows <- table "request_logs" (request_logs db) ;;
  input <- bind_param numeric_text (log_input_tokens l) ;;
  output <- bind_param numeric_text (log_output_tokens l) ;;
  status <- bind_int (log_status_code l) ;;
  let r := {| RequestLogs.id := next_id (map RequestLogs.id rows);
              RequestLogs.timestamp := log_timestamp l;
              RequestLogs.client_ip := log_client_ip l;
              RequestLogs.model_name := log_model_name l;
              RequestLogs.input_tokens := input;
              RequestLogs.output_tokens := output;
              RequestLogs.response_time := store_real (log_response_time l);
              RequestLogs.status_code := status;
              RequestLogs.endpoint := log_endpoint l |} in
  Ok {| system_metrics := system_metrics db;
        request_logs := Some (rows ++ [r]);
        models := models db |}.

(** *** Reads *)

(** [ORDER BY timestamp]: the rows by ascending timestamp text, rows with equal
    timestamps in rowid order (the scan of the timestamp index).  With [DESC]
    the same index is scanned backwards. *)
Section OrderBy.
Context {A : Type} (key : A -> string).

Fixpoint insert_row (r : A) (sorted : list A) : list A :=
  match sorted with
  | [] => [r]
  | x :: rest =>
      if String.leb (key r) (key x) then r :: sorted else x :: insert_row r rest
  end.

Fixpoint order_by (rows : list A) : list A :=
  match rows with
  | [] => []
  | r :: rest => insert_row r (order_by rest)
  end.

Definition order_by_desc (rows : list A) : list A := rev (order_by rows).

Definition ascending (a b : A) : Prop := String.leb (key a) (key b) = true.
Definition descending (a b : A) : Prop := String.leb (key b) (key a) = true.
End OrderBy.

(** [MAX(timestamp)] over a table; NULL on an empty one. *)
Fixpoint max_text (l : list string) : option string :=
  match l with
  | [] => None
  | s :: rest =>
      match max_text rest with
      | None => Some s
      | Some m => Some (if String.ltb m s then s else m)
      end
  end.

(** The modifier string [f'-{hours} hours']. *)
Definition hours_modifier (hours : Z) : string :=
  ("-" ++ str_int hours ++ " hours")%string.

(** [timestamp > cutoff].  SQLite compares TEXT values under the default BINARY
    collation, byte by byte with a proper prefix sorting first, which is
    [String.compare]; a comparison with NULL selects no row. *)
Definition newer_than (cutoff : option string) (ts : string) : bool :=
  match cutoff with
  | None => false
  | Some c => String.ltb c ts
  end.

Section Reads.
(** What SQLite makes of [datetime('now', modifier)] when the query runs: the
    UTC clock moved by the modifier, as [YYYY-MM-DD HH:MM:SS], or NULL when
    it cannot read the modifier. *)
Variable datetime_now : string -> option string.

Definition get_recent_system_metrics (db : db_file) (hours : Z)
  : result (list SystemMetrics.row) :=
  rows <- table "system_metrics" (system_metrics db) ;;
  let cutoff := datetime_now (hours_modifier hours) in
  Ok (order_by SystemMetrics.timestamp
        (filter (fun r => newer_than cutoff (SystemMetrics.timestamp r)) rows)).

Definition get_recent_requests (db : db_file) (hours : Z)
  : result (list RequestLogs.row) :=
  rows <- table "request_logs" (request_logs db) ;;
  let cutoff := datetime_now (hours_modifier hours) in
  Ok (order_by_desc RequestLogs.timestamp
        (filter (fun r => newer_than cutoff (RequestLogs.timestamp r)) rows)).
End Reads.

Definition get_latest_models (db : db_file) : result (list Models.row) :=
  rows <- table "models" (models db) ;;
  match max_text (map Models.timestamp rows) with
  | None => Ok []
  | Some latest => Ok (filter (fun r => String.eqb (Models.timestamp r) latest) rows)
  end.

(** ** Timestamps

    The sampler stamps a row with [datetime.now().isoformat()]; SQLite's
    [datetime()] renders the cutoff of a window.  Both print the fields of a
    calendar time in fixed-width decimal. *)

Record datetime := {
  year : N;
  month : N;
  day : N;
  hour : N;
  minute : N;
  second : N;
  microsecond : N
}.

Definition well_formed (d : datetime) : Prop :=
  (year d < 10000 /\ month d < 100 /\ day d < 100 /\ hour d < 100 /\
   minute d < 100 /\ second d < 100 /\ microsecond d < 1000000)%N.

(** [%0<width>d] of a number that fits the width. *)
Fixpoint digits (width : nat) (n : N) : string :=
  match width with
  | O => ""
  | S w => (digits w (n / 10) ++ String (ascii_of_N (48 + n mod 10)) "")%string
  end.

Definition date_text (d : datetime) : string :=
  (digits 4 (year d) ++ "-" ++ digits 2 (month d) ++ "-" ++ digits 2 (day d))%string.

Definition time_text (d : datetime) : string :=
  (digits 2 (hour d) ++ ":" ++ digits 2 (minute d) ++ ":" ++ digits 2 (second d))%string.

(** Python: [YYYY-MM-DDTHH:MM:SS.ffffff], the fraction left out when it is 0. *)
Definition isoformat (d : datetime) : string :=
  (date_text d ++ "T" ++ time_text d ++
   (if (microsecond d =? 0)%N then "" else "." ++ digits 6 (microsecond d)))%string.

(** SQLite: [YYYY-MM-DD HH:MM:SS]. *)
Definition sqlite_datetime (d : datetime) : string :=
  (date_text d ++ " " ++ time_text d)%string.

Definition lex (c rest : comparison) : comparison :=
  match c with
  | Eq => rest
  | _ => c
  end.

Definition compare_date (a b : datetime) : comparison :=
  lex (year a ?= year b)%N (lex (month a ?= month b)%N (day a ?= day b)%N).

(** The order of two calendar times. *)
Definition compare_datetime (a b : datetime) : comparison :=
  lex (compare_date a b)
    (lex (hour a ?= hour b)%N
       (lex (minute a ?= minute b)%N
          (lex (second a ?= second b)%N (microsecond a ?= microsecond b)%N))).

Definition earlier (a b : datetime) : Prop := compare_datetime a b = Lt.

(** ** The upstream server *)

Definition OLLAMA_HOST : string := "http://localhost:11434".
Definition MONITOR_INTERVAL : Z := 5.

Record response := {
  status_code : Z;
  content : string;                        (* resp.content *)
  raw_headers : list (string * string);    (* resp.raw.headers.items() *)
  decoded : option json                    (* resp.json(); None when it raises *)
}.

(** One call of [requests.get/post/put/delete] with its keyword arguments; an
    argument that is not passed is empty or [None]. *)
Record upstream_call := {
  call_method : string;
  call_url : string;
  call_headers : list (string * string);
  call_params : list (string * string);
  call_json : option json;
  call_data : option string;
  call_timeout : option Z
}.

(** What the upstream does with a call: it answers, the transport fails, the
    client library breaks for another reason, or no byte ever comes back;
    [timeout_detail] is then the text of the [Timeout] that [requests] raises
    for a call that has a timeout. *)
Inductive behaviour :=
| Answers (r : response)
| Unreachable (detail : string)
| Breaks (detail : string)
| Silent (timeout_detail : string).

Definition upstream := upstream_call -> behaviour.

(** [requests] waits for a silent server until the timeout it was given and
    raises [Timeout], a [RequestException]; without a timeout it waits for
    ever, and the call never returns ([None]). *)
Definition requests_request (up : upstream) (c : upstream_call) : option (result response) :=
  match up c with
  | Answers r => Some (Ok r)
  | Unreachable detail => Some (Raise (RequestException detail))
  | Breaks detail => Some (Raise (OtherException detail))
  | Silent timeout_detail =>
      match call_timeout c with
      | Some _ => Some (Raise (RequestException timeout_detail))
      | None => None
      end
  end.

(** ** OllamaMonitor *)

Record OllamaMonitor := {
  host : string;
  interval : Z;
  running : bool;
  default_model : option string
}.

Definition api_endpoint (self : OllamaMonitor) : string := (host self ++ "/api")%string.

(** [requests.get(f"{self.api_endpoint}/tags")] *)
Definition tags_call (self : OllamaMonitor) : upstream_call :=
  {| call_method := "GET";
     call_url := (api_endpoint self ++ "/tags")%string;
     call_headers := [];
     call_params := [];
     call_json := None;
     call_data := None;
     call_timeout := None |}.

Definition get_server_status (self : OllamaMonitor) (up : upstream) : option bool :=
  match requests_request up (tags_call self) with
  | None => None
  | Some (Ok response) => Some (status_code response =? 200)
  | Some (Raise e) => Some false
  end.

(** *** Host and process introspection *)

(** A process as [psutil.process_iter] yields it, with the outcome of its
    [net_connections(kind='inet')]: the number of sockets, or an exception. *)
Record process := {
  info_pid : Z;
  info_name : string;
  info_cpu_percent : option float;
  info_memory_percent : option float;
  net_connections : result nat
}.

(** [str.lower] on ASCII text. *)
Definition lower_ascii (c : ascii) : ascii :=
  let n := N_of_ascii c in
  if ((65 <=? n) && (n <=? 90))%N then ascii_of_N (n + 32) else c.

Fixpoint lower (s : string) : string :=
  match s with
  | EmptyString => EmptyString
  | String c rest => String (lower_ascii c) (lower rest)
  end.

(** [needle in haystack] *)
Fixpoint contains (needle haystack : string) : bool :=
  String.prefix needle haystack ||
  match haystack with
  | EmptyString => false
  | String _ rest => contains needle rest
  end.

(** ['ollama' in proc.info['name'].lower()] *)
Definition is_ollama (proc : process) : bool := contains "ollama" (lower (info_name proc)).

Fixpoint get_ollama_process_info (procs : list process) : result (option process_info) :=
  match procs with
  | [] => Ok None
  | proc :: rest =>
      if is_ollama proc then
        match net_connections proc with
        | Ok n =>
            Ok (Some {| pid := info_pid proc;
                        process_cpu_percent := info_cpu_percent proc;
                        process_memory_percent := info_memory_percent proc;
                        connections := Z.of_nat n |})
        | Raise (AccessDenied _) =>
            Ok (Some {| pid := info_pid proc;
                        process_cpu_percent := info_cpu_percent proc;
                        process_memory_percent := info_memory_percent proc;
                        connections := -1 |})
        | Raise e => Raise e
        end
      else get_ollama_process_info rest
  end.

(** What one pass of the loop reads from the host: the clock, the figures of
    [get_system_metrics] and the process table. *)
Record host_state := {
  now_isoformat : string;
  system_state : system_info;
  processes : list process
}.

(** The database file and the events sent with [socketio.emit]. *)
Record world := {
  db : db_file;
  emitted : list (string * metrics)
}.

(** One pass of the [while self.running] loop of [run]: the world it leaves and
    the seconds it then sleeps.  [time.sleep(self.interval)] is inside the
    [try]: on a negative interval it raises once the row is written and the
    event sent, and the handler sleeps its 10 seconds. *)
Definition run_iteration (self : OllamaMonitor) (up : upstream) (h : host_state) (w : world)
  : option (world * Z) :=
  match get_server_status self up with
  | None => None
  | Some status =>
      let attempt :=
        process <- get_ollama_process_info (processes h) ;;
        let metrics := {| timestamp := now_isoformat h;
                          server_status := status;
                          system := system_state h;
                          ollama_process := process |} in
        db' <- save_system_metrics (db w) metrics ;;
        Ok {| db := db'; emitted := emitted w ++ [("update_metrics", metrics)] |} in
      match attempt with
      | Ok w' => Some (w', if interval self <? 0 then 10 else interval self)
      | Raise e => Some (w, 10)
      end
  end.

(** *** The generation test *)

(** Python truth of a model name: [None] and the empty string are false. *)
Definition truthy (name : option string) : bool :=
  match name with
  | None => false
  | Some s => negb (s =? "")%string
  end.

(** The model the test runs on: the argument, or [self.default_model] when the
    argument is empty; [None] when both are. *)
Definition chosen_model (self : OllamaMonitor) (model_name : option string) : option string :=
  let model_name :=
    if negb (truthy model_name) && truthy (default_model self)
    then default_model self else model_name in
  if truthy model_name then model_name else None.

(** [requests.post(f"{self.api_endpoint}/generate", json=data)] *)
Definition generate_call (self : OllamaMonitor) (model_name : string) : upstream_call :=
  {| call_method := "POST";
     call_url := (api_endpoint self ++ "/generate")%string;
     call_headers := [];
     call_params := [];
     call_json := Some (JObject [("model", JString model_name);
                                 ("prompt", JString "Hello, world!");
                                 ("stream", JBool false)]);
     call_data := None;
     call_timeout := None |}.

(** The body of the [try] once the answer is there. *)
Definition log_generation (numeric_text : string -> value) (db : db_file) (now : string)
    (model_name : string) (response_time : float) (response : response)
    : result (option float * db_file) :=
  if status_code response =? 200 then
    match decoded response with
    | Some (JObject result) =>
        let log_data :=
          {| log_timestamp := now;
             log_client_ip := "127.0.0.1";
             log_model_name := model_name;
             log_input_tokens := dict_get result "prompt_eval_count" (JInt 0);
             log_output_tokens := dict_get result "eval_count" (JInt 0);
             log_response_time := response_time;
             log_status_code := status_code response;
             log_endpoint := "/api/generate" |} in
        db' <- save_request_log numeric_text db log_data ;;
        Ok (Some response_time, db')
    | Some _ => Raise (OtherException "object has no attribute 'get'")
    | None => Raise (RequestException "Expecting value")
    end
  else Ok (None, db).

(** [test_model_generation]: the value returned and the database it leaves.
    [start_time] and [end_time] are the two readings of [time.time()], [now]
    is [datetime.now().isoformat()] when the row is built. *)
Definition test_model_generation (numeric_text : string -> value) (self : OllamaMonitor)
    (up : upstream) (start_time end_time : float) (now : string) (db : db_file)
    (model_name : option string) : option (option float * db_file) :=
  match chosen_model self model_name with
  | None => Some (None, db)
  | Some name =>
      match requests_request up (generate_call self name) with
      | None => None
      | Some outcome =>
          let response_time := (end_time - start_time)%float in
          match (response <- outcome ;;
                 log_generation numeric_text db now name response_time response) with
          | Ok r => Some r
          | Raise e => Some (None, db)
          end
      end
  end.

(** ** The web application *)

(** The inbound request as the view reads it. *)
Record request := {
  method : string;                       (* request.method *)
  args : list (string * string);         (* request.args, every pair of the query string *)
  headers : list (string * string);      (* request.headers *)
  get_data : string;                     (* request.get_data() *)
  get_json : option json;                (* request.get_json(silent=True) *)
  remote_addr : string
}.

Inductive body :=
| Content (bytes : string)
| Jsonify (members : list (string * string)).

(** The [(body, status, headers)] a view returns. *)
Record flask_response := {
  response_body : body;
  response_status : Z;
  response_headers : list (string * string)
}.

(** [{key: value for (key, value) in request.headers if key != 'Host'}] *)
Definition without_host (headers : list (string * string)) : list (string * string) :=
  filter (fun '(key, _) => negb (key =? "Host")%string) headers.

(** [request.args] is a [MultiDict], and [requests] reads the mapping it gets
    as [params] through [items()]: each key once, in the order of its first
    appearance and with its first value. *)
Fixpoint first_values (seen : list string) (args : list (string * string))
    : list (string * string) :=
  match args with
  | [] => []
  | (key, v) :: rest =>
      if existsb (String.eqb key) seen then first_values seen rest
      else (key, v) :: first_values (key :: seen) rest
  end.

Definition multidict_items (args : list (string * string)) : list (string * string) :=
  first_values [] args.

(** The upstream call the view makes for a request; [None] for a method that
    falls through to the final [else]. *)
Definition proxy_call (req : request) (path : string) : option upstream_call :=
  let url := (OLLAMA_HOST ++ "/" ++ path)%string in
  let headers := without_host (headers req) in
  if (method req =? "GET")%string then
    Some {| call_method := "GET"; call_url := url; call_headers := headers;
            call_params := multidict_items (args req); call_json := None; call_data := None;
            call_timeout := Some 10 |}
  else if (method req =? "POST")%string then
    Some {| call_method := "POST"; call_url := url; call_headers := headers;
            call_params := []; call_json := get_json req; call_data := None;
            call_timeout := Some 10 |}
  else if (method req =? "PUT")%string then
    Some {| call_method := "PUT"; call_url := url; call_headers := headers;
            call_params := []; call_json := None; call_data := Some (get_data req);
            call_timeout := Some 10 |}
  else if (method req =? "DELETE")%string then
    Some {| call_method := "DELETE"; call_url := url; call_headers := headers;
            call_params := []; call_json := None; call_data := None;
            call_timeout := Some 10 |}
  else None.

(** [proxy_ollama(path)]: the response and the database file the view leaves. *)
Definition proxy_ollama (up : upstream) (file : db_file) (req : request) (path : string)
  : option (flask_response * db_file) :=
  let db := OllamaMetricsDB file in
  match proxy_call req path with
  | None =>
      Some ({| response_body := Jsonify [("error", "Method not allowed")];
               response_status := 405;
               response_headers := [] |}, db)
  | Some call =>
      match requests_request up call with
      | None => None
      | Some (Ok resp) =>
          Some ({| response_body := Content (content resp);
                   response_status := status_code resp;
                   response_headers := raw_headers resp |}, db)
      | Some (Raise (RequestException detail)) =>
          Some ({| response_body := Jsonify [("error", "Upstream API request failed");
                                             ("details", detail)];
                   response_status := 502;
                   response_headers := [] |}, db)
      | Some (Raise e) =>
          Some ({| response_body := Jsonify [("error", "Unexpected error occurred");
                                             ("details", str_exn e)];
                   response_status := 500;
                   response_headers := [] |}, db)
      end
  end.

(** *** Aggregate statistics *)

(** [float(n)] for a Python [int]: the nearest double, [OverflowError] beyond
    the largest one. *)
Definition float_of_int (n : Z) : result float :=
  let f := SF2Prim (binary_normalize prec emax n 0 false) in
  if is_infinity f then Raise (OtherException "int too large to convert to float")
  else Ok f.

(** [a + b] on stored values. *)
Definition py_add (a b : value) : result value :=
  match a, b with
  | VInt x, VInt y => Ok (VInt (x + y))
  | VInt x, VFloat g => f <- float_of_int x ;; Ok (VFloat (f + g))
  | VFloat f, VInt y => g <- float_of_int y ;; Ok (VFloat (f + g))
  | VFloat f, VFloat g => Ok (VFloat (f + g))
  | _, _ => Raise (OtherException "unsupported operand type(s) for +")
  end.

(** [sum(values)], from the integer 0. *)
Definition py_sum (values : list value) : result value :=
  fold_left (fun acc v => a <- acc ;; py_add a v) values (Ok (VInt 0)).

(** [endpoint_counts[endpoint] = endpoint_counts.get(endpoint, 0) + 1] on a
    dictionary in insertion order. *)
Fixpoint count_endpoint (endpoint_counts : list (string * Z)) (endpoint : string)
  : list (string * Z) :=
  match endpoint_counts with
  | [] => [(endpoint, 1)]
  | (k, n) :: rest =>
      if (k =? endpoint)%string then (k, n + 1) :: rest
      else (k, n) :: count_endpoint rest endpoint
  end.

(** [max(endpoint_counts, key=endpoint_counts.get, default=None)]: the first key
    with the largest count. *)
Definition max_by_count (endpoint_counts : list (string * Z)) : option string :=
  match endpoint_counts with
  | [] => None
  | first :: rest =>
      Some (fst (fold_left (fun best kv => if snd best <? snd kv then kv else best)
                   rest first))
  end.

(** [[log['response_time'] for log in logs if log['response_time'] is not None]] *)
Definition response_times (logs : list RequestLogs.row) : list value :=
  filter (fun v => match v with VNone => false | _ => true end)
    (map RequestLogs.response_time logs).

(** [total / n] for a sum and a positive length. *)
Definition py_truediv (total : value) (n : Z) : result value :=
  d <- float_of_int n ;;
  match total with
  | VFloat f => Ok (VFloat (f / d))
  | VInt x => f <- float_of_int x ;; Ok (VFloat (f / d))
  | _ => Raise (OtherException "unsupported operand type(s) for /")
  end.

Record request_stats := {
  total_requests : Z;
  total_input_tokens : value;
  total_output_tokens : value;
  avg_response_time : value;
  most_active_endpoint : option string
}.

Definition api_request_stats (datetime_now : string -> option string)
    (file : db_file) (hours_arg : option Z) : result request_stats :=
  let db := OllamaMetricsDB file in
  let hours := get_default hours_arg 24 in
  logs <- get_recent_requests datetime_now db hours ;;
  let total_requests := Z.of_nat (List.length logs) in
  total_input_tokens <- py_sum (map RequestLogs.input_tokens logs) ;;
  total_output_tokens <- py_sum (map RequestLogs.output_tokens logs) ;;
  let response_times := response_times logs in
  avg_response_time <-
    match response_times with
    | [] => Ok (VInt 0)
    | _ => total <- py_sum response_times ;;
           py_truediv total (Z.of_nat (List.length response_times))
    end ;;
  let endpoint_counts := fold_left count_endpoint (map RequestLogs.endpoint logs) [] in
  Ok {| total_requests := total_requests;
        total_input_tokens := total_input_tokens;
        total_output_tokens := total_output_tokens;
        avg_response_time := avg_response_time;
        most_active_endpoint := max_by_count endpoint_counts |}.

(** ** Statements and sample data *)

(** What a REAL column gives back for a float that was written, by the
    class of the float: NULL for NaN, 0.0 for either zero, the float itself
    otherwise. *)
Definition reads_back (written : float) (read : value) : Prop :=
  match Prim2SF written with
  | S754_nan => read = VNone
  | S754_zero _ => read = VFloat 0
  | S754_infinity _ | S754_finite _ _ _ => read = VFloat written
  end.

(** The same for a percentage that [psutil] may have left at [None]. *)
Definition reads_back_percent (written : option float) (read : value) : Prop :=
  match written with
  | Some x => reads_back x read
  | None => read = VNone
  end.

(** A row holds a sample when every column gives back what the sample
    carried: the timestamp and the two counters as they are, the status as 0
    or 1, each percentage as its REAL column gives it back, and for a process
    that was not found the float 0.0 twice and no connection. *)
Definition holds_sample (r : SystemMetrics.row) (m : metrics) : Prop :=
  SystemMetrics.timestamp r = timestamp m /\
  SystemMetrics.server_status r = (if server_status m then 1 else 0) /\
  reads_back (cpu_percent (system m)) (SystemMetrics.cpu_percent r) /\
  reads_back (memory_percent (system m)) (SystemMetrics.memory_percent r) /\
  reads_back (disk_percent (system m)) (SystemMetrics.disk_percent r) /\
  SystemMetrics.network_bytes_sent r = network_bytes_sent (system m) /\
  SystemMetrics.network_bytes_recv r = network_bytes_recv (system m) /\
  match ollama_process m with
  | Some p =>
      reads_back_percent (process_cpu_percent p) (SystemMetrics.ollama_cpu_percent r) /\
      reads_back_percent (process_memory_percent p) (SystemMetrics.ollama_memory_percent r) /\
      SystemMetrics.ollama_connections r = connections p
  | None =>
      SystemMetrics.ollama_cpu_percent r = VFloat 0 /\
      SystemMetrics.ollama_memory_percent r = VFloat 0 /\
      SystemMetrics.ollama_connections r = 0
  end.

(** The rows one batch adds: one per model, in order, under the batch's
    timestamp. *)
Definition batch_rows (ts : string) (batch : list model) (rows : list Models.row) : Prop :=
  Forall2 (fun m r => r = models_row (Models.id r) ts m) batch rows.

Module Sample.

Definition half_past_midnight : datetime :=
  {| year := 2024; month := 1; day := 1; hour := 0; minute := 30; second := 0;
     microsecond := 0 |}.

Definition noon : datetime :=
  {| year := 2024; month := 1; day := 1; hour := 12; minute := 0; second := 0;
     microsecond := 0 |}.

Definition half_past_noon : datetime :=
  {| year := 2024; month := 1; day := 1; hour := 12; minute := 30; second := 0;
     microsecond := 250 |}.

(** A clock that reads 13:00:00 UTC on 2024-01-01 and is asked for the last
    hour: [datetime('now', '-1 hours')] is noon. *)
Definition one_o_clock (modifier : string) : option string :=
  if (modifier =? "-1 hours")%string then Some (sqlite_datetime noon) else None.

(** SQLite on the texts these samples bind: a run of at most 18 decimal
    digits reads as that integer, and any other text is kept as text. *)
Fixpoint digits_value (acc : Z) (s : string) : option Z :=
  match s with
  | EmptyString => Some acc
  | String c rest =>
      let n := N_of_ascii c in
      if ((48 <=? n) && (n <=? 57))%N then digits_value (10 * acc + (Z.of_N n - 48)) rest
      else None
  end.

Definition numeric_text (s : string) : value :=
  if ((1 <=? String.length s) && (String.length s <=? 18))%nat then
    match digits_value 0 s with
    | Some n => VInt n
    | None => VStr s
    end
  else VStr s.

Definition idle : system_info :=
  {| cpu_percent := 12.5; memory_percent := 40.25; disk_percent := 71;
     network_bytes_sent := 1024; network_bytes_recv := 4096 |}.

Definition sample_at (d : datetime) : metrics :=
  {| timestamp := isoformat d; server_status := true; system := idle;
     ollama_process := None |}.

Definition row_at (rowid : Z) (d : datetime) : SystemMetrics.row :=
  {| SystemMetrics.id := rowid;
     SystemMetrics.timestamp := isoformat d;
     SystemMetrics.server_status := 1;
     SystemMetrics.cpu_percent := VFloat 12.5;
     SystemMetrics.memory_percent := VFloat 40.25;
     SystemMetrics.disk_percent := VFloat 71;
     SystemMetrics.network_bytes_sent := 1024;
     SystemMetrics.network_bytes_recv := 4096;
     SystemMetrics.ollama_cpu_percent := VFloat 0;
     SystemMetrics.ollama_memory_percent := VFloat 0;
     SystemMetrics.ollama_connections := 0 |}.

Definition request_at (rowid : Z) (d : datetime) : RequestLogs.row :=
  {| RequestLogs.id := rowid;
     RequestLogs.timestamp := isoformat d;
     RequestLogs.client_ip := "127.0.0.1";
     RequestLogs.model_name := "llama3";
     RequestLogs.input_tokens := VInt 5;
     RequestLogs.output_tokens := VInt 7;
     RequestLogs.response_time := VFloat 0.5;
     RequestLogs.status_code := 200;
     RequestLogs.endpoint := "/api/generate" |}.

(** The store after one sample and one request log, both written at 00:30. *)
Definition after_midnight : db_file :=
  {| system_metrics := Some [row_at 1 half_past_midnight];
     request_logs := Some [request_at 1 half_past_midnight];
     models := Some [] |}.

End Sample.

Module SampleRoundTrip.

Definition quarter_to_one : datetime :=
  {| year := 2024; month := 1; day := 1; hour := 12; minute := 45; second := 0;
     microsecond := 0 |}.

(** Two samples of the last hour. *)
Definition samples : list metrics :=
  [Sample.sample_at Sample.half_past_noon; Sample.sample_at quarter_to_one].

Definition stored : db_file :=
  {| system_metrics := Some [Sample.row_at 1 Sample.half_past_noon;
                             Sample.row_at 2 quarter_to_one];
     request_logs := Some [];
     models := Some [] |}.

(** A sample whose processor load is the negative zero and whose disk usage
    could not be computed. *)
Definition odd_figures : metrics :=
  {| timestamp := isoformat quarter_to_one;
     server_status := true;
     system := {| cpu_percent := (-0)%float; memory_percent := 40.25; disk_percent := nan;
                  network_bytes_sent := 1024; network_bytes_recv := 4096 |};
     ollama_process := None |}.

End SampleRoundTrip.

Module SampleModels.

Definition llama : model :=
  {| name := Some "llama3:8b";
     size := Some 4661224676;
     model_modified_at := Some "2024-05-01T10:00:00Z";
     details := Some {| details_parameter_size := Some "8B";
                        details_family := Some "llama" |} |}.

Definition phi : model :=
  {| name := Some "phi3"; size := None; model_modified_at := None; details := None |}.

Definition morning : string := "2024-01-01T08:00:00.000000".
Definition evening : string := "2024-01-01T20:00:00.000000".

(** The store after the morning refresh listed both models... *)
Definition after_morning : db_file :=
  {| system_metrics := Some [];
     request_logs := Some [];
     models := Some [models_row 1 morning llama; models_row 2 morning phi] |}.

(** ... and after the evening refresh listed one. *)
Definition after_evening : db_file :=
  {| system_metrics := Some [];
     request_logs := Some [];
     models := Some [models_row 1 morning llama; models_row 2 morning phi;
                     models_row 3 evening phi] |}.

End SampleModels.

(** An upstream call carries an inbound call over when it has the same method,
    the same query parameters, the headers but [Host], and the body: the raw
    bytes, or the JSON value the body holds. *)
Definition carries_body (req : request) (call : upstream_call) : Prop :=
  match call_data call, call_json call with
  | Some bytes, _ => bytes = get_data req
  | None, Some j => get_json req = Some j
  | None, None => get_data req = ""
  end.

Definition carried_over (req : request) (call : upstream_call) : Prop :=
  call_method call = method req /\
  call_params call = args req /\
  call_headers call = without_host (headers req) /\
  carries_body req call.

Module SampleProxy.

Definition delete_body : json := JObject [("model", JString "llama3")].

(** A text between double quotes. *)
Definition quoted (s : string) : string :=
  String (ascii_of_nat 34) (s ++ String (ascii_of_nat 34) "")%string.

(** [DELETE /ollama/api/delete] with the model to delete in the body. *)
Definition delete_request : request :=
  {| method := "DELETE";
     args := [];
     headers := [("Host", "monitor:8080"); ("Content-Type", "application/json")];
     get_data := ("{" ++ quoted "model" ++ ": " ++ quoted "llama3" ++ "}")%string;
     get_json := Some delete_body;
     remote_addr := "10.0.0.7" |}.

Definition delete_call : upstream_call :=
  {| call_method := "DELETE";
     call_url := "http://localhost:11434/api/delete";
     call_headers := [("Content-Type", "application/json")];
     call_params := [];
     call_json := None;
     call_data := None;
     call_timeout := Some 10 |}.

(** The same request sent as a [POST]. *)
Definition post_request : request :=
  {| method := "POST";
     args := args delete_request;
     headers := headers delete_request;
     get_data := get_data delete_request;
     get_json := get_json delete_request;
     remote_addr := remote_addr delete_request |}.

(** [GET /ollama/api/tags?name=llama3&name=phi3] *)
Definition search_request : request :=
  {| method := "GET";
     args := [("name", "llama3"); ("name", "phi3")];
     headers := [("Host", "monitor:8080")];
     get_data := "";
     get_json := None;
     remote_addr := "10.0.0.7" |}.

(** [GET /ollama/api/tags] *)
Definition tags_request : request :=
  {| method := "GET";
     args := [];
     headers := [("Host", "monitor:8080"); ("Accept", "*/*")];
     get_data := "";
     get_json := None;
     remote_addr := "10.0.0.7" |}.

Definition tags_call : upstream_call :=
  {| call_method := "GET";
     call_url := "http://localhost:11434/api/tags";
     call_headers := [("Accept", "*/*")];
     call_params := [];
     call_json := None;
     call_data := None;
     call_timeout := Some 10 |}.

Definition tags_answer : response :=
  {| status_code := 200;
     content := "{models: []}";
     raw_headers := [("Content-Type", "application/json")];
     decoded := Some (JObject [("models", JArray [])]) |}.

Definition head_request : request :=
  {| method := "HEAD";
     args := [];
     headers := [("Host", "monitor:8080")];
     get_data := "";
     get_json := None;
     remote_addr := "10.0.0.7" |}.

Definition answering : upstream := fun _ => Answers tags_answer.
Definition refusing : upstream := fun _ => Unreachable "Connection refused".
Definition breaking : upstream := fun _ => Breaks "codec can't decode byte".
Definition read_timed_out : string :=
  "HTTPConnectionPool(host='localhost', port=11434): Read timed out. (read timeout=10)".
Definition silent : upstream := fun _ => Silent read_timed_out.

End SampleProxy.

Module SampleGeneration.

Definition monitor : OllamaMonitor :=
  {| host := OLLAMA_HOST; interval := MONITOR_INTERVAL; running := true;
     default_model := Some "llama3" |}.

Definition now : string := "2024-01-01T12:30:00.000250".

(** A 200 whose body is not JSON. *)
Definition garbled : response :=
  {| status_code := 200;
     content := "<html>ok</html>";
     raw_headers := [("Content-Type", "text/html")];
     decoded := None |}.

(** A 200 that reports 5 prompt tokens and 7 generated tokens. *)
Definition generated : response :=
  {| status_code := 200;
     content := "{response: Hi, prompt_eval_count: 5, eval_count: 7}";
     raw_headers := [("Content-Type", "application/json")];
     decoded := Some (JObject [("response", JString "Hi");
                               ("prompt_eval_count", JInt 5);
                               ("eval_count", JInt 7)]) |}.

Definition overloaded : response :=
  {| status_code := 503;
     content := "busy";
     raw_headers := [];
     decoded := None |}.

(** [Sample.after_midnight] after a test answered by [generated]. *)
Definition after_test : db_file :=
  {| system_metrics := Some [Sample.row_at 1 Sample.half_past_midnight];
     request_logs :=
       Some [Sample.request_at 1 Sample.half_past_midnight;
             {| RequestLogs.id := 2;
                RequestLogs.timestamp := now;
                RequestLogs.client_ip := "127.0.0.1";
                RequestLogs.model_name := "llama3";
                RequestLogs.input_tokens := VInt 5;
                RequestLogs.output_tokens := VInt 7;
                RequestLogs.response_time := VFloat 1.5;
                RequestLogs.status_code := 200;
                RequestLogs.endpoint := "/api/generate" |}];
     models := Some [] |}.

End SampleGeneration.

Module SampleHost.

Definition shell : process :=
  {| info_pid := 1; info_name := "bash"; info_cpu_percent := Some 0.5%float;
     info_memory_percent := Some 0.25%float; net_connections := Ok 0%nat |}.

(** The server runs under another account: its sockets cannot be listed. *)
Definition guarded_server : process :=
  {| info_pid := 4242; info_name := "Ollama.exe"; info_cpu_percent := Some 37.5%float;
     info_memory_percent := Some 12.25%float;
     net_connections := Raise (AccessDenied "(pid=4242)") |}.

Definition half_past_noon (procs : list process) : host_state :=
  {| now_isoformat := isoformat Sample.half_past_noon;
     system_state := Sample.idle;
     processes := procs |}.

Definition before : world :=
  {| db := OllamaMetricsDB new_file; emitted := [] |}.

End SampleHost.

Module SampleStats.

Definition last_evening : datetime :=
  {| year := 2023; month := 12; day := 31; hour := 21; minute := 15; second := 9;
     microsecond := 120000 |}.

(** A store whose only request log is from the day before. *)
Definition yesterday : db_file :=
  {| system_metrics := Some [];
     request_logs := Some [Sample.request_at 1 last_evening];
     models := Some [] |}.

End SampleStats.

(** ** The rest of the store, the monitor and the web application *)

(** *** Requests per client *)

(** One row of [get_client_ip_stats]: [(client_ip, request_count, last_request)]. *)
Record ip_stat := {
  stat_client_ip : string;
  request_count : Z;
  last_request : string
}.

(** [GROUP BY client_ip] with [COUNT( * )] and [MAX(timestamp)]: a row joins the
    group of its address or opens one. *)
Fixpoint group_by_client_ip (groups : list ip_stat) (r : RequestLogs.row) : list ip_stat :=
  match groups with
  | [] =>
      [{| stat_client_ip := RequestLogs.client_ip r;
          request_count := 1;
          last_request := RequestLogs.timestamp r |}]
  | g :: rest =>
      if (stat_client_ip g =? RequestLogs.client_ip r)%string then
        {| stat_client_ip := stat_client_ip g;
           request_count := request_count g + 1;
           last_request :=
             if String.ltb (last_request g) (RequestLogs.timestamp r)
             then RequestLogs.timestamp r else last_request g |} :: rest
      else g :: group_by_client_ip rest r
  end.

(** [ORDER BY request_count DESC].  SQL leaves the order of groups with equal
    counts open; SQLite forms the groups in the order of [client_ip] and its
    sorter keeps that order among equal counts. *)
Fixpoint insert_stat (s : ip_stat) (sorted : list ip_stat) : list ip_stat :=
  match sorted with
  | [] => [s]
  | x :: rest =>
      if request_count x <=? request_count s then s :: sorted else x :: insert_stat s rest
  end.

Fixpoint order_by_request_count_desc (stats : list ip_stat) : list ip_stat :=
  match stats with
  | [] => []
  | s :: rest => insert_stat s (order_by_request_count_desc rest)
  end.

Definition get_client_ip_stats (datetime_now : string -> option string) (db : db_file)
    (hours : Z) : result (list ip_stat) :=
  rows <- table "request_logs" (request_logs db) ;;
  let cutoff := datetime_now (hours_modifier hours) in
  let window := filter (fun r => newer_than cutoff (RequestLogs.timestamp r)) rows in
  Ok (order_by_request_count_desc
        (order_by stat_client_ip (fold_left group_by_client_ip window []))).

(** [api_ip_stats]: the same three fields per address, as a list of objects. *)
Definition api_ip_stats (datetime_now : string -> option string) (file : db_file)
    (hours_arg : option Z) : result (list ip_stat) :=
  let db := OllamaMetricsDB file in
  let hours := get_default hours_arg 24 in
  get_client_ip_stats datetime_now db hours.

(** *** Pages of request logs *)

(** The bound of a slice: a negative index counts from the end, and both ends
    are clamped to the list. *)
Definition slice_index (i len : Z) : Z :=
  if i <? 0 then Z.max (i + len) 0 else Z.min i len.

(** [l[start:stop]] *)
Definition py_slice {A : Type} (l : list A) (start stop : Z) : list A :=
  let len := Z.of_nat (List.length l) in
  let lo := slice_index start len in
  let hi := slice_index stop len in
  firstn (Z.to_nat (hi - lo)) (skipn (Z.to_nat lo) l).

Definition api_request_logs (datetime_now : string -> option string) (file : db_file)
    (hours_arg limit_arg offset_arg : option Z) : result (list RequestLogs.row) :=
  let db := OllamaMetricsDB file in
  let hours := get_default hours_arg 24 in
  let limit := get_default limit_arg 100 in
  let offset := get_default offset_arg 0 in
  logs <- get_recent_requests datetime_now db hours ;;
  Ok (py_slice logs offset (offset + limit)).

(** *** The republishing loop *)

(** [metrics[-1]] behind [if metrics]. *)
Fixpoint last_row {A : Type} (l : list A) : option A :=
  match l with
  | [] => None
  | [x] => Some x
  | _ :: rest => last_row rest
  end.

(** One pass of the loop of [emit_system_metrics]: the row it emits as
    [update_metrics], if any. *)
Definition emit_system_metrics_pass (datetime_now : string -> option string) (db : db_file)
  : result (option SystemMetrics.row) :=
  metrics <- get_recent_system_metrics datetime_now db 1 ;;
  Ok (last_row metrics).

(** *** The sampler's loop *)

(** [run] over a finite schedule: for each turn of the loop the value of
    [self.running] that the [while] reads and the state of the host.  The loop
    ends at the first turn that reads [False]. *)
Fixpoint run (self : OllamaMonitor) (up : upstream) (turns : list (bool * host_state))
    (w : world) : option world :=
  match turns with
  | [] => Some w
  | (still_running, h) :: rest =>
      if still_running then
        match run_iteration self up h w with
        | None => None
        | Some (w', _) => run self up rest w'
        end
      else Some w
  end.

(** *** Model discovery *)

(** Python truth of a decoded JSON value. *)
Definition json_truthy (v : json) : bool :=
  match v with
  | JNull => false
  | JBool b => b
  | JInt z => negb (z =? 0)
  | JFloat f => negb (f =? 0)%float
  | JString s => negb (s =? "")%string
  | JArray items => match items with [] => false | _ => true end
  | JObject members => match members with [] => false | _ => true end
  end.

(** [get_models]: the value returned and, when the assignment runs, the value
    assigned to [self.default_model].  [models[0].get('name')] only works on a
    list that starts with an object; anything else raises inside the [try]. *)
Definition get_models (self : OllamaMonitor) (up : upstream) : option (json * option json) :=
  match requests_request up (tags_call self) with
  | None => None
  | Some (Raise e) => Some (JArray [], None)
  | Some (Ok response) =>
      if status_code response =? 200 then
        match decoded response with
        | Some (JObject body) =>
            let models := dict_get body "models" (JArray []) in
            if json_truthy models && negb (truthy (default_model self)) then
              match models with
              | JArray (JObject first :: _) => Some (models, Some (dict_get first "name" JNull))
              | _ => Some (JArray [], None)
              end
            else Some (models, None)
        | _ => Some (JArray [], None)
        end
      else Some (JArray [], None)
  end.

(** *** What the store keeps *)

(** Rowids grow along each table. *)
Definition increasing (ids : list Z) : Prop := StronglySorted Z.lt ids.

Definition rowids_increasing (db : db_file) : Prop :=
  increasing (map SystemMetrics.id (rows_of (system_metrics db))) /\
  increasing (map RequestLogs.id (rows_of (request_logs db))) /\
  increasing (map Models.id (rows_of (models db))).

(** [db'] holds every row of [db], in place, and possibly more after them. *)
Definition extends (db db' : db_file) : Prop :=
  (exists more, rows_of (system_metrics db') = rows_of (system_metrics db) ++ more) /\
  (exists more, rows_of (request_logs db') = rows_of (request_logs db) ++ more) /\
  (exists more, rows_of (models db') = rows_of (models db) ++ more).

(** The number of rows of a client inside a list of rows, and the number of
    logs on an endpoint. *)
Definition rows_of_client (ip : string) (rows : list RequestLogs.row) : list RequestLogs.row :=
  filter (fun r => (RequestLogs.client_ip r =? ip)%string) rows.

Definition hits (endpoint : string) (endpoints : list string) : Z :=
  Z.of_nat (List.length (filter (fun e => (e =? endpoint)%string) endpoints)).

Module SampleWrites.

Definition entry : log_data :=
  {| log_timestamp := isoformat Sample.half_past_noon;
     log_client_ip := "10.0.0.7";
     log_model_name := "phi3";
     log_input_tokens := JInt 11;
     log_output_tokens := JNull;
     log_response_time := 2.5;
     log_status_code := 200;
     log_endpoint := "/api/chat" |}.

Definition entry_row : RequestLogs.row :=
  {| RequestLogs.id := 2;
     RequestLogs.timestamp := isoformat Sample.half_past_noon;
     RequestLogs.client_ip := "10.0.0.7";
     RequestLogs.model_name := "phi3";
     RequestLogs.input_tokens := VInt 11;
     RequestLogs.output_tokens := VNone;
     RequestLogs.response_time := VFloat 2.5;
     RequestLogs.status_code := 200;
     RequestLogs.endpoint := "/api/chat" |}.

(** [Sample.after_midnight] with [entry] logged after it. *)
Definition logged : db_file :=
  {| system_metrics := Some [Sample.row_at 1 Sample.half_past_midnight];
     request_logs := Some [Sample.request_at 1 Sample.half_past_midnight; entry_row];
     models := Some [] |}.

(** [Sample.after_midnight] with a sample written after it. *)
Definition sampled : db_file :=
  {| system_metrics := Some [Sample.row_at 1 Sample.half_past_midnight;
                             Sample.row_at 2 SampleRoundTrip.quarter_to_one];
     request_logs := Some [Sample.request_at 1 Sample.half_past_midnight];
     models := Some [] |}.

End SampleWrites.

(** The count a dictionary of counts holds for a key, 0 for a key it lacks. *)
Fixpoint count_of (key : string) (counts : list (string * Z)) : Z :=
  match counts with
  | [] => 0
  | (k, n) :: rest => if (k =? key)%string then n else count_of key rest
  end.

(** The distinct entries of a list in the order in which they first appear,
    those in [seen] left out. *)
Fixpoint first_seen (seen l : list string) : list string :=
  match l with
  | [] => []
  | e :: rest =>
      if existsb (String.eqb e) seen then first_seen seen rest
      else e :: first_seen (seen ++ [e]) rest
  end.

Fixpoint sum_Z (l : list Z) : Z :=
  match l with
  | [] => 0
  | z :: rest => z + sum_Z rest
  end.

Module SampleStatsLogs.

(** A second log on [/api/chat], written later, without an output count. *)
Definition chat_row : RequestLogs.row :=
  {| RequestLogs.id := 3;
     RequestLogs.timestamp := isoformat SampleRoundTrip.quarter_to_one;
     RequestLogs.client_ip := "10.0.0.7";
     RequestLogs.model_name := "phi3";
     RequestLogs.input_tokens := VInt 4;
     RequestLogs.output_tokens := VInt 9;
     RequestLogs.response_time := VFloat 1.5;
     RequestLogs.status_code := 200;
     RequestLogs.endpoint := "/api/chat" |}.

Definition counted_row : RequestLogs.row :=
  {| RequestLogs.id := 2;
     RequestLogs.timestamp := isoformat Sample.half_past_noon;
     RequestLogs.client_ip := "10.0.0.7";
     RequestLogs.model_name := "phi3";
     RequestLogs.input_tokens := VInt 11;
     RequestLogs.output_tokens := VInt 2;
     RequestLogs.response_time := VFloat 2.5;
     RequestLogs.status_code := 200;
     RequestLogs.endpoint := "/api/chat" |}.

(** Three logs of the day, all with integer counts: one on [/api/generate],
    then two on [/api/chat]. *)
Definition three_logs : db_file :=
  {| system_metrics := Some [];
     request_logs := Some [Sample.request_at 1 Sample.half_past_midnight;
                           counted_row; chat_row];
     models := Some [] |}.

End SampleStatsLogs.

(** A group sums up the rows of its client: it counts them, and its
    [last_request] is the timestamp of one of them that none exceeds. *)
Definition summarises (rows : list RequestLogs.row) (s : ip_stat) : Prop :=
  request_count s = Z.of_nat (List.length (rows_of_client (stat_client_ip s) rows)) /\
  (exists r, In r rows /\ RequestLogs.client_ip r = stat_client_ip s /\
             RequestLogs.timestamp r = last_request s) /\
  (forall r, In r rows -> RequestLogs.client_ip r = stat_client_ip s ->
             String.leb (RequestLogs.timestamp r) (last_request s) = true).

(** The group a row opens, and a group after a row has joined it. *)
Definition new_group (r : RequestLogs.row) : ip_stat :=
  {| stat_client_ip := RequestLogs.client_ip r;
     request_count := 1;
     last_request := RequestLogs.timestamp r |}.

Definition joined (g : ip_stat) (r : RequestLogs.row) : ip_stat :=
  {| stat_client_ip := stat_client_ip g;
     request_count := request_count g + 1;
     last_request :=
       if String.ltb (last_request g) (RequestLogs.timestamp r)
       then RequestLogs.timestamp r else last_request g |}.

(** What the grouping keeps while it takes the rows in. *)
Definition grouped (rows : list RequestLogs.row) (groups : list ip_stat) : Prop :=
  NoDup (map stat_client_ip groups) /\
  Forall (summarises rows) groups /\
  forall r, In r rows -> In (RequestLogs.client_ip r) (map stat_client_ip groups).

Module SampleClients.

Definition other_row : RequestLogs.row :=
  {| RequestLogs.id := 4;
     RequestLogs.timestamp := isoformat Sample.noon;
     RequestLogs.client_ip := "127.0.0.1";
     RequestLogs.model_name := "llama3";
     RequestLogs.input_tokens := VInt 1;
     RequestLogs.output_tokens := VInt 1;
     RequestLogs.response_time := VFloat 0.25;
     RequestLogs.status_code := 200;
     RequestLogs.endpoint := "/api/generate" |}.

(** Two clients: [127.0.0.1] with one log at 00:30 and one at noon, and
    [10.0.0.7] with three logs, the last at 12:45. *)
Definition five_logs : db_file :=
  {| system_metrics := Some [];
     request_logs := Some [Sample.request_at 1 Sample.half_past_midnight;
                           SampleStatsLogs.counted_row; SampleStatsLogs.chat_row;
                           other_row;
                           SampleWrites.entry_row];
     models := Some [] |}.

End SampleClients.

Module SampleFailures.

(** The server goes away between the listing and the lookup of its sockets. *)
Definition vanished_server : process :=
  {| info_pid := 4242; info_name := "ollama"; info_cpu_percent := None;
     info_memory_percent := None;
     net_connections := Raise (OtherException "process no longer exists (pid=4242)") |}.

Definition listening_server : process :=
  {| info_pid := 4242; info_name := "ollama"; info_cpu_percent := Some 37.5%float;
     info_memory_percent := Some 12.25%float;
     net_connections := Ok 3%nat |}.

(** A host that has received 2^63 bytes since it started. *)
Definition busy_host : host_state :=
  {| now_isoformat := isoformat Sample.half_past_noon;
     system_state :=
       {| cpu_percent := 12.5; memory_percent := 40.25; disk_percent := 71;
          network_bytes_sent := 1024; network_bytes_recv := 2 ^ 63 |};
     processes := [SampleHost.shell] |}.

End SampleFailures.

Module SampleDiscovery.

Definition fresh : OllamaMonitor :=
  {| host := OLLAMA_HOST; interval := MONITOR_INTERVAL; running := true;
     default_model := None |}.

Definition listed : json :=
  JArray [JObject [("name", JString "phi3"); ("size", JInt 2176178913)];
          JObject [("name", JString "llama3:8b")]].

(** The upstream lists two models. *)
Definition listing : response :=
  {| status_code := 200;
     content := "{models: [phi3, llama3:8b]}";
     raw_headers := [("Content-Type", "application/json")];
     decoded := Some (JObject [("models", listed)]) |}.

End SampleDiscovery.

(** * Properties *)

(** ** Text order

    [String.compare] is a strict total order on texts. *)

Module TextOrder.

Lemma ascii_compare_refl (a : ascii) : Ascii.compare a a = Eq.
Proof. unfold Ascii.compare. apply N.compare_refl. Qed.

Lemma ascii_compare_lt_trans (a b c : ascii) :
Ascii.compare a b = Lt -> Ascii.compare b c = Lt -> Ascii.compare a c = Lt.
Proof.
unfold Ascii.compare. rewrite !N.compare_lt_iff. apply N.lt_trans.
Qed.

Lemma compare_refl (s : string) : String.compare s s = Eq.
Proof.
induction s as [|a s IH]; simpl; [reflexivity|].
now rewrite ascii_compare_refl.
Qed.

Lemma compare_eq (s t : string) : String.compare s t = Eq <-> s = t.
Proof.
split; [apply String.compare_eq_iff|].
intros ->. apply compare_refl.
Qed.

Lemma compare_lt_trans (s t u : string) :
String.compare s t = Lt -> String.compare t u = Lt -> String.compare s u = Lt.
Proof.
revert t u. induction s as [|a s IH]; intros [|b t] [|c u]; simpl;
  try discriminate; try reflexivity.
destruct (Ascii.compare a b) eqn:Eab; try discriminate.
- apply Ascii.compare_eq_iff in Eab. subst b.
  destruct (Ascii.compare a c); try discriminate; auto.
  intros; eapply IH; eauto.
- intros _. destruct (Ascii.compare b c) eqn:Ebc; try discriminate.
  + apply Ascii.compare_eq_iff in Ebc. subst c. now rewrite Eab.
  + now rewrite (ascii_compare_lt_trans _ _ _ Eab Ebc).
Qed.

Lemma compare_gt_lt (s t : string) :
String.compare s t = Gt <-> String.compare t s = Lt.
Proof.
rewrite (String.compare_antisym t s).
destruct (String.compare s t); simpl; split; congruence.
Qed.

Lemma ltb_lt (s t : string) : String.ltb s t = true <-> String.compare s t = Lt.
Proof. unfold String.ltb. destruct (String.compare s t); split; congruence. Qed.

Lemma leb_le (s t : string) : String.leb s t = true <-> String.compare s t <> Gt.
Proof. unfold String.leb. destruct (String.compare s t); split; congruence. Qed.

Lemma ltb_irrefl (s : string) : String.ltb s s = false.
Proof. unfold String.ltb. now rewrite compare_refl. Qed.

Lemma leb_refl (s : string) : String.leb s s = true.
Proof. unfold String.leb. now rewrite compare_refl. Qed.

Lemma ltb_leb (s t : string) : String.ltb s t = true -> String.leb s t = true.
Proof. unfold String.ltb, String.leb. now destruct (String.compare s t). Qed.

Lemma ltb_trans (s t u : string) :
String.ltb s t = true -> String.ltb t u = true -> String.ltb s u = true.
Proof. rewrite !ltb_lt. apply compare_lt_trans. Qed.

Lemma leb_ltb_trans (s t u : string) :
String.leb s t = true -> String.ltb t u = true -> String.ltb s u = true.
Proof.
rewrite leb_le, !ltb_lt. intros Hst Htu.
destruct (String.compare s t) eqn:E; try congruence.
- apply String.compare_eq_iff in E. now subst.
- eapply compare_lt_trans; eauto.
Qed.

Lemma ltb_leb_trans (s t u : string) :
String.ltb s t = true -> String.leb t u = true -> String.ltb s u = true.
Proof.
rewrite leb_le, !ltb_lt. intros Hst Htu.
destruct (String.compare t u) eqn:E; try congruence.
- apply String.compare_eq_iff in E. now subst.
- eapply compare_lt_trans; eauto.
Qed.

Lemma leb_trans (s t u : string) :
String.leb s t = true -> String.leb t u = true -> String.leb s u = true.
Proof.
intros Hst Htu. rewrite leb_le in Hst.
destruct (String.compare s t) eqn:E; try congruence.
- apply String.compare_eq_iff in E. now subst.
- apply ltb_leb. eapply ltb_leb_trans; eauto. now apply ltb_lt.
Qed.

Lemma leb_false_ltb (s t : string) : String.leb s t = false -> String.ltb t s = true.
Proof.
unfold String.leb. destruct (String.compare s t) eqn:E; try discriminate.
intros _. apply ltb_lt. now apply compare_gt_lt.
Qed.

Lemma ltb_false_leb (s t : string) : String.ltb s t = false -> String.leb t s = true.
Proof.
unfold String.ltb, String.leb. rewrite (String.compare_antisym s t).
now destruct (String.compare t s).
Qed.

Lemma ltb_asym (s t : string) : String.ltb s t = true -> String.ltb t s = false.
Proof.
unfold String.ltb. rewrite (String.compare_antisym s t).
now destruct (String.compare t s).
Qed.

End TextOrder.

(** ** ORDER BY *)

Section OrderByFacts.
Context {A : Type} (key : A -> string).

Lemma insert_row_perm (r : A) (l : list A) : Permutation (r :: l) (insert_row key r l).
Proof.
  induction l as [|x l IH]; simpl; [reflexivity|].
  destruct (String.leb (key r) (key x)); [reflexivity|].
  rewrite perm_swap. now apply perm_skip.
Qed.

Lemma order_by_perm (l : list A) : Permutation l (order_by key l).
Proof.
  induction l as [|r l IH]; simpl; [constructor|].
  rewrite <- insert_row_perm. now apply perm_skip.
Qed.

Lemma order_by_In (l : list A) (r : A) : In r (order_by key l) <-> In r l.
Proof.
  split; apply Permutation_in; [symmetry|]; apply order_by_perm.
Qed.

Lemma order_by_length (l : list A) : List.length (order_by key l) = List.length l.
Proof. symmetry. apply Permutation_length, order_by_perm. Qed.

Lemma ascending_trans (a b c : A) :
  ascending key a b -> ascending key b c -> ascending key a c.
Proof. unfold ascending. apply TextOrder.leb_trans. Qed.

Lemma insert_row_sorted (r : A) (l : list A) :
  StronglySorted (ascending key) l -> StronglySorted (ascending key) (insert_row key r l).
Proof.
  induction 1 as [|x l Hl IH Hx]; simpl.
  - repeat constructor.
  - destruct (String.leb (key r) (key x)) eqn:E.
    + constructor; [now constructor|].
      constructor; [exact E|].
      eapply Forall_impl; [|exact Hx].
      intros y Hy. eapply ascending_trans; eauto.
    + constructor; [exact IH|].
      rewrite Forall_forall. intros y Hy.
      apply (Permutation_in _ (Permutation_sym (insert_row_perm r l))) in Hy.
      destruct Hy as [<-|Hy].
      * apply TextOrder.ltb_leb, TextOrder.leb_false_ltb, E.
      * rewrite Forall_forall in Hx. now apply Hx.
Qed.

Lemma order_by_sorted (l : list A) : StronglySorted (ascending key) (order_by key l).
Proof.
  induction l as [|r l IH]; simpl; [constructor|].
  now apply insert_row_sorted.
Qed.

Lemma sorted_snoc (R : A -> A -> Prop) (l : list A) (x : A) :
  StronglySorted R l -> Forall (fun y => R y x) l -> StronglySorted R (l ++ [x]).
Proof.
  induction 1 as [|y l Hl IH Hy]; intros Hx; simpl.
  - repeat constructor.
  - inversion Hx; subst. constructor; [now apply IH|].
    apply Forall_app. split; [exact Hy|]. now repeat constructor.
Qed.

Lemma sorted_rev (R : A -> A -> Prop) (l : list A) :
  StronglySorted R l -> StronglySorted (fun a b => R b a) (rev l).
Proof.
  induction 1 as [|y l Hl IH Hy]; simpl; [constructor|].
  apply sorted_snoc; [exact IH|].
  apply Forall_rev. exact Hy.
Qed.

Lemma order_by_desc_sorted (l : list A) :
  StronglySorted (descending key) (order_by_desc key l).
Proof.
  unfold order_by_desc.
  apply (sorted_rev (ascending key)), order_by_sorted.
Qed.

Lemma order_by_desc_In (l : list A) (r : A) : In r (order_by_desc key l) <-> In r l.
Proof. unfold order_by_desc. rewrite <- in_rev. apply order_by_In. Qed.

Lemma order_by_desc_perm (l : list A) : Permutation l (order_by_desc key l).
Proof.
  unfold order_by_desc. rewrite <- Permutation_rev. apply order_by_perm.
Qed.
End OrderByFacts.

(** ** Timestamp texts *)

Section TimestampTexts.

Lemma compare_app (p1 p2 s1 s2 : string) :
  String.length p1 = String.length p2 ->
  String.compare (p1 ++ s1) (p2 ++ s2) = lex (String.compare p1 p2) (String.compare s1 s2).
Proof.
  revert p2. induction p1 as [|a p1 IH]; intros [|b p2] Hlen; simpl in *;
    try discriminate; [reflexivity|].
  destruct (Ascii.compare a b); simpl; auto.
Qed.

Lemma append_length (s t : string) :
  String.length (s ++ t) = (String.length s + String.length t)%nat.
Proof. induction s as [|a s IH]; simpl; congruence. Qed.

Lemma digits_length (w : nat) (n : N) : String.length (digits w n) = w.
Proof.
  revert n. induction w as [|w IH]; intros n; simpl; [reflexivity|].
  rewrite append_length, IH. simpl. lia.
Qed.

Lemma digit_compare (x y : N) :
  (x < 10)%N -> (y < 10)%N ->
  Ascii.compare (ascii_of_N (48 + x)) (ascii_of_N (48 + y)) = (x ?= y)%N.
Proof.
  intros Hx Hy. unfold Ascii.compare.
  rewrite !N_ascii_embedding by lia.
  destruct (N.compare_spec x y) as [E|E|E].
  - apply N.compare_eq_iff. lia.
  - apply N.compare_lt_iff. lia.
  - apply N.compare_gt_iff. lia.
Qed.

Lemma lex_div_mod (a b : N) :
  lex (a / 10 ?= b / 10)%N (a mod 10 ?= b mod 10)%N = (a ?= b)%N.
Proof.
  pose proof (N.div_mod a 10 ltac:(lia)) as Ha.
  pose proof (N.div_mod b 10 ltac:(lia)) as Hb.
  pose proof (N.mod_lt a 10 ltac:(lia)) as Ha'.
  pose proof (N.mod_lt b 10 ltac:(lia)) as Hb'.
  revert Ha Hb Ha' Hb'.
  generalize (a / 10)%N (b / 10)%N (a mod 10)%N (b mod 10)%N.
  intros qa qb ra rb Ha Hb Ha' Hb'. symmetry.
  destruct (N.compare_spec qa qb) as [E|E|E]; simpl.
  - destruct (N.compare_spec ra rb) as [F|F|F].
    + apply N.compare_eq_iff. lia.
    + apply N.compare_lt_iff. lia.
    + apply N.compare_gt_iff. lia.
  - apply N.compare_lt_iff. lia.
  - apply N.compare_gt_iff. lia.
Qed.

Lemma digits_compare (w : nat) (a b : N) :
  (a < 10 ^ N.of_nat w)%N -> (b < 10 ^ N.of_nat w)%N ->
  String.compare (digits w a) (digits w b) = (a ?= b)%N.
Proof.
  revert a b. induction w as [|w IH]; intros a b Ha Hb.
  - simpl in *. symmetry. apply N.compare_eq_iff. lia.
  - rewrite Nat2N.inj_succ, N.pow_succ_r' in Ha, Hb.
    cbn [digits]. rewrite compare_app by now rewrite !digits_length.
    rewrite IH by (apply N.Div0.div_lt_upper_bound; lia).
    cbn [String.compare].
    rewrite digit_compare by (apply N.mod_lt; lia).
    rewrite <- (lex_div_mod a b).
    now destruct (a mod 10 ?= b mod 10)%N.
Qed.

Lemma date_text_length (d : datetime) : String.length (date_text d) = 10%nat.
Proof.
  unfold date_text. rewrite !append_length, !digits_length. reflexivity.
Qed.

Lemma date_text_compare (a b : datetime) :
  well_formed a -> well_formed b ->
  String.compare (date_text a) (date_text b) = compare_date a b.
Proof.
  intros (Ya & Ma & Da & _) (Yb & Mb & Db & _).
  unfold date_text, compare_date.
  rewrite compare_app by now rewrite !digits_length.
  rewrite digits_compare by assumption.
  f_equal. cbn [String.append String.compare].
  change (Ascii.compare "-" "-") with Eq. cbv iota.
  rewrite compare_app by now rewrite !digits_length.
  rewrite digits_compare by assumption.
  f_equal. cbn [String.append String.compare].
  change (Ascii.compare "-" "-") with Eq. cbv iota.
  now apply digits_compare.
Qed.

(** A Python stamp against an SQLite cutoff: the dates decide, and on the
    same date the stamp is the larger text whatever the two times are,
    since its separator [T] sorts after the cutoff's space. *)
Lemma isoformat_compare_sqlite (d c : datetime) :
  well_formed d -> well_formed c ->
  String.compare (isoformat d) (sqlite_datetime c) = lex (compare_date d c) Gt.
Proof.
  intros Hd Hc. unfold isoformat, sqlite_datetime.
  rewrite compare_app by now rewrite !date_text_length.
  rewrite date_text_compare by assumption.
  reflexivity.
Qed.

Lemma newer_than_isoformat (d c : datetime) :
  well_formed d -> well_formed c ->
  newer_than (Some (sqlite_datetime c)) (isoformat d) = true <-> compare_date d c <> Lt.
Proof.
  intros Hd Hc. unfold newer_than.
  rewrite TextOrder.ltb_lt, <- TextOrder.compare_gt_lt, isoformat_compare_sqlite by assumption.
  destruct (compare_date d c); simpl; split; congruence.
Qed.

End TimestampTexts.

(** ** The store *)

Lemma create_table_some {A : Type} (t : option (list A)) :
  create_table_if_not_exists t = Some (rows_of t).
Proof. now destruct t. Qed.

Lemma create_table_rows {A : Type} (t : option (list A)) :
  rows_of (create_table_if_not_exists t) = rows_of t.
Proof. now destruct t. Qed.

Lemma _create_tables_idempotent (db : db_file) :
  _create_tables (_create_tables db) = _create_tables db.
Proof.
  unfold _create_tables; simpl. now rewrite !create_table_some.
Qed.

Lemma table_some {A : Type} (name : string) (rows : list A) : table name (Some rows) = Ok rows.
Proof. reflexivity. Qed.

(** ** Windowed reads *)

Section ReadFacts.
Variable datetime_now : string -> option string.

Lemma get_recent_system_metrics_eq (db : db_file) (hours : Z) (rows : list SystemMetrics.row) :
  system_metrics db = Some rows ->
  get_recent_system_metrics datetime_now db hours =
    Ok (order_by SystemMetrics.timestamp
          (filter (fun r => newer_than (datetime_now (hours_modifier hours))
                              (SystemMetrics.timestamp r)) rows)).
Proof. intros H. unfold get_recent_system_metrics. now rewrite H. Qed.

Lemma get_recent_requests_eq (db : db_file) (hours : Z) (rows : list RequestLogs.row) :
  request_logs db = Some rows ->
  get_recent_requests datetime_now db hours =
    Ok (order_by_desc RequestLogs.timestamp
          (filter (fun r => newer_than (datetime_now (hours_modifier hours))
                              (RequestLogs.timestamp r)) rows)).
Proof. intros H. unfold get_recent_requests. now rewrite H. Qed.

(** X5: [get_recent_system_metrics] returns exactly the rows whose timestamp
    text is strictly above the cutoff text, none when the cutoff is NULL, in
    ascending timestamp order. *)
Lemma get_recent_system_metrics_text_window (db : db_file) (hours : Z)
    (rows : list SystemMetrics.row) :
  get_recent_system_metrics datetime_now db hours = Ok rows ->
  (forall r, In r rows <->
     In r (rows_of (system_metrics db)) /\
     newer_than (datetime_now (hours_modifier hours)) (SystemMetrics.timestamp r) = true) /\
  StronglySorted (ascending SystemMetrics.timestamp) rows.
Proof.
  unfold get_recent_system_metrics.
  destruct (system_metrics db) as [t|]; simpl; [|discriminate].
  intros [= <-]. split.
  - intros r. rewrite order_by_In, filter_In. reflexivity.
  - apply order_by_sorted.
Qed.

(** X6: [get_recent_requests] returns exactly the rows whose timestamp text is
    strictly above the cutoff text, in descending timestamp order. *)
Lemma get_recent_requests_text_window (db : db_file) (hours : Z)
    (rows : list RequestLogs.row) :
  get_recent_requests datetime_now db hours = Ok rows ->
  (forall r, In r rows <->
     In r (rows_of (request_logs db)) /\
     newer_than (datetime_now (hours_modifier hours)) (RequestLogs.timestamp r) = true) /\
  StronglySorted (descending RequestLogs.timestamp) rows.
Proof.
  unfold get_recent_requests.
  destruct (request_logs db) as [t|]; simpl; [|discriminate].
  intros [= <-]. split.
  - intros r. rewrite order_by_desc_In, filter_In. reflexivity.
  - apply order_by_desc_sorted.
Qed.

(** A sample stamped by the sampler is read back exactly when its calendar
    date is not before the cutoff's date: the time of day plays no part. *)
Lemma stamped_row_selected (d c : datetime) (hours : Z) :
  well_formed d -> well_formed c ->
  datetime_now (hours_modifier hours) = Some (sqlite_datetime c) ->
  newer_than (datetime_now (hours_modifier hours)) (isoformat d) = true <->
  compare_date d c <> Lt.
Proof.
  intros Hd Hc ->. now apply newer_than_isoformat.
Qed.
End ReadFacts.

(** C1, on the code: the two windowed reads compare the stored ISO text with
    SQLite's cutoff text.  At 13:00 with a window of one hour the cutoff is
    noon, and the sample and the request log written at 00:30 of that day,
    eleven and a half hours before the cutoff, are both returned. *)
Theorem recent_reads_return_rows_before_the_cutoff :
  earlier Sample.half_past_midnight Sample.noon /\
  isoformat Sample.half_past_midnight = "2024-01-01T00:30:00" /\
  Sample.one_o_clock (hours_modifier 1) = Some "2024-01-01 12:00:00" /\
  get_recent_system_metrics Sample.one_o_clock Sample.after_midnight 1 =
    Ok [Sample.row_at 1 Sample.half_past_midnight] /\
  get_recent_requests Sample.one_o_clock Sample.after_midnight 1 =
    Ok [Sample.request_at 1 Sample.half_past_midnight].
Proof. repeat split; vm_compute; reflexivity. Qed.

(** ** Writing and reading back samples *)

Lemma bind_int_inv (n m : Z) : bind_int n = Ok m -> m = n.
Proof.
  unfold bind_int. destruct (_ && _); now intros [= <-].
Qed.

Lemma bind_int_range (n m : Z) : bind_int n = Ok m -> - 2 ^ 63 <= n < 2 ^ 63.
Proof.
  unfold bind_int.
  destruct (Z.leb_spec (- 2 ^ 63) n); destruct (Z.ltb_spec n (2 ^ 63)); simpl;
    try discriminate.
  intros _. lia.
Qed.

Lemma bind_int_in_range (n : Z) : - 2 ^ 63 <= n < 2 ^ 63 -> bind_int n = Ok n.
Proof.
  intros H. unfold bind_int.
  destruct (- 2 ^ 63 <=? n) eqn:E1; destruct (n <? 2 ^ 63) eqn:E2; simpl; try reflexivity; lia.
Qed.

(** *** REAL columns *)

Lemma SFcompare_refl_finite (s : bool) (m : positive) (e : Z) :
  SFcompare (S754_finite s m e) (S754_finite s m e) = Some Eq.
Proof.
  simpl. destruct s; rewrite Z.compare_refl, ?Pos.compare_refl; reflexivity.
Qed.

Lemma store_real_reads_back (f : float) : reads_back f (store_real f).
Proof.
  unfold reads_back, store_real, is_nan. rewrite !eqb_spec.
  change (Prim2SF 0) with (S754_zero false).
  destruct (Prim2SF f) as [s| s | |s m e] eqn:E; unfold SFeqb.
  - destruct s; reflexivity.
  - destruct s; reflexivity.
  - reflexivity.
  - rewrite SFcompare_refl_finite. simpl. destruct s; reflexivity.
Qed.

Lemma real_affinity_reads_back (f : option float) :
  reads_back_percent f (real_affinity (number_of_float f)).
Proof. destruct f as [x|]; simpl; [apply store_real_reads_back|reflexivity]. Qed.

Lemma save_system_metrics_inv (db db' : db_file) (m : metrics) :
  save_system_metrics db m = Ok db' ->
  exists rows r,
    system_metrics db = Some rows /\
    system_metrics db' = Some (rows ++ [r]) /\
    request_logs db' = request_logs db /\
    models db' = models db /\
    SystemMetrics.id r = next_id (map SystemMetrics.id rows) /\
    holds_sample r m.
Proof.
  unfold save_system_metrics.
  destruct (system_metrics db) as [rows|]; simpl; [|discriminate].
  destruct (bind_int (network_bytes_sent (system m))) as [sent|] eqn:Es; simpl; [|discriminate].
  destruct (bind_int (network_bytes_recv (system m))) as [recv|] eqn:Er; simpl; [|discriminate].
  destruct (bind_int (process_get (ollama_process m) connections 0)) as [conns|] eqn:Ec;
    simpl; [|discriminate].
  apply bind_int_inv in Es, Er, Ec. subst.
  intros [= <-]. eexists _, _. simpl.
  do 5 (split; [reflexivity|]).
  unfold holds_sample; simpl.
  do 2 (split; [reflexivity|]).
  do 3 (split; [apply store_real_reads_back|]).
  do 2 (split; [reflexivity|]).
  unfold process_get. destruct (ollama_process m) as [p|].
  - repeat split; apply real_affinity_reads_back.
  - repeat split.
Qed.

Lemma save_all_system_metrics_inv (samples : list metrics) :
  forall (db db' : db_file) (rows : list SystemMetrics.row),
    system_metrics db = Some rows ->
    save_all_system_metrics db samples = Ok db' ->
    exists new,
      system_metrics db' = Some (rows ++ new) /\
      request_logs db' = request_logs db /\
      models db' = models db /\
      Forall2 holds_sample new samples.
Proof.
  induction samples as [|m rest IH]; intros db db' rows Hrows; simpl.
  - intros [= <-]. exists []. rewrite app_nil_r. auto.
  - destruct (save_system_metrics db m) as [db1|] eqn:E; simpl; [|discriminate].
    intros Hrest.
    destruct (save_system_metrics_inv _ _ _ E) as (rows0 & r & H0 & H1 & Hl & Hm & _ & Hr).
    rewrite Hrows in H0. injection H0 as <-.
    destruct (IH _ _ _ H1 Hrest) as (new & Hnew & Hl' & Hm' & Hall).
    exists (r :: new). rewrite <- app_assoc in Hnew. simpl in Hnew.
    repeat split; try congruence. now constructor.
Qed.

Lemma filter_all {A : Type} (f : A -> bool) (l : list A) :
  Forall (fun x => f x = true) l -> filter f l = l.
Proof.
  induction 1 as [|x l Hx Hl IH]; simpl; [reflexivity|].
  now rewrite Hx, IH.
Qed.

Lemma Forall2_perm_l {A B : Type} (R : A -> B -> Prop) (l l' : list A) (k : list B) :
  Permutation l l' -> Forall2 R l k -> exists k', Permutation k' k /\ Forall2 R l' k'.
Proof.
  intros Hp Hf.
  destruct (Permutation_Forall2 Hp Hf) as (k' & Hk & Hf').
  exists k'. split; [now symmetry|exact Hf'].
Qed.

Lemma holds_sample_timestamps (P : string -> Prop) (new : list SystemMetrics.row)
    (samples : list metrics) :
  Forall2 holds_sample new samples ->
  Forall (fun m => P (timestamp m)) samples ->
  Forall (fun r => P (SystemMetrics.timestamp r)) new.
Proof.
  induction 1 as [|r m new rest Hr Hall IH]; intros Hw; [constructor|].
  inversion Hw as [|? ? Hm Hrest]; subst.
  constructor; [|now apply IH].
  destruct Hr as (-> & _). exact Hm.
Qed.

Lemma OllamaMetricsDB_system_metrics (file : db_file) :
  system_metrics (OllamaMetricsDB file) = Some (rows_of (system_metrics file)).
Proof. unfold OllamaMetricsDB, _create_tables; simpl. apply create_table_some. Qed.

(** Written rows that all pass the WHERE clause are read back, next to the
    older rows of the window. *)
Lemma read_back_written_rows (datetime_now : string -> option string) (db : db_file)
    (old new : list SystemMetrics.row) (samples : list metrics) (hours : Z) :
  system_metrics db = Some (old ++ new) ->
  Forall2 holds_sample new samples ->
  Forall (fun m => newer_than (datetime_now (hours_modifier hours)) (timestamp m) = true)
    samples ->
  get_recent_system_metrics datetime_now db hours =
    Ok (order_by SystemMetrics.timestamp
          (filter (fun r => newer_than (datetime_now (hours_modifier hours))
                              (SystemMetrics.timestamp r)) old ++ new)).
Proof.
  intros Hnew Hall Hwindow.
  rewrite (get_recent_system_metrics_eq _ _ _ _ Hnew), filter_app. do 3 f_equal.
  apply filter_all.
  exact (holds_sample_timestamps
           (fun ts => newer_than (datetime_now (hours_modifier hours)) ts = true)
           _ _ Hall Hwindow).
Qed.

(** C3, as stated, fails: a sample taken while no server process runs binds
    the integer 0 to [ollama_cpu_percent] and to [ollama_memory_percent], and
    the row that is read back holds the float 0.0 in both; a negative zero is
    read back as 0.0 and a NaN as NULL. *)
Lemma round_trip_changes_values :
  let sample := Sample.sample_at Sample.half_past_noon in
  (exists db',
     save_system_metrics (OllamaMetricsDB new_file) sample = Ok db' /\
     get_recent_system_metrics Sample.one_o_clock db' 1 =
       Ok [Sample.row_at 1 Sample.half_past_noon]) /\
  process_percent (ollama_process sample) process_cpu_percent = IntNumber 0 /\
  process_percent (ollama_process sample) process_memory_percent = IntNumber 0 /\
  SystemMetrics.ollama_cpu_percent (Sample.row_at 1 Sample.half_past_noon) = VFloat 0 /\
  SystemMetrics.ollama_memory_percent (Sample.row_at 1 Sample.half_past_noon) = VFloat 0 /\
  as_written (IntNumber 0) <> VFloat 0 /\
  (exists db' row,
     save_system_metrics (OllamaMetricsDB new_file) SampleRoundTrip.odd_figures = Ok db' /\
     get_recent_system_metrics Sample.one_o_clock db' 1 = Ok [row] /\
     SystemMetrics.cpu_percent row = VFloat 0 /\
     SystemMetrics.disk_percent row = VNone).
Proof.
  repeat split.
  - eexists. split; reflexivity.
  - discriminate.
  - eexists _, _. repeat split; reflexivity.
Qed.

(** C3, amended: when [N] samples have been written and a read's window takes
    in all of their timestamps, the read returns, in ascending timestamp
    order, what it returned before the writes and [N] more rows, which hold
    the written samples column for column as the columns give them back: the
    status as 0 or 1, every percentage as a float, with 0.0 for the integer 0
    of an absent process and for the negative zero, and NULL for NaN; on a
    relation that was empty it returns exactly [N] rows. *)
Theorem system_metrics_round_trip (datetime_now : string -> option string)
    (file db' : db_file) (samples : list metrics) (hours : Z) :
  save_all_system_metrics (OllamaMetricsDB file) samples = Ok db' ->
  Forall (fun m => newer_than (datetime_now (hours_modifier hours)) (timestamp m) = true)
    samples ->
  exists before rows new,
    get_recent_system_metrics datetime_now (OllamaMetricsDB file) hours = Ok before /\
    get_recent_system_metrics datetime_now db' hours = Ok rows /\
    StronglySorted (ascending SystemMetrics.timestamp) rows /\
    Permutation rows (before ++ new) /\
    Forall2 holds_sample new samples /\
    (rows_of (system_metrics file) = [] -> List.length rows = List.length samples).
Proof.
  intros Hsave Hwindow.
  pose proof (OllamaMetricsDB_system_metrics file) as Hinit.
  destruct (save_all_system_metrics_inv _ _ _ _ Hinit Hsave) as (new & Hnew & _ & _ & Hall).
  set (keep := fun r => newer_than (datetime_now (hours_modifier hours))
                          (SystemMetrics.timestamp r)).
  set (old := rows_of (system_metrics file)) in *.
  exists (order_by SystemMetrics.timestamp (filter keep old)),
         (order_by SystemMetrics.timestamp (filter keep old ++ new)), new.
  split; [now apply get_recent_system_metrics_eq|].
  split; [now apply (read_back_written_rows _ _ _ _ samples)|].
  split; [apply order_by_sorted|].
  split; [|split; [exact Hall|]].
  - rewrite <- (order_by_perm SystemMetrics.timestamp (filter keep old ++ new)).
    apply Permutation_app_tail, order_by_perm.
  - intros Hempty. rewrite Hempty. simpl.
    rewrite order_by_length. eapply Forall2_length; eauto.
Qed.

Lemma system_metrics_round_trip_witness :
  save_all_system_metrics (OllamaMetricsDB new_file) SampleRoundTrip.samples =
    Ok SampleRoundTrip.stored /\
  exists before rows new,
    get_recent_system_metrics Sample.one_o_clock (OllamaMetricsDB new_file) 1 = Ok before /\
    get_recent_system_metrics Sample.one_o_clock SampleRoundTrip.stored 1 = Ok rows /\
    StronglySorted (ascending SystemMetrics.timestamp) rows /\
    Permutation rows (before ++ new) /\
    Forall2 holds_sample new SampleRoundTrip.samples /\
    (rows_of (system_metrics new_file) = [] -> List.length rows = 2%nat).
Proof.
  split; [reflexivity|].
  apply (system_metrics_round_trip Sample.one_o_clock new_file SampleRoundTrip.stored
           SampleRoundTrip.samples 1).
  - reflexivity.
  - repeat constructor.
Defined.

(** ** The latest model snapshot *)

Lemma max_text_none (l : list string) : max_text l = None -> l = [].
Proof.
  destruct l as [|s rest]; simpl; [reflexivity|].
  destruct (max_text rest); discriminate.
Qed.

Lemma max_text_spec (l : list string) (m : string) :
  max_text l = Some m -> In m l /\ Forall (fun s => String.leb s m = true) l.
Proof.
  revert m. induction l as [|s rest IH]; intros m; simpl; [discriminate|].
  destruct (max_text rest) as [m'|] eqn:E.
  - destruct (IH m' eq_refl) as [Hin Hall].
    destruct (String.ltb m' s) eqn:Elt; intros [= <-].
    + split; [now left|]. constructor; [apply TextOrder.leb_refl|].
      eapply Forall_impl; [|exact Hall].
      intros t Ht. simpl in Ht.
      apply TextOrder.ltb_leb. exact (TextOrder.leb_ltb_trans _ _ _ Ht Elt).
    + split; [now right|]. constructor; [|exact Hall].
      now apply TextOrder.ltb_false_leb.
  - apply max_text_none in E. subst rest. intros [= <-].
    split; [now left|]. constructor; [apply TextOrder.leb_refl|constructor].
Qed.

Lemma max_text_unique (l : list string) (m : string) :
  In m l -> Forall (fun s => String.leb s m = true) l -> max_text l = Some m.
Proof.
  intros Hin Hall.
  destruct (max_text l) as [m'|] eqn:E.
  - destruct (max_text_spec _ _ E) as [Hin' Hall'].
    rewrite Forall_forall in Hall, Hall'.
    f_equal. apply String.leb_antisym; auto.
  - apply max_text_none in E. subst l. destruct Hin.
Qed.

Lemma get_latest_models_maximal (db : db_file) (rows : list Models.row) :
  get_latest_models db = Ok rows ->
  forall r, In r rows <->
    In r (rows_of (models db)) /\
    forall r', In r' (rows_of (models db)) ->
      String.leb (Models.timestamp r') (Models.timestamp r) = true.
Proof.
  unfold get_latest_models.
  destruct (models db) as [t|]; simpl; [|discriminate].
  destruct (max_text (map Models.timestamp t)) as [latest|] eqn:E; intros [= <-] r.
  - rewrite filter_In, String.eqb_eq.
    destruct (max_text_spec _ _ E) as [Hin Hall].
    rewrite Forall_forall in Hall.
    split; intros [Hr H]; split; auto.
    + intros r' Hr'. rewrite H. apply Hall. now apply in_map.
    + assert (Hmax : max_text (map Models.timestamp t) = Some (Models.timestamp r)).
      { apply max_text_unique; [now apply in_map|].
        rewrite Forall_forall. intros s Hs.
        apply in_map_iff in Hs. destruct Hs as (r' & <- & Hr'). now apply H. }
      congruence.
  - apply max_text_none in E. apply map_eq_nil in E. subst t.
    simpl. tauto.
Qed.

Lemma insert_models_app (ts : string) (batch : list model) :
  forall rows, exists new,
    insert_models rows ts batch = rows ++ new /\ batch_rows ts batch new.
Proof.
  induction batch as [|m rest IH]; intros rows; simpl.
  - exists []. rewrite app_nil_r. split; [reflexivity|constructor].
  - destruct (IH (rows ++ [models_row (next_id (map Models.id rows)) ts m]))
      as (new & Hnew & Hall).
    exists (models_row (next_id (map Models.id rows)) ts m :: new).
    rewrite Hnew, <- app_assoc. split; [reflexivity|].
    constructor; [reflexivity|exact Hall].
Qed.

Lemma save_models_inv (db db' : db_file) (ts : string) (batch : list model)
    (rows : list Models.row) :
  models db = Some rows ->
  save_models db ts batch = Ok db' ->
  exists new, models db' = Some (rows ++ new) /\ batch_rows ts batch new.
Proof.
  intros Hrows. unfold save_models. destruct batch as [|m rest].
  - intros [= <-]. exists []. rewrite app_nil_r. split; [exact Hrows|constructor].
  - rewrite Hrows. simpl. intros [= <-]. simpl.
    destruct (insert_models_app ts rest
                (rows ++ [models_row (next_id (map Models.id rows)) ts m]))
      as (new & Hnew & Hall).
    exists (models_row (next_id (map Models.id rows)) ts m :: new).
    rewrite Hnew, <- app_assoc. split; [reflexivity|].
    constructor; [reflexivity|exact Hall].
Qed.

Lemma batch_rows_timestamp (ts : string) (batch : list model) (rows : list Models.row) :
  batch_rows ts batch rows -> Forall (fun r => Models.timestamp r = ts) rows.
Proof.
  induction 1 as [|m r batch rows Hr Hall IH]; constructor; [|exact IH].
  now rewrite Hr.
Qed.

Lemma filter_none {A : Type} (f : A -> bool) (l : list A) :
  Forall (fun x => f x = false) l -> filter f l = [].
Proof.
  induction 1 as [|x l Hx Hl IH]; simpl; [reflexivity|].
  now rewrite Hx.
Qed.

Lemma older_not_latest (latest : string) (rows : list Models.row) :
  Forall (fun r => String.ltb (Models.timestamp r) latest = true) rows ->
  Forall (fun r => String.eqb (Models.timestamp r) latest = false) rows.
Proof.
  apply Forall_impl. intros r Hr.
  destruct (String.eqb_spec (Models.timestamp r) latest) as [E|]; [|reflexivity].
  rewrite E, TextOrder.ltb_irrefl in Hr. discriminate.
Qed.

(** C8, as stated, fails: the morning refresh lists two models, the evening
    refresh lists none and so writes no row, and the latest snapshot is still
    the morning batch, not the empty evening batch. *)
Lemma latest_models_after_empty_batch :
  String.ltb SampleModels.morning SampleModels.evening = true /\
  save_models (OllamaMetricsDB new_file) SampleModels.morning
    [SampleModels.llama; SampleModels.phi] = Ok SampleModels.after_morning /\
  save_models SampleModels.after_morning SampleModels.evening [] =
    Ok SampleModels.after_morning /\
  get_latest_models SampleModels.after_morning =
    Ok [models_row 1 SampleModels.morning SampleModels.llama;
        models_row 2 SampleModels.morning SampleModels.phi] /\
  ~ batch_rows SampleModels.evening []
      [models_row 1 SampleModels.morning SampleModels.llama;
       models_row 2 SampleModels.morning SampleModels.phi].
Proof.
  repeat split. intros H. inversion H.
Qed.

(** C8, amended: [get_latest_models] returns exactly the rows whose timestamp
    is the largest in the relation; after a batch at [ts1] and a batch of at
    least one model at a later [ts2], written over older rows, these are the
    rows of the second batch, one per model and in its order. *)
Theorem get_latest_models_last_batch :
  (forall (db : db_file) (rows : list Models.row),
     get_latest_models db = Ok rows ->
     forall r, In r rows <->
       In r (rows_of (models db)) /\
       forall r', In r' (rows_of (models db)) ->
         String.leb (Models.timestamp r') (Models.timestamp r) = true) /\
  (forall (file db1 db2 : db_file) (ts1 ts2 : string) (batch1 batch2 : list model),
     Forall (fun r => String.ltb (Models.timestamp r) ts2 = true) (rows_of (models file)) ->
     String.ltb ts1 ts2 = true ->
     batch2 <> [] ->
     save_models (OllamaMetricsDB file) ts1 batch1 = Ok db1 ->
     save_models db1 ts2 batch2 = Ok db2 ->
     exists rows,
       get_latest_models db2 = Ok rows /\
       batch_rows ts2 batch2 rows /\
       Forall (fun r => Models.timestamp r = ts2) rows).
Proof.
  split; [exact get_latest_models_maximal|].
  intros file db1 db2 ts1 ts2 batch1 batch2 Hold Hlt Hne Hs1 Hs2.
  assert (Hinit : models (OllamaMetricsDB file) = Some (rows_of (models file))).
  { unfold OllamaMetricsDB, _create_tables; simpl. apply create_table_some. }
  destruct (save_models_inv _ _ _ _ _ Hinit Hs1) as (new1 & Hm1 & Hb1).
  destruct (save_models_inv _ _ _ _ _ Hm1 Hs2) as (new2 & Hm2 & Hb2).
  pose proof (batch_rows_timestamp _ _ _ Hb1) as Ht1.
  pose proof (batch_rows_timestamp _ _ _ Hb2) as Ht2.
  exists new2. split; [|split; assumption].
  unfold get_latest_models. rewrite Hm2. simpl.
  assert (Hmax : max_text (map Models.timestamp ((rows_of (models file) ++ new1) ++ new2))
                 = Some ts2).
  { apply max_text_unique.
    - destruct Hb2 as [|m r b2 n2 Hr _]; [congruence|].
      rewrite map_app, in_app_iff. right. left. now rewrite Hr.
    - rewrite Forall_forall. intros s Hs.
      apply in_map_iff in Hs. destruct Hs as (r & <- & Hr).
      rewrite !in_app_iff in Hr. rewrite Forall_forall in Hold, Ht1, Ht2.
      destruct Hr as [[Hr|Hr]|Hr].
      + now apply TextOrder.ltb_leb, Hold.
      + rewrite (Ht1 _ Hr). now apply TextOrder.ltb_leb.
      + rewrite (Ht2 _ Hr). apply TextOrder.leb_refl. }
  rewrite Hmax. f_equal. rewrite !filter_app.
  rewrite (filter_none _ (rows_of (models file))) by now apply older_not_latest.
  rewrite (filter_none _ new1).
  - simpl. apply filter_all.
    eapply Forall_impl; [|exact Ht2]. intros r ->. apply String.eqb_refl.
  - apply older_not_latest. eapply Forall_impl; [|exact Ht1].
    intros r ->. exact Hlt.
Qed.

Lemma get_latest_models_last_batch_witness :
  String.ltb SampleModels.morning SampleModels.evening = true /\
  save_models (OllamaMetricsDB new_file) SampleModels.morning
    [SampleModels.llama; SampleModels.phi] = Ok SampleModels.after_morning /\
  save_models SampleModels.after_morning SampleModels.evening [SampleModels.phi] =
    Ok SampleModels.after_evening /\
  get_latest_models SampleModels.after_evening =
    Ok [models_row 3 SampleModels.evening SampleModels.phi] /\
  exists rows,
    get_latest_models SampleModels.after_evening = Ok rows /\
    batch_rows SampleModels.evening [SampleModels.phi] rows /\
    Forall (fun r => Models.timestamp r = SampleModels.evening) rows.
Proof.
  split; [reflexivity|]. split; [reflexivity|]. split; [reflexivity|].
  split; [reflexivity|].
  apply (proj2 get_latest_models_last_batch new_file SampleModels.after_morning
           SampleModels.after_evening SampleModels.morning SampleModels.evening
           [SampleModels.llama; SampleModels.phi] [SampleModels.phi]).
  - constructor.
  - reflexivity.
  - discriminate.
  - reflexivity.
  - reflexivity.
Defined.

(** ** The proxy view *)

Lemma proxy_call_methods (req : request) (path : string) :
  proxy_call req path = None <->
  method req <> "GET" /\ method req <> "POST" /\ method req <> "PUT" /\ method req <> "DELETE".
Proof.
  unfold proxy_call.
  destruct (String.eqb_spec (method req) "GET");
    destruct (String.eqb_spec (method req) "POST");
    destruct (String.eqb_spec (method req) "PUT");
    destruct (String.eqb_spec (method req) "DELETE");
    split; intros H; try discriminate; try tauto; auto.
Qed.

Lemma proxy_call_timeout (req : request) (path : string) (call : upstream_call) :
  proxy_call req path = Some call -> call_timeout call = Some 10.
Proof.
  unfold proxy_call.
  repeat match goal with |- context [if ?b then _ else _] => destruct b end;
    intros [= <-]; reflexivity.
Qed.

(** A proxied call always returns: every upstream call it makes has a timeout. *)
Lemma proxy_ollama_returns (up : upstream) (file : db_file) (req : request) (path : string) :
  exists resp, proxy_ollama up file req path = Some (resp, OllamaMetricsDB file).
Proof.
  unfold proxy_ollama.
  destruct (proxy_call req path) as [call|] eqn:E; [|eauto].
  unfold requests_request. rewrite (proxy_call_timeout _ _ _ E).
  destruct (up call) as [r|d|d|d]; eauto.
Qed.

(** C2: the view does not carry a [DELETE] over.  [DELETE /ollama/api/delete]
    arrives with the model to delete in its body, and the upstream call made
    for it has no body at all; the same request sent as a [POST] is carried
    over with its body. *)
Theorem proxy_drops_body_of_delete :
  proxy_call SampleProxy.delete_request "api/delete" = Some SampleProxy.delete_call /\
  ~ carried_over SampleProxy.delete_request SampleProxy.delete_call /\
  exists call,
    proxy_call SampleProxy.post_request "api/delete" = Some call /\
    carried_over SampleProxy.post_request call.
Proof.
  split; [reflexivity|]. split.
  - intros (_ & _ & _ & Hbody). vm_compute in Hbody. discriminate.
  - eexists. split; [reflexivity|]. repeat split.
Qed.

(** Nor a query string that repeats a key: only the first value of the key
    goes upstream. *)
Lemma proxy_drops_repeated_query_values :
  exists call,
    proxy_call SampleProxy.search_request "api/tags" = Some call /\
    args SampleProxy.search_request = [("name", "llama3"); ("name", "phi3")] /\
    call_params call = [("name", "llama3")] /\
    ~ carried_over SampleProxy.search_request call.
Proof.
  eexists. split; [reflexivity|]. split; [reflexivity|]. split; [reflexivity|].
  intros (_ & Hparams & _). vm_compute in Hparams. discriminate.
Qed.

(** What the view does send: the upstream call has the inbound method, the
    path under the upstream host, the headers but [Host] and a timeout of 10
    seconds; the query parameters go with a [GET] only, each key with its
    first value, the body's JSON value with a [POST] only and the raw body
    with a [PUT] only; an upstream answer comes back with its status code,
    body and headers unchanged. *)
Lemma proxy_ollama_forwards (up : upstream) (file : db_file) (req : request)
    (path : string) (call : upstream_call) :
  proxy_call req path = Some call ->
  (call_method call = method req /\
   call_url call = (OLLAMA_HOST ++ "/" ++ path)%string /\
   call_headers call = without_host (headers req) /\
   call_timeout call = Some 10 /\
   call_params call =
     (if (method req =? "GET")%string then multidict_items (args req) else []) /\
   call_json call = (if (method req =? "POST")%string then get_json req else None) /\
   call_data call = (if (method req =? "PUT")%string then Some (get_data req) else None)) /\
  (forall resp : response,
     up call = Answers resp ->
     exists db',
       proxy_ollama up file req path =
         Some ({| response_body := Content (content resp);
                  response_status := status_code resp;
                  response_headers := raw_headers resp |}, db')).
Proof.
  intros Hcall. split.
  - revert Hcall. unfold proxy_call.
    destruct (String.eqb_spec (method req) "GET") as [Eg|Eg].
    { intros [= <-]. simpl. now rewrite Eg. }
    destruct (String.eqb_spec (method req) "POST") as [Ep|Ep].
    { intros [= <-]. simpl. now rewrite Ep. }
    destruct (String.eqb_spec (method req) "PUT") as [Eu|Eu].
    { intros [= <-]. simpl. now rewrite Eu. }
    destruct (String.eqb_spec (method req) "DELETE") as [Ed|Ed]; [|discriminate].
    intros [= <-]. simpl. now rewrite Ed.
  - intros resp Hup. unfold proxy_ollama, requests_request.
    rewrite Hcall, Hup. eauto.
Qed.

Lemma proxy_ollama_forwards_witness :
  proxy_call SampleProxy.tags_request "api/tags" = Some SampleProxy.tags_call /\
  (call_method SampleProxy.tags_call = "GET" /\
   call_url SampleProxy.tags_call = "http://localhost:11434/api/tags" /\
   call_headers SampleProxy.tags_call = [("Accept", "*/*")] /\
   call_timeout SampleProxy.tags_call = Some 10 /\
   call_params SampleProxy.tags_call = [] /\
   call_json SampleProxy.tags_call = None /\
   call_data SampleProxy.tags_call = None) /\
  (forall resp : response,
     SampleProxy.answering SampleProxy.tags_call = Answers resp ->
     exists db',
       proxy_ollama SampleProxy.answering new_file SampleProxy.tags_request "api/tags" =
         Some ({| response_body := Content (content resp);
                  response_status := status_code resp;
                  response_headers := raw_headers resp |}, db')).
Proof.
  split; [reflexivity|].
  apply (proxy_ollama_forwards SampleProxy.answering new_file SampleProxy.tags_request
           "api/tags" SampleProxy.tags_call).
  reflexivity.
Defined.

(** C6: whatever the upstream does, the proxy view returns a response and
    leaves the rows of [request_logs], and of the two other relations, as they
    were. *)
Theorem proxy_ollama_writes_no_request_log (up : upstream) (file : db_file)
    (req : request) (path : string) :
  exists resp db',
    proxy_ollama up file req path = Some (resp, db') /\
    rows_of (request_logs db') = rows_of (request_logs file) /\
    rows_of (system_metrics db') = rows_of (system_metrics file) /\
    rows_of (models db') = rows_of (models file).
Proof.
  destruct (proxy_ollama_returns up file req path) as [resp Hresp].
  exists resp, (OllamaMetricsDB file).
  unfold OllamaMetricsDB, _create_tables in *; simpl.
  rewrite !create_table_rows. auto.
Qed.

(** C7: a transport failure, a timeout included, is answered 502 with the
    failure's detail; any other exception is answered 500; a method the view
    does not forward is answered 405 without an upstream call. *)
Theorem proxy_ollama_failure_statuses (up : upstream) (file : db_file)
    (req : request) (path : string) :
  (forall call detail,
     proxy_call req path = Some call ->
     up call = Unreachable detail ->
     exists db',
       proxy_ollama up file req path =
         Some ({| response_body := Jsonify [("error", "Upstream API request failed");
                                            ("details", detail)];
                  response_status := 502;
                  response_headers := [] |}, db')) /\
  (forall call detail,
     proxy_call req path = Some call ->
     up call = Silent detail ->
     exists db',
       proxy_ollama up file req path =
         Some ({| response_body := Jsonify [("error", "Upstream API request failed");
                                            ("details", detail)];
                  response_status := 502;
                  response_headers := [] |}, db')) /\
  (forall call detail,
     proxy_call req path = Some call ->
     up call = Breaks detail ->
     exists db',
       proxy_ollama up file req path =
         Some ({| response_body := Jsonify [("error", "Unexpected error occurred");
                                            ("details", detail)];
                  response_status := 500;
                  response_headers := [] |}, db')) /\
  (method req <> "GET" -> method req <> "POST" ->
   method req <> "PUT" -> method req <> "DELETE" ->
   exists db',
     proxy_ollama up file req path =
       Some ({| response_body := Jsonify [("error", "Method not allowed")];
                response_status := 405;
                response_headers := [] |}, db')).
Proof.
  repeat split.
  - intros call detail Hcall Hup. unfold proxy_ollama, requests_request.
    rewrite Hcall, Hup. eauto.
  - intros call detail Hcall Hup. unfold proxy_ollama, requests_request.
    rewrite Hcall, Hup, (proxy_call_timeout _ _ _ Hcall). eauto.
  - intros call detail Hcall Hup. unfold proxy_ollama, requests_request.
    rewrite Hcall, Hup. eauto.
  - intros Hg Hp Hu Hd. unfold proxy_ollama.
    rewrite (proj2 (proxy_call_methods req path)) by auto. eauto.
Qed.

Lemma proxy_ollama_failure_statuses_witness :
  (exists db',
     proxy_ollama SampleProxy.refusing new_file SampleProxy.tags_request "api/tags" =
       Some ({| response_body := Jsonify [("error", "Upstream API request failed");
                                          ("details", "Connection refused")];
                response_status := 502;
                response_headers := [] |}, db')) /\
  (exists db',
     proxy_ollama SampleProxy.silent new_file SampleProxy.tags_request "api/tags" =
       Some ({| response_body := Jsonify [("error", "Upstream API request failed");
                                          ("details", SampleProxy.read_timed_out)];
                response_status := 502;
                response_headers := [] |}, db')) /\
  (exists db',
     proxy_ollama SampleProxy.breaking new_file SampleProxy.tags_request "api/tags" =
       Some ({| response_body := Jsonify [("error", "Unexpected error occurred");
                                          ("details", "codec can't decode byte")];
                response_status := 500;
                response_headers := [] |}, db')) /\
  (exists db',
     proxy_ollama SampleProxy.answering new_file SampleProxy.head_request "api/tags" =
       Some ({| response_body := Jsonify [("error", "Method not allowed")];
                response_status := 405;
                response_headers := [] |}, db')).
Proof.
  split; [|split; [|split]].
  - apply (proj1 (proxy_ollama_failure_statuses SampleProxy.refusing new_file
                    SampleProxy.tags_request "api/tags") SampleProxy.tags_call);
      reflexivity.
  - apply (proj1 (proj2 (proxy_ollama_failure_statuses SampleProxy.silent new_file
                    SampleProxy.tags_request "api/tags")) SampleProxy.tags_call);
      reflexivity.
  - apply (proj1 (proj2 (proj2 (proxy_ollama_failure_statuses SampleProxy.breaking new_file
                    SampleProxy.tags_request "api/tags"))) SampleProxy.tags_call);
      reflexivity.
  - apply (proj2 (proj2 (proj2 (proxy_ollama_failure_statuses SampleProxy.answering new_file
                    SampleProxy.head_request "api/tags")))); discriminate.
Defined.

(** ** Timeouts *)

(** C4, on the code: the proxy gives each upstream call a timeout of 10
    seconds and always returns, but the liveness probe and the generation test
    call the upstream without one: against a server that accepts the call and
    never answers, neither of them returns. *)
Theorem probe_and_generation_test_have_no_timeout (numeric_text : string -> value)
    (self : OllamaMonitor) :
  call_timeout (tags_call self) = None /\
  get_server_status self SampleProxy.silent = None /\
  call_timeout (generate_call self "llama3") = None /\
  test_model_generation numeric_text self SampleProxy.silent 100 101 "2024-01-01T12:30:00"
    (OllamaMetricsDB new_file) (Some "llama3") = None /\
  (forall file req path,
     exists resp, proxy_ollama SampleProxy.silent file req path = Some resp).
Proof.
  repeat split.
  intros file req path.
  destruct (proxy_ollama_returns SampleProxy.silent file req path) as [resp H].
  eauto.
Qed.

(** ** The generation test *)

Lemma bind_param_int (numeric_text : string -> value) (n : Z) :
  - 2 ^ 63 <= n < 2 ^ 63 -> bind_param numeric_text (JInt n) = Ok (VInt n).
Proof. intros H. simpl. now rewrite bind_int_in_range. Qed.

(** The INTEGER columns on counts that are no integers: a float without
    fraction is kept as the integer, another float as it is, NaN as NULL, and
    a text as the number SQLite reads in it. *)
Lemma bind_param_keeps_numbers :
  bind_param Sample.numeric_text (JFloat 5) = Ok (VInt 5) /\
  bind_param Sample.numeric_text (JFloat 5.5) = Ok (VFloat 5.5) /\
  bind_param Sample.numeric_text (JFloat (-0)) = Ok (VInt 0) /\
  bind_param Sample.numeric_text (JFloat nan) = Ok VNone /\
  bind_param Sample.numeric_text (JFloat infinity) = Ok (VFloat infinity) /\
  bind_param Sample.numeric_text (JFloat 9223372036854775808) =
    Ok (VFloat 9223372036854775808) /\
  bind_param Sample.numeric_text (JString "7") = Ok (VInt 7) /\
  bind_param Sample.numeric_text (JBool true) = Ok (VInt 1) /\
  bind_param Sample.numeric_text JNull = Ok VNone.
Proof. repeat split. Qed.

(** Without a model name and without a default model the test returns at
    once: no upstream call, no row. *)
Lemma test_model_generation_no_model (numeric_text : string -> value) (self : OllamaMonitor)
    (up : upstream) (start_time end_time : float) (now : string) (db : db_file)
    (model_name : option string) :
  chosen_model self model_name = None ->
  test_model_generation numeric_text self up start_time end_time now db model_name =
    Some (None, db).
Proof. intros H. unfold test_model_generation. now rewrite H. Qed.

(** C5, as stated, fails: the upstream answers 200 with a body that is not
    JSON, and the test returns without a row in [request_logs]. *)
Lemma generation_test_200_without_row :
  status_code SampleGeneration.garbled = 200 /\
  test_model_generation Sample.numeric_text SampleGeneration.monitor
    (fun _ => Answers SampleGeneration.garbled)
    100 101.5 SampleGeneration.now (OllamaMetricsDB new_file) (Some "llama3") =
    Some (None, OllamaMetricsDB new_file) /\
  request_logs (OllamaMetricsDB new_file) = Some [].
Proof. repeat split. Qed.

(** C5, amended: on a 200 whose body decodes to a JSON object with integer
    counts of the 64-bit range, the test appends exactly one row: the two
    counts of the answer (0 for a count it leaves out), the caller
    [127.0.0.1], the measured latency as the REAL column gives it back, the
    status 200 and the endpoint [/api/generate].  On another status, on a 200
    whose body is not a JSON object or holds a count the store refuses, and on
    a transport failure it leaves the store as it was. *)
Theorem test_model_generation_logs (numeric_text : string -> value) (self : OllamaMonitor)
    (up : upstream) (start_time end_time : float) (now : string) (file : db_file)
    (model_name : option string) (name : string) :
  chosen_model self model_name = Some name ->
  (forall resp result input output,
     up (generate_call self name) = Answers resp ->
     status_code resp = 200 ->
     decoded resp = Some (JObject result) ->
     dict_get result "prompt_eval_count" (JInt 0) = JInt input ->
     dict_get result "eval_count" (JInt 0) = JInt output ->
     - 2 ^ 63 <= input < 2 ^ 63 ->
     - 2 ^ 63 <= output < 2 ^ 63 ->
     exists latency,
       reads_back (end_time - start_time)%float latency /\
       test_model_generation numeric_text self up start_time end_time now
         (OllamaMetricsDB file) model_name =
         Some (Some (end_time - start_time)%float,
               {| system_metrics := system_metrics (OllamaMetricsDB file);
                  request_logs :=
                    Some (rows_of (request_logs file) ++
                          [{| RequestLogs.id :=
                                next_id (map RequestLogs.id (rows_of (request_logs file)));
                              RequestLogs.timestamp := now;
                              RequestLogs.client_ip := "127.0.0.1";
                              RequestLogs.model_name := name;
                              RequestLogs.input_tokens := VInt input;
                              RequestLogs.output_tokens := VInt output;
                              RequestLogs.response_time := latency;
                              RequestLogs.status_code := 200;
                              RequestLogs.endpoint := "/api/generate" |}]);
                  models := models (OllamaMetricsDB file) |})) /\
  (forall resp,
     up (generate_call self name) = Answers resp ->
     status_code resp <> 200 ->
     test_model_generation numeric_text self up start_time end_time now
       (OllamaMetricsDB file) model_name =
       Some (None, OllamaMetricsDB file)) /\
  (forall resp,
     up (generate_call self name) = Answers resp ->
     (forall result, decoded resp <> Some (JObject result)) ->
     test_model_generation numeric_text self up start_time end_time now
       (OllamaMetricsDB file) model_name =
       Some (None, OllamaMetricsDB file)) /\
  (forall resp result e,
     up (generate_call self name) = Answers resp ->
     decoded resp = Some (JObject result) ->
     bind_param numeric_text (dict_get result "prompt_eval_count" (JInt 0)) = Raise e \/
     bind_param numeric_text (dict_get result "eval_count" (JInt 0)) = Raise e ->
     test_model_generation numeric_text self up start_time end_time now
       (OllamaMetricsDB file) model_name =
       Some (None, OllamaMetricsDB file)) /\
  (forall detail,
     up (generate_call self name) = Unreachable detail ->
     test_model_generation numeric_text self up start_time end_time now
       (OllamaMetricsDB file) model_name =
       Some (None, OllamaMetricsDB file)).
Proof.
  intros Hname. unfold test_model_generation, requests_request. rewrite Hname.
  split; [|split; [|split; [|split]]].
  - intros resp result input output Hup Hstatus Hbody Hin Hout Hri Hro.
    exists (store_real (end_time - start_time)%float).
    split; [apply store_real_reads_back|].
    rewrite Hup. simpl. unfold log_generation. rewrite Hstatus, Hbody. simpl.
    unfold save_request_log; simpl.
    rewrite create_table_some. simpl. rewrite Hin, Hout.
    rewrite !bind_param_int by assumption. reflexivity.
  - intros resp Hup Hstatus. rewrite Hup. simpl. unfold log_generation.
    destruct (Z.eqb_spec (status_code resp) 200); [contradiction|reflexivity].
  - intros resp Hup Hbody. rewrite Hup. simpl. unfold log_generation.
    destruct (status_code resp =? 200); [|reflexivity].
    destruct (decoded resp) as [[| | | | | |result]|]; try reflexivity.
    now destruct (Hbody result).
  - intros resp result e Hup Hbody Hbind. rewrite Hup. simpl. unfold log_generation.
    destruct (status_code resp =? 200); [|reflexivity].
    rewrite Hbody. unfold save_request_log; simpl.
    rewrite create_table_some. simpl.
    destruct Hbind as [H|H].
    + now rewrite H.
    + rewrite H.
      now destruct (bind_param numeric_text (dict_get result "prompt_eval_count" (JInt 0))).
  - intros detail Hup. rewrite Hup. reflexivity.
Qed.

Lemma test_model_generation_logs_witness :
  chosen_model SampleGeneration.monitor None = Some "llama3" /\
  (exists latency,
     reads_back (101.5 - 100)%float latency /\
     test_model_generation Sample.numeric_text SampleGeneration.monitor
       (fun _ => Answers SampleGeneration.generated)
       100 101.5 SampleGeneration.now (OllamaMetricsDB new_file) None =
       Some (Some (101.5 - 100)%float,
             {| system_metrics := system_metrics (OllamaMetricsDB new_file);
                request_logs :=
                  Some (rows_of (request_logs new_file) ++
                        [{| RequestLogs.id :=
                              next_id (map RequestLogs.id (rows_of (request_logs new_file)));
                            RequestLogs.timestamp := SampleGeneration.now;
                            RequestLogs.client_ip := "127.0.0.1";
                            RequestLogs.model_name := "llama3";
                            RequestLogs.input_tokens := VInt 5;
                            RequestLogs.output_tokens := VInt 7;
                            RequestLogs.response_time := latency;
                            RequestLogs.status_code := 200;
                            RequestLogs.endpoint := "/api/generate" |}]);
                models := models (OllamaMetricsDB new_file) |})) /\
  test_model_generation Sample.numeric_text SampleGeneration.monitor
    (fun _ => Answers SampleGeneration.overloaded)
    100 101.5 SampleGeneration.now (OllamaMetricsDB new_file) None =
    Some (None, OllamaMetricsDB new_file) /\
  test_model_generation Sample.numeric_text SampleGeneration.monitor SampleProxy.refusing
    100 101.5 SampleGeneration.now (OllamaMetricsDB new_file) None =
    Some (None, OllamaMetricsDB new_file).
Proof.
  split; [reflexivity|].
  destruct (test_model_generation_logs Sample.numeric_text SampleGeneration.monitor
              (fun _ => Answers SampleGeneration.generated)
              100 101.5 SampleGeneration.now new_file None "llama3" eq_refl)
    as (Hwrite & _).
  destruct (test_model_generation_logs Sample.numeric_text SampleGeneration.monitor
              (fun _ => Answers SampleGeneration.overloaded)
              100 101.5 SampleGeneration.now new_file None "llama3" eq_refl)
    as (_ & Hstatus & _).
  destruct (test_model_generation_logs Sample.numeric_text SampleGeneration.monitor
              SampleProxy.refusing
              100 101.5 SampleGeneration.now new_file None "llama3" eq_refl)
    as (_ & _ & _ & _ & Hfail).
  split; [|split].
  - apply (Hwrite SampleGeneration.generated
             [("response", JString "Hi"); ("prompt_eval_count", JInt 5);
              ("eval_count", JInt 7)] 5 7); try reflexivity; lia.
  - apply (Hstatus SampleGeneration.overloaded); [reflexivity|discriminate].
  - apply (Hfail "Connection refused"). reflexivity.
Defined.

(** ** One pass of the sampler *)

Lemma get_ollama_process_info_none (procs : list process) :
  Forall (fun p => is_ollama p = false) procs ->
  get_ollama_process_info procs = Ok None.
Proof.
  induction 1 as [|p procs Hp Hall IH]; simpl; [reflexivity|].
  now rewrite Hp.
Qed.

Lemma get_ollama_process_info_first (before after : list process) (proc : process) :
  Forall (fun p => is_ollama p = false) before ->
  is_ollama proc = true ->
  get_ollama_process_info (before ++ proc :: after) =
    match net_connections proc with
    | Ok n =>
        Ok (Some {| pid := info_pid proc;
                    process_cpu_percent := info_cpu_percent proc;
                    process_memory_percent := info_memory_percent proc;
                    connections := Z.of_nat n |})
    | Raise (AccessDenied _) =>
        Ok (Some {| pid := info_pid proc;
                    process_cpu_percent := info_cpu_percent proc;
                    process_memory_percent := info_memory_percent proc;
                    connections := -1 |})
    | Raise e => Raise e
    end.
Proof.
  intros Hbefore Hproc.
  induction Hbefore as [|p before Hp Hall IH]; simpl.
  - now rewrite Hproc.
  - now rewrite Hp.
Qed.

(** The pass once the probe has returned and the process table has been read
    without an exception: the sample is appended and emitted, and the loop
    sleeps for its interval, or for 10 seconds when the interval is negative. *)
Lemma run_iteration_persists (self : OllamaMonitor) (up : upstream) (h : host_state)
    (file : db_file) (events : list (string * metrics)) (status : bool)
    (process : option process_info) :
  get_server_status self up = Some status ->
  get_ollama_process_info (processes h) = Ok process ->
  - 2 ^ 63 <= network_bytes_sent (system_state h) < 2 ^ 63 ->
  - 2 ^ 63 <= network_bytes_recv (system_state h) < 2 ^ 63 ->
  - 2 ^ 63 <= process_get process connections 0 < 2 ^ 63 ->
  let sample := {| timestamp := now_isoformat h;
                   server_status := status;
                   system := system_state h;
                   ollama_process := process |} in
  exists row,
    holds_sample row sample /\
    run_iteration self up h {| db := OllamaMetricsDB file; emitted := events |} =
      Some ({| db := {| system_metrics := Some (rows_of (system_metrics file) ++ [row]);
                        request_logs := request_logs (OllamaMetricsDB file);
                        models := models (OllamaMetricsDB file) |};
               emitted := events ++ [("update_metrics", sample)] |},
            if interval self <? 0 then 10 else interval self).
Proof.
  intros Hprobe Hproc Hsent Hrecv Hconns sample.
  unfold run_iteration. rewrite Hprobe, Hproc. simpl.
  unfold save_system_metrics. simpl.
  rewrite create_table_some. simpl.
  rewrite (bind_int_in_range _ Hsent), (bind_int_in_range _ Hrecv). simpl.
  rewrite (bind_int_in_range _ Hconns). simpl.
  eexists. split; [|reflexivity].
  unfold holds_sample; simpl.
  do 2 (split; [reflexivity|]).
  do 3 (split; [apply store_real_reads_back|]).
  do 2 (split; [reflexivity|]).
  unfold process_get. destruct process as [p|].
  - repeat split; apply real_affinity_reads_back.
  - repeat split.
Qed.

(** C9: in a pass whose probe has returned, with network counters that fit
    the store: when the sockets of the first process whose name contains
    [ollama] cannot be listed, the sample carries -1 as its connections; when no
    process name matches, it carries no process fields.  Either way the sample
    is appended to [system_metrics], with -1, respectively the default 0, in
    [ollama_connections], it is emitted as [update_metrics], and the loop
    sleeps for its interval (for 10 seconds when the interval is negative). *)
Theorem run_iteration_process_introspection (self : OllamaMonitor) (up : upstream)
    (h : host_state) (file : db_file) (events : list (string * metrics)) (status : bool) :
  get_server_status self up = Some status ->
  - 2 ^ 63 <= network_bytes_sent (system_state h) < 2 ^ 63 ->
  - 2 ^ 63 <= network_bytes_recv (system_state h) < 2 ^ 63 ->
  (forall before proc after detail,
     processes h = before ++ proc :: after ->
     Forall (fun p => is_ollama p = false) before ->
     is_ollama proc = true ->
     net_connections proc = Raise (AccessDenied detail) ->
     let sample := {| timestamp := now_isoformat h;
                      server_status := status;
                      system := system_state h;
                      ollama_process :=
                        Some {| pid := info_pid proc;
                                process_cpu_percent := info_cpu_percent proc;
                                process_memory_percent := info_memory_percent proc;
                                connections := -1 |} |} in
     exists row,
       holds_sample row sample /\
       SystemMetrics.ollama_connections row = -1 /\
       run_iteration self up h {| db := OllamaMetricsDB file; emitted := events |} =
         Some ({| db := {| system_metrics := Some (rows_of (system_metrics file) ++ [row]);
                           request_logs := request_logs (OllamaMetricsDB file);
                           models := models (OllamaMetricsDB file) |};
                  emitted := events ++ [("update_metrics", sample)] |},
               if interval self <? 0 then 10 else interval self)) /\
  (Forall (fun p => is_ollama p = false) (processes h) ->
   let sample := {| timestamp := now_isoformat h;
                    server_status := status;
                    system := system_state h;
                    ollama_process := None |} in
   exists row,
     holds_sample row sample /\
     SystemMetrics.ollama_cpu_percent row = VFloat 0 /\
     SystemMetrics.ollama_memory_percent row = VFloat 0 /\
     SystemMetrics.ollama_connections row = 0 /\
     run_iteration self up h {| db := OllamaMetricsDB file; emitted := events |} =
       Some ({| db := {| system_metrics := Some (rows_of (system_metrics file) ++ [row]);
                         request_logs := request_logs (OllamaMetricsDB file);
                         models := models (OllamaMetricsDB file) |};
                emitted := events ++ [("update_metrics", sample)] |},
             if interval self <? 0 then 10 else interval self)).
Proof.
  intros Hprobe Hsent Hrecv. split.
  - intros before proc after detail Hprocs Hbefore Hproc Hdenied sample.
    assert (Hinfo : get_ollama_process_info (processes h) = Ok (ollama_process sample)).
    { rewrite Hprocs, (get_ollama_process_info_first _ _ _ Hbefore Hproc), Hdenied.
      reflexivity. }
    destruct (run_iteration_persists self up h file events status _ Hprobe Hinfo Hsent Hrecv)
      as (row & Hrow & Hrun).
    { simpl. lia. }
    exists row. split; [exact Hrow|]. split; [|exact Hrun].
    now destruct Hrow as (_ & _ & _ & _ & _ & _ & _ & _ & _ & ->).
  - intros Hnone sample.
    pose proof (get_ollama_process_info_none _ Hnone) as Hinfo.
    destruct (run_iteration_persists self up h file events status _ Hprobe Hinfo Hsent Hrecv)
      as (row & Hrow & Hrun).
    { simpl. lia. }
    exists row. split; [exact Hrow|].
    pose proof Hrow as (_ & _ & _ & _ & _ & _ & _ & Hc & Hm & Hn).
    repeat split; auto.
Qed.

Lemma run_iteration_process_introspection_witness :
  get_server_status SampleGeneration.monitor SampleProxy.refusing = Some false /\
  (exists row,
     SystemMetrics.ollama_connections row = -1 /\
     run_iteration SampleGeneration.monitor SampleProxy.refusing
       (SampleHost.half_past_noon [SampleHost.shell; SampleHost.guarded_server])
       SampleHost.before =
       Some ({| db := {| system_metrics := Some [row];
                         request_logs := Some [];
                         models := Some [] |};
                emitted :=
                  [("update_metrics",
                    {| timestamp := isoformat Sample.half_past_noon;
                       server_status := false;
                       system := Sample.idle;
                       ollama_process :=
                         Some {| pid := 4242;
                                 process_cpu_percent := Some 37.5%float;
                                 process_memory_percent := Some 12.25%float;
                                 connections := -1 |} |})] |}, 5)) /\
  (exists row,
     SystemMetrics.ollama_connections row = 0 /\
     run_iteration SampleGeneration.monitor SampleProxy.refusing
       (SampleHost.half_past_noon [SampleHost.shell]) SampleHost.before =
       Some ({| db := {| system_metrics := Some [row];
                         request_logs := Some [];
                         models := Some [] |};
                emitted :=
                  [("update_metrics",
                    {| timestamp := isoformat Sample.half_past_noon;
                       server_status := false;
                       system := Sample.idle;
                       ollama_process := None |})] |}, 5)).
Proof.
  split; [reflexivity|]. split.
  - destruct (run_iteration_process_introspection SampleGeneration.monitor
                SampleProxy.refusing
                (SampleHost.half_past_noon [SampleHost.shell; SampleHost.guarded_server])
                new_file [] false eq_refl) as [Hdenied _].
    { simpl. lia. }
    { simpl. lia. }
    destruct (Hdenied [SampleHost.shell] SampleHost.guarded_server [] "(pid=4242)")
      as (row & _ & Hconn & Hrun).
    { reflexivity. }
    { repeat constructor. }
    { reflexivity. }
    { reflexivity. }
    exists row. split; [exact Hconn|exact Hrun].
  - destruct (run_iteration_process_introspection SampleGeneration.monitor
                SampleProxy.refusing (SampleHost.half_past_noon [SampleHost.shell])
                new_file [] false eq_refl) as [_ Hnone].
    { simpl. lia. }
    { simpl. lia. }
    destruct Hnone as (row & _ & _ & _ & Hconn & Hrun).
    { repeat constructor. }
    exists row. split; [exact Hconn|exact Hrun].
Defined.

(** ** Aggregate statistics *)

(** C10: when the windowed read of the request logs is empty, the statistics
    are a count of 0, two token sums of 0, an average that is the integer 0
    and no most active endpoint, and no exception is raised. *)
Theorem api_request_stats_empty (datetime_now : string -> option string)
    (file : db_file) (hours_arg : option Z) :
  get_recent_requests datetime_now (OllamaMetricsDB file) (get_default hours_arg 24) = Ok [] ->
  api_request_stats datetime_now file hours_arg =
    Ok {| total_requests := 0;
          total_input_tokens := VInt 0;
          total_output_tokens := VInt 0;
          avg_response_time := VInt 0;
          most_active_endpoint := None |}.
Proof.
  intros Hempty. unfold api_request_stats. rewrite Hempty. reflexivity.
Qed.

Lemma api_request_stats_empty_witness :
  get_recent_requests Sample.one_o_clock (OllamaMetricsDB SampleStats.yesterday)
    (get_default (Some 1) 24) = Ok [] /\
  api_request_stats Sample.one_o_clock SampleStats.yesterday (Some 1) =
    Ok {| total_requests := 0;
          total_input_tokens := VInt 0;
          total_output_tokens := VInt 0;
          avg_response_time := VInt 0;
          most_active_endpoint := None |}.
Proof.
  split; [reflexivity|].
  apply (api_request_stats_empty Sample.one_o_clock SampleStats.yesterday (Some 1)).
  reflexivity.
Defined.

(** * Further properties of the code *)

(** ** The schema and the three writes *)

Lemma save_request_log_inv (numeric_text : string -> value) (db db' : db_file)
    (l : log_data) :
  save_request_log numeric_text db l = Ok db' ->
  exists rows r,
    request_logs db = Some rows /\
    request_logs db' = Some (rows ++ [r]) /\
    system_metrics db' = system_metrics db /\
    models db' = models db /\
    RequestLogs.id r = next_id (map RequestLogs.id rows) /\
    RequestLogs.timestamp r = log_timestamp l /\
    RequestLogs.client_ip r = log_client_ip l /\
    RequestLogs.model_name r = log_model_name l /\
    bind_param numeric_text (log_input_tokens l) = Ok (RequestLogs.input_tokens r) /\
    bind_param numeric_text (log_output_tokens l) = Ok (RequestLogs.output_tokens r) /\
    reads_back (log_response_time l) (RequestLogs.response_time r) /\
    RequestLogs.status_code r = log_status_code l /\
    RequestLogs.endpoint r = log_endpoint l.
Proof.
  unfold save_request_log.
  destruct (request_logs db) as [rows|]; simpl; [|discriminate].
  destruct (bind_param numeric_text (log_input_tokens l)) as [input|]; simpl; [|discriminate].
  destruct (bind_param numeric_text (log_output_tokens l)) as [output|]; simpl;
    [|discriminate].
  destruct (bind_int (log_status_code l)) as [status|] eqn:Es; simpl; [|discriminate].
  apply bind_int_inv in Es. subst status.
  intros [= <-]. eexists _, _. simpl.
  do 10 (split; [reflexivity|]).
  split; [apply store_real_reads_back|]. split; reflexivity.
Qed.

Lemma batch_rows_length (ts : string) (batch : list model) (rows : list Models.row) :
  batch_rows ts batch rows -> List.length rows = List.length batch.
Proof. intros H. symmetry. exact (Forall2_length H). Qed.

Lemma save_models_frame (db db' : db_file) (ts : string) (batch : list model) :
  save_models db ts batch = Ok db' ->
  system_metrics db' = system_metrics db /\ request_logs db' = request_logs db.
Proof.
  unfold save_models. destruct batch as [|m rest].
  - now intros [= <-].
  - destruct (models db); simpl; [|discriminate]. now intros [= <-].
Qed.

Lemma save_models_rows (db db' : db_file) (ts : string) (batch : list model) :
  save_models db ts batch = Ok db' ->
  exists new,
    rows_of (models db') = rows_of (models db) ++ new /\ batch_rows ts batch new.
Proof.
  intros Hsave. destruct (models db) as [rows|] eqn:E.
  - destruct (save_models_inv _ _ _ _ _ E Hsave) as (new & Hnew & Hb).
    exists new. now rewrite Hnew.
  - unfold save_models in Hsave. destruct batch as [|m rest].
    + injection Hsave as <-. exists []. rewrite E. split; [reflexivity|constructor].
    + rewrite E in Hsave. discriminate.
Qed.

(** X2: the three writes only append.  A sample or a request log adds one row
    at the end of its table, a batch of models adds one row per model, and
    every row that was there, in the same table or another, stays as it was. *)
Theorem writes_only_append (db db' : db_file) :
  (forall m,
     save_system_metrics db m = Ok db' ->
     (exists r, rows_of (system_metrics db') = rows_of (system_metrics db) ++ [r]) /\
     request_logs db' = request_logs db /\ models db' = models db) /\
  (forall numeric_text l,
     save_request_log numeric_text db l = Ok db' ->
     (exists r, rows_of (request_logs db') = rows_of (request_logs db) ++ [r]) /\
     system_metrics db' = system_metrics db /\ models db' = models db) /\
  (forall ts batch,
     save_models db ts batch = Ok db' ->
     (exists new,
        rows_of (models db') = rows_of (models db) ++ new /\
        List.length new = List.length batch /\
        Forall (fun r => Models.timestamp r = ts) new) /\
     system_metrics db' = system_metrics db /\ request_logs db' = request_logs db).
Proof.
  split; [|split].
  - intros m Hsave.
    destruct (save_system_metrics_inv _ _ _ Hsave) as (rows & r & H0 & H1 & Hl & Hm & _).
    rewrite H0, H1. simpl. eauto.
  - intros numeric_text l Hsave.
    destruct (save_request_log_inv _ _ _ _ Hsave) as (rows & r & H0 & H1 & Hs & Hm & _).
    rewrite H0, H1. simpl. eauto.
  - intros ts batch Hsave.
    destruct (save_models_rows _ _ _ _ Hsave) as (new & Hnew & Hb).
    destruct (save_models_frame _ _ _ _ Hsave) as [Hs Hl].
    split; [|auto]. exists new. split; [exact Hnew|]. split.
    + now apply (batch_rows_length ts).
    + now apply (batch_rows_timestamp ts batch).
Qed.

Lemma writes_only_append_witness :
  (exists r,
     rows_of (system_metrics SampleWrites.sampled) =
       rows_of (system_metrics Sample.after_midnight) ++ [r]) /\
  (exists r,
     rows_of (request_logs SampleWrites.logged) =
       rows_of (request_logs Sample.after_midnight) ++ [r]) /\
  (exists new,
     rows_of (models SampleModels.after_evening) =
       rows_of (models SampleModels.after_morning) ++ new /\
     List.length new = 1%nat /\
     Forall (fun r => Models.timestamp r = SampleModels.evening) new).
Proof.
  split; [|split].
  - apply (proj1 (writes_only_append Sample.after_midnight SampleWrites.sampled)
             (Sample.sample_at SampleRoundTrip.quarter_to_one)).
    reflexivity.
  - apply (proj1 (proj2 (writes_only_append Sample.after_midnight SampleWrites.logged))
             Sample.numeric_text SampleWrites.entry).
    reflexivity.
  - apply (proj2 (proj2 (writes_only_append SampleModels.after_morning
                           SampleModels.after_evening))
             SampleModels.evening [SampleModels.phi]).
    reflexivity.
Defined.

(** ** Rowids *)

Lemma next_id_above (ids : list Z) : Forall (fun i => i < next_id ids) ids.
Proof.
  unfold next_id. induction ids as [|i ids IH]; simpl; constructor.
  - lia.
  - eapply Forall_impl; [|exact IH]. intros j Hj. simpl in Hj. lia.
Qed.

Lemma increasing_snoc (ids : list Z) : increasing ids -> increasing (ids ++ [next_id ids]).
Proof.
  intros H. apply sorted_snoc; [exact H|]. apply next_id_above.
Qed.

Lemma increasing_NoDup (ids : list Z) : increasing ids -> NoDup ids.
Proof.
  induction 1 as [|i ids Hs IH Hi]; constructor; [|exact IH].
  intros Hin. rewrite Forall_forall in Hi. specialize (Hi _ Hin). lia.
Qed.

Lemma insert_models_increasing (ts : string) (batch : list model) :
  forall rows,
    increasing (map Models.id rows) ->
    increasing (map Models.id (insert_models rows ts batch)).
Proof.
  induction batch as [|m rest IH]; intros rows H; simpl; [exact H|].
  apply IH. rewrite map_app. simpl. now apply increasing_snoc.
Qed.

(** X3: rowids grow along each table, and each write keeps it so; hence no two
    rows of a table ever share a rowid.  It holds of a fresh store. *)
Theorem rowids_stay_increasing (db db' : db_file) :
  rowids_increasing db ->
  ((forall m, save_system_metrics db m = Ok db' -> rowids_increasing db') /\
   (forall numeric_text l,
      save_request_log numeric_text db l = Ok db' -> rowids_increasing db') /\
   (forall ts batch, save_models db ts batch = Ok db' -> rowids_increasing db')) /\
  NoDup (map SystemMetrics.id (rows_of (system_metrics db))) /\
  NoDup (map RequestLogs.id (rows_of (request_logs db))) /\
  NoDup (map Models.id (rows_of (models db))).
Proof.
  intros (Hs & Hl & Hm). split; [split; [|split]|].
  - intros m Hsave.
    destruct (save_system_metrics_inv _ _ _ Hsave) as (rows & r & H0 & H1 & El & Em & Hid & _).
    unfold rowids_increasing. rewrite H1, El, Em. rewrite H0 in Hs. simpl in *.
    repeat split; auto.
    rewrite map_app. simpl. rewrite Hid. now apply increasing_snoc.
  - intros numeric_text l Hsave.
    destruct (save_request_log_inv _ _ _ _ Hsave)
      as (rows & r & H0 & H1 & Es & Em & Hid & _).
    unfold rowids_increasing. rewrite H1, Es, Em. rewrite H0 in Hl. simpl in *.
    repeat split; auto.
    rewrite map_app. simpl. rewrite Hid. now apply increasing_snoc.
  - intros ts batch Hsave.
    destruct (save_models_frame _ _ _ _ Hsave) as [Es El].
    unfold rowids_increasing. rewrite Es, El. repeat split; auto.
    unfold save_models in Hsave. destruct batch as [|m rest].
    + now injection Hsave as <-.
    + destruct (models db) as [rows|]; simpl in Hsave; [|discriminate].
      injection Hsave as <-. simpl in *.
      apply (insert_models_increasing ts rest).
      rewrite map_app. simpl. now apply increasing_snoc.
  - repeat split; now apply increasing_NoDup.
Qed.

Lemma rowids_stay_increasing_witness :
  rowids_increasing (OllamaMetricsDB new_file) /\
  rowids_increasing Sample.after_midnight /\
  rowids_increasing SampleWrites.logged /\
  NoDup (map RequestLogs.id (rows_of (request_logs Sample.after_midnight))).
Proof.
  assert (H0 : rowids_increasing (OllamaMetricsDB new_file)).
  { repeat split; constructor. }
  assert (H1 : rowids_increasing Sample.after_midnight).
  { repeat split; repeat constructor. }
  split; [exact H0|]. split; [exact H1|]. split.
  - apply (proj1 (proj2 (proj1 (rowids_stay_increasing Sample.after_midnight
                                  SampleWrites.logged H1)))
             Sample.numeric_text SampleWrites.entry).
    reflexivity.
  - apply (proj2 (rowids_stay_increasing Sample.after_midnight SampleWrites.logged H1)).
Defined.

(** ** The order of the sampler's stamps *)

Lemma lex_assoc (a b c : comparison) : lex (lex a b) c = lex a (lex b c).
Proof. now destruct a. Qed.

Lemma time_text_length (d : datetime) : String.length (time_text d) = 8%nat.
Proof.
  unfold time_text. rewrite !append_length, !digits_length. reflexivity.
Qed.

Lemma time_text_compare (a b : datetime) :
  well_formed a -> well_formed b ->
  String.compare (time_text a) (time_text b) =
    lex (hour a ?= hour b)%N (lex (minute a ?= minute b)%N (second a ?= second b)%N).
Proof.
  intros (_ & _ & _ & Ha & Ma & Sa & _) (_ & _ & _ & Hb & Mb & Sb & _).
  unfold time_text.
  rewrite compare_app by now rewrite !digits_length.
  rewrite digits_compare by assumption.
  f_equal. cbn [String.append String.compare].
  change (Ascii.compare ":" ":") with Eq. cbv iota.
  rewrite compare_app by now rewrite !digits_length.
  rewrite digits_compare by assumption.
  f_equal. cbn [String.append String.compare].
  change (Ascii.compare ":" ":") with Eq. cbv iota.
  now apply digits_compare.
Qed.

(** The fraction that [isoformat] prints after the seconds. *)
Lemma fraction_compare (x y : N) :
  (x < 1000000)%N -> (y < 1000000)%N ->
  String.compare (if (x =? 0)%N then "" else "." ++ digits 6 x)%string
                 (if (y =? 0)%N then "" else "." ++ digits 6 y)%string = (x ?= y)%N.
Proof.
  intros Hx Hy.
  destruct (N.eqb_spec x 0) as [->|Nx]; destruct (N.eqb_spec y 0) as [->|Ny].
  - reflexivity.
  - cbn [String.append String.compare]. symmetry. apply N.compare_lt_iff. lia.
  - cbn [String.append String.compare]. symmetry. apply N.compare_gt_iff. lia.
  - cbn [String.append String.compare].
    change (Ascii.compare "." ".") with Eq. cbv iota.
    now apply digits_compare.
Qed.

(** X4: the text order of two stamps written by [datetime.now().isoformat()]
    is the order of the two times, also when one of them has no fraction: on
    such stamps [ORDER BY timestamp] and [MAX(timestamp)] follow the clock. *)
Theorem isoformat_order_is_chronological (a b : datetime) :
  well_formed a -> well_formed b ->
  String.compare (isoformat a) (isoformat b) = compare_datetime a b.
Proof.
  intros Ha Hb. unfold isoformat, compare_datetime.
  rewrite compare_app by now rewrite !date_text_length.
  rewrite date_text_compare by assumption.
  f_equal. cbn [String.append String.compare].
  change (Ascii.compare "T" "T") with Eq. cbv iota.
  rewrite compare_app by now rewrite !time_text_length.
  rewrite time_text_compare by assumption.
  rewrite fraction_compare by (destruct Ha as (_ & _ & _ & _ & _ & _ & ?);
                               destruct Hb as (_ & _ & _ & _ & _ & _ & ?); assumption).
  now rewrite !lex_assoc.
Qed.

Lemma isoformat_order_is_chronological_witness :
  well_formed Sample.noon /\ well_formed Sample.half_past_noon /\
  String.compare (isoformat Sample.noon) (isoformat Sample.half_past_noon) =
    compare_datetime Sample.noon Sample.half_past_noon.
Proof.
  assert (Ha : well_formed Sample.noon) by (repeat split).
  assert (Hb : well_formed Sample.half_past_noon) by (repeat split).
  split; [exact Ha|]. split; [exact Hb|].
  exact (isoformat_order_is_chronological Sample.noon Sample.half_past_noon Ha Hb).
Defined.

(** ** What the windowed reads select *)

Lemma get_recent_system_metrics_text_window_witness :
  get_recent_system_metrics Sample.one_o_clock SampleWrites.sampled 1 =
    Ok [Sample.row_at 1 Sample.half_past_midnight;
        Sample.row_at 2 SampleRoundTrip.quarter_to_one] /\
  StronglySorted (ascending SystemMetrics.timestamp)
    [Sample.row_at 1 Sample.half_past_midnight;
     Sample.row_at 2 SampleRoundTrip.quarter_to_one].
Proof.
  split; [reflexivity|].
  apply (get_recent_system_metrics_text_window Sample.one_o_clock SampleWrites.sampled 1).
  reflexivity.
Defined.

Lemma get_recent_requests_text_window_witness :
  get_recent_requests Sample.one_o_clock SampleWrites.logged 1 =
    Ok [SampleWrites.entry_row; Sample.request_at 1 Sample.half_past_midnight] /\
  StronglySorted (descending RequestLogs.timestamp)
    [SampleWrites.entry_row; Sample.request_at 1 Sample.half_past_midnight].
Proof.
  split; [reflexivity|].
  apply (get_recent_requests_text_window Sample.one_o_clock SampleWrites.logged 1).
  reflexivity.
Defined.

(** X7: on rows stamped by [isoformat], with the cutoff that SQLite's
    [datetime] renders, both windowed reads select a row exactly when its
    calendar date is not before the cutoff's date; the time of day of neither
    plays a part. *)
Theorem recent_reads_select_by_date (datetime_now : string -> option string)
    (db : db_file) (hours : Z) (c : datetime) :
  well_formed c ->
  datetime_now (hours_modifier hours) = Some (sqlite_datetime c) ->
  (forall rows r d,
     get_recent_system_metrics datetime_now db hours = Ok rows ->
     well_formed d -> SystemMetrics.timestamp r = isoformat d ->
     (In r rows <-> In r (rows_of (system_metrics db)) /\ compare_date d c <> Lt)) /\
  (forall logs r d,
     get_recent_requests datetime_now db hours = Ok logs ->
     well_formed d -> RequestLogs.timestamp r = isoformat d ->
     (In r logs <-> In r (rows_of (request_logs db)) /\ compare_date d c <> Lt)).
Proof.
  intros Hc Hcut. split.
  - intros rows r d. unfold get_recent_system_metrics. rewrite Hcut.
    destruct (system_metrics db) as [t|]; simpl; [|discriminate].
    intros [= <-] Hd Hts.
    rewrite order_by_In, filter_In, Hts, (newer_than_isoformat d c Hd Hc). reflexivity.
  - intros logs r d. unfold get_recent_requests. rewrite Hcut.
    destruct (request_logs db) as [t|]; simpl; [|discriminate].
    intros [= <-] Hd Hts.
    rewrite order_by_desc_In, filter_In, Hts, (newer_than_isoformat d c Hd Hc). reflexivity.
Qed.

Lemma recent_reads_select_by_date_witness :
  well_formed Sample.noon /\
  Sample.one_o_clock (hours_modifier 1) = Some (sqlite_datetime Sample.noon) /\
  (In (Sample.row_at 1 Sample.half_past_midnight)
      [Sample.row_at 1 Sample.half_past_midnight;
       Sample.row_at 2 SampleRoundTrip.quarter_to_one] <->
   In (Sample.row_at 1 Sample.half_past_midnight)
      (rows_of (system_metrics SampleWrites.sampled)) /\
   compare_date Sample.half_past_midnight Sample.noon <> Lt).
Proof.
  assert (Hc : well_formed Sample.noon) by (repeat split).
  split; [exact Hc|]. split; [reflexivity|].
  apply (proj1 (recent_reads_select_by_date Sample.one_o_clock SampleWrites.sampled 1
                  Sample.noon Hc eq_refl)).
  - reflexivity.
  - repeat split.
  - reflexivity.
Defined.

(** ** The republishing loop *)

Lemma last_row_none {A : Type} (l : list A) : last_row l = None <-> l = [].
Proof.
  split; [|now intros ->].
  induction l as [|x l IH]; [reflexivity|].
  simpl. destruct l as [|y l]; [discriminate|].
  intros H. now specialize (IH H).
Qed.

Lemma last_row_In {A : Type} (l : list A) (x : A) : last_row l = Some x -> In x l.
Proof.
  induction l as [|y l IH]; [discriminate|].
  simpl. destruct l as [|z l].
  - intros [= <-]. now left.
  - intros H. right. now apply IH.
Qed.

Lemma last_row_greatest {A : Type} (key : A -> string) (l : list A) (x : A) :
  StronglySorted (ascending key) l -> last_row l = Some x ->
  Forall (fun y => ascending key y x) l.
Proof.
  induction 1 as [|y l Hs IH Hy]; [discriminate|].
  simpl. destruct l as [|z l].
  - intros [= <-]. constructor; [apply TextOrder.leb_refl|constructor].
  - intros H. constructor.
    + rewrite Forall_forall in Hy. apply Hy. now apply last_row_In.
    + now apply IH.
Qed.

(** X8: a pass of [emit_system_metrics] republishes the row of the last-hour
    window whose timestamp text is the largest, and nothing when the window
    has no row. *)
Theorem emit_system_metrics_pass_newest (datetime_now : string -> option string)
    (db : db_file) (out : option SystemMetrics.row) :
  emit_system_metrics_pass datetime_now db = Ok out ->
  let cutoff := datetime_now (hours_modifier 1) in
  match out with
  | Some r =>
      In r (rows_of (system_metrics db)) /\
      newer_than cutoff (SystemMetrics.timestamp r) = true /\
      forall r', In r' (rows_of (system_metrics db)) ->
        newer_than cutoff (SystemMetrics.timestamp r') = true ->
        String.leb (SystemMetrics.timestamp r') (SystemMetrics.timestamp r) = true
  | None =>
      forall r', In r' (rows_of (system_metrics db)) ->
        newer_than cutoff (SystemMetrics.timestamp r') = false
  end.
Proof.
  unfold emit_system_metrics_pass, get_recent_system_metrics.
  destruct (system_metrics db) as [t|]; simpl; [|discriminate].
  intros [= <-].
  set (keep := fun r => newer_than (datetime_now (hours_modifier 1))
                          (SystemMetrics.timestamp r)).
  destruct (last_row (order_by SystemMetrics.timestamp (filter keep t))) as [r|] eqn:E.
  - pose proof (last_row_In _ _ E) as Hin.
    apply order_by_In, filter_In in Hin. destruct Hin as [Hin Hkeep].
    split; [exact Hin|]. split; [exact Hkeep|].
    intros r' Hin' Hkeep'.
    pose proof (last_row_greatest SystemMetrics.timestamp _ _
                  (order_by_sorted SystemMetrics.timestamp (filter keep t)) E) as Hall.
    rewrite Forall_forall in Hall. apply Hall.
    apply order_by_In, filter_In. now split.
  - apply last_row_none in E. intros r' Hin'.
    destruct (keep r') eqn:Hk; [|exact Hk].
    assert (Hr : In r' (order_by SystemMetrics.timestamp (filter keep t))).
    { apply order_by_In, filter_In. now split. }
    rewrite E in Hr. destruct Hr.
Qed.

Lemma emit_system_metrics_pass_newest_witness :
  emit_system_metrics_pass Sample.one_o_clock SampleWrites.sampled =
    Ok (Some (Sample.row_at 2 SampleRoundTrip.quarter_to_one)) /\
  In (Sample.row_at 2 SampleRoundTrip.quarter_to_one)
    (rows_of (system_metrics SampleWrites.sampled)) /\
  emit_system_metrics_pass Sample.one_o_clock (OllamaMetricsDB new_file) = Ok None.
Proof.
  split; [reflexivity|]. split; [|reflexivity].
  apply (emit_system_metrics_pass_newest Sample.one_o_clock SampleWrites.sampled
           (Some (Sample.row_at 2 SampleRoundTrip.quarter_to_one))).
  reflexivity.
Defined.

(** ** Pages of request logs *)

Lemma firstn_beyond {A : Type} (n m : nat) (l : list A) :
  (List.length l <= n)%nat -> (List.length l <= m)%nat -> firstn n l = firstn m l.
Proof. intros Hn Hm. now rewrite !firstn_all2. Qed.

(** A slice between two non-negative bounds. *)
Lemma py_slice_page {A : Type} (l : list A) (offset limit : Z) :
  0 <= offset -> 0 <= limit ->
  py_slice l offset (offset + limit) = firstn (Z.to_nat limit) (skipn (Z.to_nat offset) l).
Proof.
  intros Ho Hl. unfold py_slice, slice_index.
  set (len := Z.of_nat (List.length l)).
  destruct (Z.ltb_spec offset 0) as [|_]; [lia|].
  destruct (Z.ltb_spec (offset + limit) 0) as [|_]; [lia|].
  destruct (Z.le_gt_cases offset len) as [Hin|Hout].
  - rewrite (Z.min_l offset len) by lia.
    destruct (Z.le_gt_cases (offset + limit) len) as [Hhi|Hhi].
    + rewrite Z.min_l by lia. do 2 f_equal. lia.
    + rewrite Z.min_r by lia.
      apply firstn_beyond; rewrite length_skipn; subst len; lia.
  - rewrite (Z.min_r offset len), Z.min_r by lia.
    rewrite Z.sub_diag. simpl.
    rewrite (skipn_all2 l) by (subst len; lia).
    now rewrite firstn_nil.
Qed.

Lemma firstn_add {A : Type} (a b : nat) (l : list A) :
  firstn a l ++ firstn b (skipn a l) = firstn (a + b) l.
Proof.
  revert l. induction a as [|a IH]; intros [|x l]; simpl; try reflexivity.
  - now rewrite firstn_nil.
  - now rewrite IH.
Qed.

Lemma sorted_skipn {A : Type} (R : A -> A -> Prop) (n : nat) (l : list A) :
  StronglySorted R l -> StronglySorted R (skipn n l).
Proof.
  revert l. induction n as [|n IH]; intros l H; [exact H|].
  destruct H; simpl; [constructor|]. now apply IH.
Qed.

Lemma sorted_firstn {A : Type} (R : A -> A -> Prop) (n : nat) (l : list A) :
  StronglySorted R l -> StronglySorted R (firstn n l).
Proof.
  revert l. induction n as [|n IH]; intros l H; [constructor|].
  destruct H as [|x l Hs Hx]; simpl; constructor.
  - now apply IH.
  - rewrite Forall_forall in *. intros y Hy. apply Hx.
    rewrite <- (firstn_skipn n l). apply in_or_app. now left.
Qed.

(** X9: with a non-negative [offset] and [limit], [api_request_logs] returns
    the [limit] windowed logs that follow the first [offset] ones, newest
    first, and fewer when the window ends; without the two arguments it
    returns the first 100. *)
Theorem api_request_logs_page (datetime_now : string -> option string) (file : db_file)
    (hours_arg : option Z) (logs : list RequestLogs.row) :
  get_recent_requests datetime_now (OllamaMetricsDB file) (get_default hours_arg 24) = Ok logs ->
  (forall limit offset,
     0 <= offset -> 0 <= limit ->
     exists page,
       api_request_logs datetime_now file hours_arg (Some limit) (Some offset) = Ok page /\
       page = firstn (Z.to_nat limit) (skipn (Z.to_nat offset) logs) /\
       Z.of_nat (List.length page) =
         Z.min limit (Z.max 0 (Z.of_nat (List.length logs) - offset)) /\
       StronglySorted (descending RequestLogs.timestamp) page) /\
  api_request_logs datetime_now file hours_arg None None = Ok (firstn 100 logs).
Proof.
  intros Hlogs. split.
  - intros limit offset Ho Hl.
    exists (firstn (Z.to_nat limit) (skipn (Z.to_nat offset) logs)).
    unfold api_request_logs. rewrite Hlogs. simpl.
    rewrite py_slice_page by assumption.
    split; [reflexivity|]. split; [reflexivity|]. split.
    + rewrite length_firstn, length_skipn. lia.
    + apply sorted_firstn, sorted_skipn.
      rewrite get_recent_requests_eq with (rows := rows_of (request_logs file)) in Hlogs.
      * injection Hlogs as <-. apply order_by_desc_sorted.
      * unfold OllamaMetricsDB, _create_tables; simpl. apply create_table_some.
  - unfold api_request_logs. rewrite Hlogs. simpl. f_equal.
    exact (py_slice_page logs 0 100 ltac:(lia) ltac:(lia)).
Qed.

Lemma api_request_logs_page_witness :
  get_recent_requests Sample.one_o_clock (OllamaMetricsDB SampleWrites.logged)
    (get_default (Some 1) 24) =
    Ok [SampleWrites.entry_row; Sample.request_at 1 Sample.half_past_midnight] /\
  exists page,
    api_request_logs Sample.one_o_clock SampleWrites.logged (Some 1) (Some 5) (Some 1) =
      Ok page /\
    page = firstn 5 (skipn 1 [SampleWrites.entry_row;
                              Sample.request_at 1 Sample.half_past_midnight]) /\
    Z.of_nat (List.length page) = Z.min 5 (Z.max 0 (2 - 1)) /\
    StronglySorted (descending RequestLogs.timestamp) page.
Proof.
  split; [reflexivity|].
  apply (proj1 (api_request_logs_page Sample.one_o_clock SampleWrites.logged (Some 1)
                  [SampleWrites.entry_row; Sample.request_at 1 Sample.half_past_midnight]
                  eq_refl) 5 1); lia.
Defined.

(** X10: consecutive pages tile the window: the page of [a] logs at [offset]
    followed by the page of [b] logs at [offset + a] is the page of [a + b]
    logs at [offset]; no log is skipped or served twice. *)
Theorem api_request_logs_pages_tile (datetime_now : string -> option string)
    (file : db_file) (hours_arg : option Z) (offset a b : Z) :
  0 <= offset -> 0 <= a -> 0 <= b ->
  forall first second,
    api_request_logs datetime_now file hours_arg (Some a) (Some offset) = Ok first ->
    api_request_logs datetime_now file hours_arg (Some b) (Some (offset + a)) = Ok second ->
    api_request_logs datetime_now file hours_arg (Some (a + b)) (Some offset) =
      Ok (first ++ second).
Proof.
  intros Ho Ha Hb first second. unfold api_request_logs.
  destruct (get_recent_requests datetime_now (OllamaMetricsDB file)
              (get_default hours_arg 24)) as [logs|e]; simpl; [|discriminate].
  rewrite !py_slice_page by lia.
  intros [= <-] [= <-]. f_equal.
  rewrite !Z2Nat.inj_add by lia.
  rewrite (Nat.add_comm (Z.to_nat offset)), <- skipn_skipn.
  now rewrite firstn_add.
Qed.

Lemma api_request_logs_pages_tile_witness :
  api_request_logs Sample.one_o_clock SampleWrites.logged (Some 1) (Some 1) (Some 0) =
    Ok [SampleWrites.entry_row] /\
  api_request_logs Sample.one_o_clock SampleWrites.logged (Some 1) (Some 1) (Some (0 + 1)) =
    Ok [Sample.request_at 1 Sample.half_past_midnight] /\
  api_request_logs Sample.one_o_clock SampleWrites.logged (Some 1) (Some (1 + 1)) (Some 0) =
    Ok ([SampleWrites.entry_row] ++ [Sample.request_at 1 Sample.half_past_midnight]).
Proof.
  split; [reflexivity|]. split; [reflexivity|].
  apply (api_request_logs_pages_tile Sample.one_o_clock SampleWrites.logged (Some 1) 0 1 1);
    try lia; reflexivity.
Defined.

(** ** Aggregate statistics on a window with logs *)

Lemma fold_py_add_raise (values : list value) (e : exn) :
  fold_left (fun acc v => a <- acc ;; py_add a v) values (Raise e) = Raise e.
Proof. induction values as [|v values IH]; simpl; auto. Qed.

Lemma py_add_none (a : value) : exists e, py_add a VNone = Raise e.
Proof. destruct a; simpl; eauto. Qed.

Lemma fold_py_add_none (values : list value) :
  In VNone values ->
  forall acc, exists e,
    fold_left (fun acc v => a <- acc ;; py_add a v) values acc = Raise e.
Proof.
  induction values as [|v values IH]; intros Hin acc; [destruct Hin|].
  simpl. destruct Hin as [->|Hin]; [|now apply IH].
  destruct acc as [a|e]; simpl.
  - destruct (py_add_none a) as [e ->]. exists e. apply fold_py_add_raise.
  - exists e. apply fold_py_add_raise.
Qed.

Lemma py_sum_none (values : list value) :
  In VNone values -> exists e, py_sum values = Raise e.
Proof. intros H. now apply fold_py_add_none. Qed.

Lemma fold_py_add_ints (zs : list Z) (a : Z) :
  fold_left (fun acc v => x <- acc ;; py_add x v) (map VInt zs) (Ok (VInt a)) =
    Ok (VInt (a + sum_Z zs)).
Proof.
  revert a. induction zs as [|z zs IH]; intros a; simpl.
  - now rewrite Z.add_0_r.
  - rewrite IH. now rewrite Z.add_assoc.
Qed.

Lemma py_sum_ints (zs : list Z) : py_sum (map VInt zs) = Ok (VInt (sum_Z zs)).
Proof. unfold py_sum. now rewrite fold_py_add_ints. Qed.

(** X11: one windowed log with a NULL token count makes [api_request_stats]
    fail, whatever the other logs hold: [sum] cannot add [None].  (A generation
    test answered with a null count writes such a log.) *)
Theorem api_request_stats_null_count (datetime_now : string -> option string)
    (file : db_file) (hours_arg : option Z) (logs : list RequestLogs.row)
    (log : RequestLogs.row) :
  get_recent_requests datetime_now (OllamaMetricsDB file) (get_default hours_arg 24) = Ok logs ->
  In log logs ->
  RequestLogs.input_tokens log = VNone \/ RequestLogs.output_tokens log = VNone ->
  exists e, api_request_stats datetime_now file hours_arg = Raise e.
Proof.
  intros Hlogs Hin Hnull. unfold api_request_stats. rewrite Hlogs. simpl.
  destruct Hnull as [Hnull|Hnull].
  - destruct (py_sum_none (map RequestLogs.input_tokens logs)) as [e He].
    { rewrite <- Hnull. now apply in_map. }
    rewrite He. simpl. eauto.
  - destruct (py_sum (map RequestLogs.input_tokens logs)) as [total|e]; simpl; [|eauto].
    destruct (py_sum_none (map RequestLogs.output_tokens logs)) as [e He].
    { rewrite <- Hnull. now apply in_map. }
    rewrite He. simpl. eauto.
Qed.

Lemma api_request_stats_null_count_witness :
  get_recent_requests Sample.one_o_clock (OllamaMetricsDB SampleWrites.logged)
    (get_default (Some 1) 24) =
    Ok [SampleWrites.entry_row; Sample.request_at 1 Sample.half_past_midnight] /\
  RequestLogs.output_tokens SampleWrites.entry_row = VNone /\
  exists e, api_request_stats Sample.one_o_clock SampleWrites.logged (Some 1) = Raise e.
Proof.
  split; [reflexivity|]. split; [reflexivity|].
  apply (api_request_stats_null_count Sample.one_o_clock SampleWrites.logged (Some 1)
           [SampleWrites.entry_row; Sample.request_at 1 Sample.half_past_midnight]
           SampleWrites.entry_row).
  - reflexivity.
  - now left.
  - now right.
Defined.

(** X12: when [api_request_stats] answers, [total_requests] is the number of
    windowed logs, and over logs whose counts are all integers the two totals
    are the integer sums of the counts. *)
Theorem api_request_stats_totals (datetime_now : string -> option string)
    (file : db_file) (hours_arg : option Z) (logs : list RequestLogs.row)
    (stats : request_stats) :
  get_recent_requests datetime_now (OllamaMetricsDB file) (get_default hours_arg 24) = Ok logs ->
  api_request_stats datetime_now file hours_arg = Ok stats ->
  total_requests stats = Z.of_nat (List.length logs) /\
  (forall inputs,
     map RequestLogs.input_tokens logs = map VInt inputs ->
     total_input_tokens stats = VInt (sum_Z inputs)) /\
  (forall outputs,
     map RequestLogs.output_tokens logs = map VInt outputs ->
     total_output_tokens stats = VInt (sum_Z outputs)).
Proof.
  intros Hlogs. unfold api_request_stats. rewrite Hlogs. simpl.
  destruct (py_sum (map RequestLogs.input_tokens logs)) as [tin|] eqn:Ein; simpl;
    [|discriminate].
  destruct (py_sum (map RequestLogs.output_tokens logs)) as [tout|] eqn:Eout; simpl;
    [|discriminate].
  match goal with
  | |- context [bind ?avg _] => destruct avg as [a|]; simpl; [|discriminate]
  end.
  intros [= <-]. simpl. split; [reflexivity|]. split.
  - intros inputs H. rewrite H, py_sum_ints in Ein. congruence.
  - intros outputs H. rewrite H, py_sum_ints in Eout. congruence.
Qed.

Lemma api_request_stats_totals_witness :
  get_recent_requests Sample.one_o_clock (OllamaMetricsDB SampleStatsLogs.three_logs)
    (get_default (Some 1) 24) =
    Ok [SampleStatsLogs.chat_row; SampleStatsLogs.counted_row;
        Sample.request_at 1 Sample.half_past_midnight] /\
  api_request_stats Sample.one_o_clock SampleStatsLogs.three_logs (Some 1) =
    Ok {| total_requests := 3;
          total_input_tokens := VInt 20;
          total_output_tokens := VInt 18;
          avg_response_time := VFloat 1.5;
          most_active_endpoint := Some "/api/chat" |} /\
  (3 = Z.of_nat 3 /\
   (forall inputs,
      map RequestLogs.input_tokens
        [SampleStatsLogs.chat_row; SampleStatsLogs.counted_row;
         Sample.request_at 1 Sample.half_past_midnight] = map VInt inputs ->
      VInt 20 = VInt (sum_Z inputs)) /\
   (forall outputs,
      map RequestLogs.output_tokens
        [SampleStatsLogs.chat_row; SampleStatsLogs.counted_row;
         Sample.request_at 1 Sample.half_past_midnight] = map VInt outputs ->
      VInt 18 = VInt (sum_Z outputs))).
Proof.
  split; [reflexivity|]. split; [reflexivity|].
  apply (api_request_stats_totals Sample.one_o_clock SampleStatsLogs.three_logs (Some 1)
           [SampleStatsLogs.chat_row; SampleStatsLogs.counted_row;
            Sample.request_at 1 Sample.half_past_midnight]
           {| total_requests := 3;
              total_input_tokens := VInt 20;
              total_output_tokens := VInt 18;
              avg_response_time := VFloat 1.5;
              most_active_endpoint := Some "/api/chat" |}); reflexivity.
Defined.

(** ** The most active endpoint *)

Lemma existsb_eqb_In (e : string) (l : list string) :
  existsb (String.eqb e) l = true <-> In e l.
Proof.
  rewrite existsb_exists. split.
  - intros (x & Hx & E). apply String.eqb_eq in E. now subst.
  - intros H. exists e. split; [exact H|apply String.eqb_refl].
Qed.

Lemma count_endpoint_keys (c : list (string * Z)) (e : string) :
  map fst (count_endpoint c e) =
    if existsb (String.eqb e) (map fst c) then map fst c else map fst c ++ [e].
Proof.
  induction c as [|[k n] c IH]; simpl; [reflexivity|].
  rewrite (String.eqb_sym e k).
  destruct (k =? e)%string; simpl; [reflexivity|].
  rewrite IH. now destruct (existsb (String.eqb e) (map fst c)).
Qed.

Lemma count_endpoint_count_of (c : list (string * Z)) (e k : string) :
  count_of k (count_endpoint c e) = count_of k c + (if (e =? k)%string then 1 else 0).
Proof.
  induction c as [|[k0 n] c IH]; simpl.
  - destruct (e =? k)%string; lia.
  - destruct (String.eqb_spec k0 e) as [->|Hne]; simpl.
    + destruct (e =? k)%string; lia.
    + destruct (String.eqb_spec k0 k) as [->|Hk].
      * destruct (String.eqb_spec e k); [congruence|lia].
      * exact IH.
Qed.

Lemma fold_count_endpoint_keys (l : list string) :
  forall c, map fst (fold_left count_endpoint l c) = map fst c ++ first_seen (map fst c) l.
Proof.
  induction l as [|e l IH]; intros c; simpl; [now rewrite app_nil_r|].
  rewrite IH, count_endpoint_keys.
  destruct (existsb (String.eqb e) (map fst c)); [reflexivity|].
  now rewrite <- app_assoc.
Qed.

Lemma hits_cons (k e : string) (l : list string) :
  hits k (e :: l) = (if (e =? k)%string then 1 else 0) + hits k l.
Proof.
  unfold hits. cbn [filter]. destruct (e =? k)%string; cbn [List.length]; lia.
Qed.

Lemma fold_count_endpoint_count_of (l : list string) (k : string) :
  forall c, count_of k (fold_left count_endpoint l c) = count_of k c + hits k l.
Proof.
  induction l as [|e l IH]; intros c; simpl.
  - unfold hits. simpl. lia.
  - rewrite IH, count_endpoint_count_of, hits_cons. lia.
Qed.

Lemma first_seen_fresh (l : list string) :
  forall seen, NoDup (first_seen seen l) /\
               forall x, In x (first_seen seen l) -> ~ In x seen.
Proof.
  induction l as [|e l IH]; intros seen; simpl.
  - split; [constructor|intros x []].
  - destruct (existsb (String.eqb e) seen) eqn:E.
    + apply IH.
    + destruct (IH (seen ++ [e])) as [Hnd Hfresh].
      assert (He : ~ In e seen).
      { intros H. apply existsb_eqb_In in H. congruence. }
      split.
      * constructor; [|exact Hnd].
        intros H. apply Hfresh in H. apply H, in_or_app. right. now left.
      * intros x [<-|Hx]; [exact He|].
        intros H. apply (Hfresh x Hx), in_or_app. now left.
Qed.

Lemma first_seen_nil (l : list string) : first_seen [] l = [] -> l = [].
Proof. destruct l; [reflexivity|discriminate]. Qed.

(** Where a key stands among the first appearances, it stands in the list. *)
Lemma first_seen_split (l : list string) :
  forall seen ks1 k ks2,
    first_seen seen l = ks1 ++ k :: ks2 ->
    exists p q,
      l = p ++ k :: q /\ ~ In k p /\
      forall x, In x p -> In x seen \/ In x ks1.
Proof.
  induction l as [|e l IH]; intros seen ks1 k ks2; simpl.
  - intros H. now destruct ks1.
  - destruct (existsb (String.eqb e) seen) eqn:E.
    + intros H.
      assert (Hfresh : ~ In k seen).
      { apply (proj2 (first_seen_fresh l seen)). rewrite H.
        apply in_or_app. right. now left. }
      destruct (IH _ _ _ _ H) as (p & q & -> & Hk & Hp).
      apply existsb_eqb_In in E.
      exists (e :: p), q. split; [reflexivity|]. split.
      * intros [->|Hin]; [contradiction|contradiction].
      * intros x [<-|Hx]; [now left|now apply Hp].
    + destruct ks1 as [|e' ks1]; simpl.
      * intros [= -> _]. exists [], l. split; [reflexivity|]. split; [intros []|intros x []].
      * intros [= <- H].
        destruct (IH _ _ _ _ H) as (p & q & -> & Hk & Hp).
        assert (Hfresh : ~ In k (seen ++ [e])).
        { apply (proj2 (first_seen_fresh (p ++ k :: q) (seen ++ [e]))). rewrite H.
          apply in_or_app. right. now left. }
        exists (e :: p), q. split; [reflexivity|]. split.
        -- intros [->|Hin]; [|contradiction].
           apply Hfresh, in_or_app. right. now left.
        -- intros x [<-|Hx]; [right; now left|].
           destruct (Hp x Hx) as [Hs|Hs]; [|right; now right].
           apply in_app_or in Hs. destruct Hs as [Hs|[<-|[]]]; [now left|right; now left].
Qed.

Lemma count_of_In (c : list (string * Z)) (k : string) (n : Z) :
  NoDup (map fst c) -> In (k, n) c -> count_of k c = n.
Proof.
  induction c as [|[k0 n0] c IH]; simpl; [intros _ []|].
  intros Hnd. inversion Hnd as [|? ? Hk0 Hnd']; subst.
  intros [[= -> ->]|Hin].
  - now rewrite String.eqb_refl.
  - destruct (String.eqb_spec k0 k) as [->|Hne]; [|now apply IH].
    exfalso. apply Hk0. apply (in_map fst) in Hin. exact Hin.
Qed.

Lemma count_of_bound (c : list (string * Z)) (k : string) (n : Z) :
  0 <= n -> Forall (fun kv => snd kv <= n) c -> count_of k c <= n.
Proof.
  intros Hn. induction 1 as [|[k0 n0] c H0 Hc IH]; simpl; [exact Hn|].
  destruct (k0 =? k)%string; [exact H0|exact IH].
Qed.

(** [max] keeps the first of the largest counts. *)
Lemma fold_best_split (rest : list (string * Z)) :
  forall pre best mid,
    Forall (fun kv => snd kv < snd best) pre ->
    Forall (fun kv => snd kv <= snd best) mid ->
    let b := fold_left (fun best kv => if snd best <? snd kv then kv else best) rest best in
    exists pre' mid',
      pre ++ best :: mid ++ rest = pre' ++ b :: mid' /\
      Forall (fun kv => snd kv < snd b) pre' /\
      Forall (fun kv => snd kv <= snd b) mid'.
Proof.
  induction rest as [|kv rest IH]; intros pre best mid Hpre Hmid; simpl.
  - exists pre, mid. now rewrite app_nil_r.
  - destruct (Z.ltb_spec (snd best) (snd kv)) as [Hlt|Hge].
    + destruct (IH (pre ++ best :: mid) kv []) as (pre' & mid' & E & H1 & H2).
      * apply Forall_app. split.
        -- eapply Forall_impl; [|exact Hpre]. intros x Hx. simpl in Hx. lia.
        -- constructor; [exact Hlt|].
           eapply Forall_impl; [|exact Hmid]. intros x Hx. simpl in Hx. lia.
      * constructor.
      * exists pre', mid'. split; [|now split].
        rewrite <- E. simpl. now rewrite <- !app_assoc.
    + destruct (IH pre best (mid ++ [kv])) as (pre' & mid' & E & H1 & H2).
      * exact Hpre.
      * apply Forall_app. split; [exact Hmid|]. now repeat constructor.
      * exists pre', mid'. split; [|now split].
        rewrite <- E. now rewrite <- app_assoc.
Qed.

Lemma max_by_count_split (c : list (string * Z)) (k : string) :
  max_by_count c = Some k ->
  exists pre n post,
    c = pre ++ (k, n) :: post /\
    Forall (fun kv => snd kv < n) pre /\
    Forall (fun kv => snd kv <= n) post.
Proof.
  destruct c as [|first rest]; simpl; [discriminate|].
  intros [= <-].
  destruct (fold_best_split rest [] first []) as (pre & post & E & H1 & H2);
    try constructor.
  simpl in E.
  destruct (fold_left (fun best kv => if snd best <? snd kv then kv else best) rest first)
    as [k n] eqn:Eb.
  exists pre, n, post. simpl in *. now split.
Qed.

(** X13: the [most_active_endpoint] of [api_request_stats] is an endpoint with
    the largest number of windowed logs and, among those, the one whose first
    log comes first in the newest-first list; it is [None] only on an empty
    window. *)
Theorem api_request_stats_most_active (datetime_now : string -> option string)
    (file : db_file) (hours_arg : option Z) (logs : list RequestLogs.row)
    (stats : request_stats) :
  get_recent_requests datetime_now (OllamaMetricsDB file) (get_default hours_arg 24) = Ok logs ->
  api_request_stats datetime_now file hours_arg = Ok stats ->
  let endpoints := map RequestLogs.endpoint logs in
  match most_active_endpoint stats with
  | None => logs = []
  | Some e =>
      (forall e', hits e' endpoints <= hits e endpoints) /\
      exists before after,
        endpoints = before ++ e :: after /\
        ~ In e before /\
        forall e', In e' before -> hits e' endpoints < hits e endpoints
  end.
Proof.
  intros Hlogs. unfold api_request_stats. rewrite Hlogs. simpl.
  destruct (py_sum (map RequestLogs.input_tokens logs)); simpl; [|discriminate].
  destruct (py_sum (map RequestLogs.output_tokens logs)); simpl; [|discriminate].
  match goal with
  | |- context [bind ?avg _] => destruct avg as [average|]; simpl; [|discriminate]
  end.
  intros [= <-]. simpl.
  set (endpoints := map RequestLogs.endpoint logs).
  set (c := fold_left count_endpoint endpoints []).
  assert (Hkeys : map fst c = first_seen [] endpoints)
    by apply (fold_count_endpoint_keys endpoints []).
  assert (Hval : forall k, count_of k c = hits k endpoints)
    by (intros k; apply (fold_count_endpoint_count_of endpoints k [])).
  assert (Hnd : NoDup (map fst c))
    by (rewrite Hkeys; apply first_seen_fresh).
  destruct (max_by_count c) as [e|] eqn:Emax.
  - destruct (max_by_count_split _ _ Emax) as (pre & n & post & Ec & Hpre & Hpost).
    assert (Hn : hits e endpoints = n).
    { rewrite <- Hval. apply count_of_In; [exact Hnd|].
      rewrite Ec. apply in_or_app. right. now left. }
    assert (Hpos : 0 <= n) by (rewrite <- Hn; unfold hits; lia).
    split.
    + intros e'. rewrite <- (Hval e'), Hn. apply count_of_bound; [exact Hpos|].
      rewrite Ec. apply Forall_app. split.
      * eapply Forall_impl; [|exact Hpre]. intros x Hx. simpl in Hx. lia.
      * constructor; [simpl; lia|exact Hpost].
    + rewrite Ec, map_app in Hkeys. simpl in Hkeys. symmetry in Hkeys.
      destruct (first_seen_split _ _ _ _ _ Hkeys) as (p & q & Hl & Hk & Hp).
      exists p, q. split; [exact Hl|]. split; [exact Hk|].
      intros e' He'. destruct (Hp e' He') as [[]|Hin].
      apply in_map_iff in Hin. destruct Hin as ([k' n'] & <- & Hin).
      rewrite Forall_forall in Hpre. specialize (Hpre _ Hin). simpl in *.
      rewrite <- (Hval k'), Hn.
      rewrite (count_of_In c k' n'); [exact Hpre|exact Hnd|].
      rewrite Ec. apply in_or_app. now left.
  - destruct c as [|first rest] eqn:Ec'; [|discriminate].
    simpl in Hkeys. symmetry in Hkeys. apply first_seen_nil in Hkeys.
    now apply map_eq_nil in Hkeys.
Qed.

Lemma api_request_stats_most_active_witness :
  get_recent_requests Sample.one_o_clock (OllamaMetricsDB SampleStatsLogs.three_logs)
    (get_default (Some 1) 24) =
    Ok [SampleStatsLogs.chat_row; SampleStatsLogs.counted_row;
        Sample.request_at 1 Sample.half_past_midnight] /\
  (forall e',
     hits e' ["/api/chat"; "/api/chat"; "/api/generate"] <=
     hits "/api/chat" ["/api/chat"; "/api/chat"; "/api/generate"]) /\
  exists before after,
    ["/api/chat"; "/api/chat"; "/api/generate"] = before ++ "/api/chat" :: after /\
    ~ In "/api/chat" before /\
    forall e', In e' before ->
      hits e' ["/api/chat"; "/api/chat"; "/api/generate"] <
      hits "/api/chat" ["/api/chat"; "/api/chat"; "/api/generate"].
Proof.
  split; [reflexivity|].
  apply (api_request_stats_most_active Sample.one_o_clock SampleStatsLogs.three_logs
           (Some 1)
           [SampleStatsLogs.chat_row; SampleStatsLogs.counted_row;
            Sample.request_at 1 Sample.half_past_midnight]
           {| total_requests := 3;
              total_input_tokens := VInt 20;
              total_output_tokens := VInt 18;
              avg_response_time := VFloat 1.5;
              most_active_endpoint := Some "/api/chat" |}); reflexivity.
Defined.

(** ** Requests per client *)

Lemma group_by_client_ip_spec (groups : list ip_stat) (r : RequestLogs.row) :
  (exists pre g post,
     groups = pre ++ g :: post /\
     stat_client_ip g = RequestLogs.client_ip r /\
     ~ In (RequestLogs.client_ip r) (map stat_client_ip pre) /\
     group_by_client_ip groups r = pre ++ joined g r :: post) \/
  (~ In (RequestLogs.client_ip r) (map stat_client_ip groups) /\
   group_by_client_ip groups r = groups ++ [new_group r]).
Proof.
  induction groups as [|g groups IH]; simpl.
  - right. split; [intros []|reflexivity].
  - destruct (String.eqb_spec (stat_client_ip g) (RequestLogs.client_ip r)) as [E|E].
    + left. exists [], g, groups. simpl. repeat split; auto.
    + destruct IH as [(pre & g' & post & -> & Hg & Hpre & ->)|[Hnone ->]].
      * left. exists (g :: pre), g', post. simpl. repeat split; auto.
        intros [H|H]; contradiction.
      * right. split; [|reflexivity]. intros [H|H]; contradiction.
Qed.

Lemma rows_of_client_snoc (ip : string) (rows : list RequestLogs.row) (r : RequestLogs.row) :
  rows_of_client ip (rows ++ [r]) =
    rows_of_client ip rows ++ (if (RequestLogs.client_ip r =? ip)%string then [r] else []).
Proof. unfold rows_of_client. now rewrite filter_app. Qed.

Lemma summarises_other (rows : list RequestLogs.row) (r : RequestLogs.row) (s : ip_stat) :
  stat_client_ip s <> RequestLogs.client_ip r ->
  summarises rows s -> summarises (rows ++ [r]) s.
Proof.
  intros Hne (Hcount & (r0 & Hin & Hip & Hts) & Hmax). split; [|split].
  - rewrite rows_of_client_snoc.
    destruct (String.eqb_spec (RequestLogs.client_ip r) (stat_client_ip s)); [congruence|].
    now rewrite app_nil_r.
  - exists r0. split; [apply in_or_app; now left|now split].
  - intros r' Hin' Hip'. apply in_app_or in Hin'.
    destruct Hin' as [Hin'|[<-|[]]]; [now apply Hmax|congruence].
Qed.

Lemma summarises_joined (rows : list RequestLogs.row) (r : RequestLogs.row) (s : ip_stat) :
  stat_client_ip s = RequestLogs.client_ip r ->
  summarises rows s -> summarises (rows ++ [r]) (joined s r).
Proof.
  intros Heq (Hcount & (r0 & Hin & Hip & Hts) & Hmax). unfold joined. split; [|split]; simpl.
  - rewrite rows_of_client_snoc, Heq, String.eqb_refl, length_app. simpl.
    rewrite Hcount, Heq. lia.
  - destruct (String.ltb (last_request s) (RequestLogs.timestamp r)) eqn:E.
    + exists r. split; [apply in_or_app; right; now left|]. now split.
    + exists r0. split; [apply in_or_app; now left|now split].
  - intros r' Hin' Hip'. apply in_app_or in Hin'.
    destruct (String.ltb (last_request s) (RequestLogs.timestamp r)) eqn:E.
    + destruct Hin' as [Hin'|[<-|[]]]; [|apply TextOrder.leb_refl].
      apply TextOrder.ltb_leb. eapply TextOrder.leb_ltb_trans; [|exact E].
      now apply Hmax.
    + destruct Hin' as [Hin'|[<-|[]]]; [now apply Hmax|].
      now apply TextOrder.ltb_false_leb.
Qed.

Lemma summarises_new (rows : list RequestLogs.row) (r : RequestLogs.row) :
  (forall r', In r' rows -> RequestLogs.client_ip r' <> RequestLogs.client_ip r) ->
  summarises (rows ++ [r]) (new_group r).
Proof.
  intros Hnone. unfold new_group. split; [|split]; simpl.
  - rewrite rows_of_client_snoc, String.eqb_refl, length_app.
    unfold rows_of_client. rewrite filter_none; [reflexivity|].
    rewrite Forall_forall. intros r' Hr'. apply String.eqb_neq. now apply Hnone.
  - exists r. split; [apply in_or_app; right; now left|now split].
  - intros r' Hin' Hip'. apply in_app_or in Hin'.
    destruct Hin' as [Hin'|[<-|[]]]; [|apply TextOrder.leb_refl].
    now destruct (Hnone r' Hin').
Qed.

Lemma grouped_step (rows : list RequestLogs.row) (groups : list ip_stat)
    (r : RequestLogs.row) :
  grouped rows groups -> grouped (rows ++ [r]) (group_by_client_ip groups r).
Proof.
  intros (Hnd & Hall & Hcover).
  destruct (group_by_client_ip_spec groups r)
    as [(pre & g & post & -> & Hg & Hpre & ->)|[Hnone ->]].
  - rewrite map_app in Hnd. simpl in Hnd.
    apply Forall_app in Hall. destruct Hall as [Hallpre Hallpost].
    inversion Hallpost as [|? ? Hsg Hallpost']; subst.
    assert (Hpost : ~ In (RequestLogs.client_ip r) (map stat_client_ip post)).
    { apply NoDup_remove_2 in Hnd. rewrite <- Hg. intros H. apply Hnd, in_or_app. now right. }
    split; [|split].
    + rewrite map_app. simpl. now rewrite map_app in *.
    + apply Forall_app. split; [|constructor].
      * rewrite Forall_forall in *. intros s Hs. apply summarises_other; [|now apply Hallpre].
        intros E. apply Hpre. rewrite <- E. now apply in_map.
      * now apply summarises_joined.
      * rewrite Forall_forall in *. intros s Hs. apply summarises_other; [|now apply Hallpost'].
        intros E. apply Hpost. rewrite <- E. now apply in_map.
    + intros r' Hin'. rewrite map_app. simpl. apply in_app_or in Hin'.
      destruct Hin' as [Hin'|[<-|[]]].
      * specialize (Hcover _ Hin'). now rewrite map_app in Hcover.
      * apply in_or_app. right. left. exact Hg.
  - split; [|split].
    + rewrite map_app. simpl.
      apply NoDup_app; [exact Hnd|repeat constructor; intros []|].
      intros x Hx [<-|[]]. contradiction.
    + apply Forall_app. split.
      * rewrite Forall_forall in *. intros s Hs. apply summarises_other; [|now apply Hall].
        intros E. apply Hnone. rewrite <- E. now apply in_map.
      * constructor; [|constructor]. apply summarises_new.
        intros r' Hin' E. apply Hnone. rewrite <- E. now apply Hcover.
    + intros r' Hin'. rewrite map_app. apply in_app_or in Hin'.
      destruct Hin' as [Hin'|[<-|[]]]; apply in_or_app; [left; now apply Hcover|].
      right. now left.
Qed.

Lemma grouped_fold (window : list RequestLogs.row) :
  forall done groups,
    grouped done groups ->
    grouped (done ++ window) (fold_left group_by_client_ip window groups).
Proof.
  induction window as [|r window IH]; intros done groups H; simpl.
  - now rewrite app_nil_r.
  - replace (done ++ r :: window) with ((done ++ [r]) ++ window)
      by now rewrite <- app_assoc.
    apply IH. now apply grouped_step.
Qed.

Lemma insert_stat_perm (s : ip_stat) (l : list ip_stat) :
  Permutation (s :: l) (insert_stat s l).
Proof.
  induction l as [|x l IH]; simpl; [reflexivity|].
  destruct (request_count x <=? request_count s); [reflexivity|].
  rewrite perm_swap. now apply perm_skip.
Qed.

Lemma order_by_request_count_desc_perm (l : list ip_stat) :
  Permutation l (order_by_request_count_desc l).
Proof.
  induction l as [|s l IH]; simpl; [constructor|].
  rewrite <- insert_stat_perm. now apply perm_skip.
Qed.

Lemma insert_stat_sorted (s : ip_stat) (l : list ip_stat) :
  StronglySorted (fun a b => request_count b <= request_count a) l ->
  StronglySorted (fun a b => request_count b <= request_count a) (insert_stat s l).
Proof.
  induction 1 as [|x l Hl IH Hx]; simpl.
  - repeat constructor.
  - destruct (Z.leb_spec (request_count x) (request_count s)) as [Hle|Hgt].
    + constructor; [now constructor|].
      constructor; [exact Hle|].
      eapply Forall_impl; [|exact Hx]. intros y Hy. simpl in Hy. lia.
    + constructor; [exact IH|].
      rewrite Forall_forall. intros y Hy.
      apply (Permutation_in _ (Permutation_sym (insert_stat_perm s l))) in Hy.
      destruct Hy as [<-|Hy]; [lia|].
      rewrite Forall_forall in Hx. now apply Hx.
Qed.

Lemma order_by_request_count_desc_sorted (l : list ip_stat) :
  StronglySorted (fun a b => request_count b <= request_count a)
    (order_by_request_count_desc l).
Proof.
  induction l as [|s l IH]; simpl; [constructor|].
  now apply insert_stat_sorted.
Qed.

(** X14: [get_client_ip_stats] returns one group per client address of the
    window and no other: each group counts the windowed logs of its client,
    its [last_request] is the largest timestamp text among them, and the
    groups come with the larger counts first. *)
Theorem get_client_ip_stats_groups (datetime_now : string -> option string)
    (db : db_file) (hours : Z) (stats : list ip_stat) :
  get_client_ip_stats datetime_now db hours = Ok stats ->
  let window :=
    filter (fun r => newer_than (datetime_now (hours_modifier hours))
                       (RequestLogs.timestamp r))
      (rows_of (request_logs db)) in
  NoDup (map stat_client_ip stats) /\
  (forall r, In r window -> In (RequestLogs.client_ip r) (map stat_client_ip stats)) /\
  Forall (summarises window) stats /\
  StronglySorted (fun a b => request_count b <= request_count a) stats.
Proof.
  unfold get_client_ip_stats.
  destruct (request_logs db) as [rows|]; simpl; [|discriminate].
  intros [= <-].
  set (window := filter _ rows).
  assert (H : grouped window (fold_left group_by_client_ip window [])).
  { apply (grouped_fold window [] []).
    split; [constructor|]. split; [constructor|intros r []]. }
  destruct H as (Hnd & Hall & Hcover).
  assert (Hperm : Permutation (fold_left group_by_client_ip window [])
                    (order_by_request_count_desc
                       (order_by stat_client_ip (fold_left group_by_client_ip window [])))).
  { rewrite <- order_by_request_count_desc_perm. apply order_by_perm. }
  split; [|split; [|split]].
  - eapply Permutation_NoDup; [|exact Hnd]. now apply Permutation_map.
  - intros r Hr. eapply Permutation_in; [|now apply Hcover].
    now apply Permutation_map.
  - eapply Permutation_Forall; eauto.
  - apply order_by_request_count_desc_sorted.
Qed.

Lemma get_client_ip_stats_groups_witness :
  get_client_ip_stats Sample.one_o_clock SampleClients.five_logs 1 =
    Ok [{| stat_client_ip := "10.0.0.7"; request_count := 3;
           last_request := isoformat SampleRoundTrip.quarter_to_one |};
        {| stat_client_ip := "127.0.0.1"; request_count := 2;
           last_request := isoformat Sample.noon |}] /\
  StronglySorted (fun a b => request_count b <= request_count a)
    [{| stat_client_ip := "10.0.0.7"; request_count := 3;
        last_request := isoformat SampleRoundTrip.quarter_to_one |};
     {| stat_client_ip := "127.0.0.1"; request_count := 2;
        last_request := isoformat Sample.noon |}].
Proof.
  split; [reflexivity|].
  apply (get_client_ip_stats_groups Sample.one_o_clock SampleClients.five_logs 1).
  reflexivity.
Defined.

(** ** The watched process *)

Lemma lower_app (s t : string) : lower (s ++ t) = (lower s ++ lower t)%string.
Proof. induction s as [|a s IH]; simpl; congruence. Qed.

Lemma lower_split (s : string) :
  forall a b, lower s = (a ++ b)%string ->
  exists s1 s2, s = (s1 ++ s2)%string /\ lower s1 = a /\ lower s2 = b.
Proof.
  induction s as [|c s IH]; intros a b; simpl.
  - destruct a; [|discriminate]. simpl. intros <-. now exists EmptyString, EmptyString.
  - destruct a as [|x a]; simpl.
    + intros <-. now exists EmptyString, (String c s).
    + intros [= <- H]. destruct (IH _ _ H) as (s1 & s2 & -> & <- & <-).
      now exists (String c s1), s2.
Qed.

Lemma prefix_spec (a s : string) :
  String.prefix a s = true <-> exists t, s = (a ++ t)%string.
Proof.
  revert a. induction s as [|y s IH]; intros [|x a]; simpl.
  - split; [eauto|reflexivity].
  - split; [discriminate|intros [t H]; discriminate].
  - split; [eauto|reflexivity].
  - destruct (Ascii.ascii_dec x y) as [<-|Hne].
    + rewrite IH. split; intros [t H]; exists t; congruence.
    + split; [discriminate|]. intros [t H]. congruence.
Qed.

Lemma contains_spec (needle haystack : string) :
  contains needle haystack = true <->
  exists pre post, haystack = (pre ++ needle ++ post)%string.
Proof.
  induction haystack as [|c h IH].
  - cbn [contains]. rewrite orb_false_r, prefix_spec. split.
    + intros [t H]. now exists EmptyString, t.
    + intros (pre & post & H). destruct pre; [now exists post|discriminate].
  - cbn [contains]. rewrite orb_true_iff, prefix_spec, IH. split.
    + intros [[t H]|(pre & post & H)].
      * now exists EmptyString, t.
      * exists (String c pre), post. simpl. now rewrite H.
    + intros (pre & post & H). destruct pre as [|x pre]; simpl in H.
      * left. now exists post.
      * right. injection H as _ H. now exists pre, post.
Qed.

(** X15: a process is taken for the server exactly when its name holds the
    letters [ollama] in a row, in any mix of upper and lower case. *)
Theorem is_ollama_iff (proc : process) :
  is_ollama proc = true <->
  exists pre mid post,
    info_name proc = (pre ++ mid ++ post)%string /\ lower mid = "ollama".
Proof.
  unfold is_ollama. rewrite contains_spec. split.
  - intros (a & b & H).
    destruct (lower_split _ _ _ H) as (pre & rest & Hname & _ & Hrest).
    destruct (lower_split _ _ _ Hrest) as (mid & post & -> & Hmid & _).
    now exists pre, mid, post.
  - intros (pre & mid & post & -> & Hmid).
    exists (lower pre), (lower post). now rewrite !lower_app, Hmid.
Qed.

(** ** The passes of the sampler *)

(** X16: a pass of the sampler that completes ends in one of two ways.  Either
    it appended one row holding the sample of this pass to [system_metrics],
    emitted that sample once as [update_metrics] and sleeps for the interval
    (for 10 seconds when the interval is negative); or it left the store and
    the emitted events as they were and sleeps for 10 seconds.  It never
    touches the two other relations. *)
Theorem run_iteration_outcome (self : OllamaMonitor) (up : upstream) (h : host_state)
    (w w' : world) (pause : Z) :
  run_iteration self up h w = Some (w', pause) ->
  (pause = (if interval self <? 0 then 10 else interval self) /\
   exists rows row sample,
     system_metrics (db w) = Some rows /\
     system_metrics (db w') = Some (rows ++ [row]) /\
     request_logs (db w') = request_logs (db w) /\
     models (db w') = models (db w) /\
     emitted w' = emitted w ++ [("update_metrics", sample)] /\
     holds_sample row sample /\
     timestamp sample = now_isoformat h /\
     system sample = system_state h) \/
  (pause = 10 /\ w' = w).
Proof.
  unfold run_iteration.
  destruct (get_server_status self up) as [status|]; [|discriminate].
  destruct (get_ollama_process_info (processes h)) as [process|e]; simpl.
  - destruct (save_system_metrics (db w) _) as [db'|e] eqn:Esave; simpl.
    + intros [= <- <-]. left. split; [reflexivity|].
      destruct (save_system_metrics_inv _ _ _ Esave) as (rows & row & H0 & H1 & Hl & Hm & _ & Hr).
      exists rows, row,
        {| timestamp := now_isoformat h; server_status := status;
           system := system_state h; ollama_process := process |}.
      simpl.
      split; [exact H0|]. split; [exact H1|]. split; [exact Hl|]. split; [exact Hm|].
      split; [reflexivity|]. split; [exact Hr|]. split; reflexivity.
    + intros [= <- <-]. now right.
  - intros [= <- <-]. now right.
Qed.

Lemma run_iteration_outcome_witness :
  run_iteration SampleGeneration.monitor SampleProxy.refusing
    (SampleHost.half_past_noon [SampleHost.shell]) SampleHost.before =
    Some ({| db := {| system_metrics :=
                        Some [{| SystemMetrics.id := 1;
                                 SystemMetrics.timestamp := isoformat Sample.half_past_noon;
                                 SystemMetrics.server_status := 0;
                                 SystemMetrics.cpu_percent := VFloat 12.5;
                                 SystemMetrics.memory_percent := VFloat 40.25;
                                 SystemMetrics.disk_percent := VFloat 71;
                                 SystemMetrics.network_bytes_sent := 1024;
                                 SystemMetrics.network_bytes_recv := 4096;
                                 SystemMetrics.ollama_cpu_percent := VFloat 0;
                                 SystemMetrics.ollama_memory_percent := VFloat 0;
                                 SystemMetrics.ollama_connections := 0 |}];
                      request_logs := Some [];
                      models := Some [] |};
             emitted :=
               [("update_metrics",
                 {| timestamp := isoformat Sample.half_past_noon;
                    server_status := false;
                    system := Sample.idle;
                    ollama_process := None |})] |}, 5) /\
  run_iteration SampleGeneration.monitor SampleProxy.refusing
    (SampleHost.half_past_noon [SampleFailures.vanished_server]) SampleHost.before =
    Some (SampleHost.before, 10).
Proof.
  split; [reflexivity|].
  destruct (run_iteration SampleGeneration.monitor SampleProxy.refusing
              (SampleHost.half_past_noon [SampleFailures.vanished_server])
              SampleHost.before) as [[w' pause]|] eqn:E; [|discriminate].
  destruct (run_iteration_outcome _ _ _ _ _ _ E) as [(Hp & _)|(-> & ->)].
  - injection E as _ E. rewrite Hp in E. discriminate.
  - reflexivity.
Defined.

(** X17: an exception other than [AccessDenied] from the lookup of the
    sockets of the first matching process, or a network counter, sent or
    received, that SQLite cannot hold, aborts the pass: nothing is stored,
    nothing is emitted and the loop sleeps for 10 seconds. *)
Theorem run_iteration_aborts (self : OllamaMonitor) (up : upstream) (h : host_state)
    (w : world) (status : bool) :
  get_server_status self up = Some status ->
  (forall before proc after e,
     processes h = before ++ proc :: after ->
     Forall (fun p => is_ollama p = false) before ->
     is_ollama proc = true ->
     net_connections proc = Raise e ->
     (forall detail, e <> AccessDenied detail) ->
     run_iteration self up h w = Some (w, 10)) /\
  (network_bytes_sent (system_state h) < - 2 ^ 63 \/
   2 ^ 63 <= network_bytes_sent (system_state h) \/
   network_bytes_recv (system_state h) < - 2 ^ 63 \/
   2 ^ 63 <= network_bytes_recv (system_state h) ->
   run_iteration self up h w = Some (w, 10)).
Proof.
  intros Hprobe. unfold run_iteration. rewrite Hprobe. split.
  - intros before proc after e Hprocs Hbefore Hproc Hraise Hother.
    rewrite Hprocs, (get_ollama_process_info_first _ _ _ Hbefore Hproc), Hraise.
    destruct e; try reflexivity. now destruct (Hother detail).
  - intros Hrange.
    destruct (get_ollama_process_info (processes h)) as [process|e]; simpl; [|reflexivity].
    unfold save_system_metrics. destruct (system_metrics (db w)); simpl; [|reflexivity].
    destruct (bind_int (network_bytes_sent (system_state h))) as [sent|e] eqn:Es;
      [|reflexivity].
    cbn [bind].
    destruct (bind_int (network_bytes_recv (system_state h))) as [recv|e] eqn:Er;
      [|reflexivity].
    apply bind_int_range in Es, Er. lia.
Qed.

Lemma run_iteration_aborts_witness :
  get_server_status SampleGeneration.monitor SampleProxy.refusing = Some false /\
  run_iteration SampleGeneration.monitor SampleProxy.refusing
    (SampleHost.half_past_noon [SampleHost.shell; SampleFailures.vanished_server])
    SampleHost.before = Some (SampleHost.before, 10) /\
  run_iteration SampleGeneration.monitor SampleProxy.refusing
    SampleFailures.busy_host SampleHost.before = Some (SampleHost.before, 10).
Proof.
  split; [reflexivity|]. split.
  - apply (proj1 (run_iteration_aborts SampleGeneration.monitor SampleProxy.refusing
                    (SampleHost.half_past_noon
                       [SampleHost.shell; SampleFailures.vanished_server])
                    SampleHost.before false eq_refl)
             [SampleHost.shell] SampleFailures.vanished_server []
             (OtherException "process no longer exists (pid=4242)")).
    + reflexivity.
    + repeat constructor.
    + reflexivity.
    + reflexivity.
    + discriminate.
  - apply (proj2 (run_iteration_aborts SampleGeneration.monitor SampleProxy.refusing
                    SampleFailures.busy_host SampleHost.before false eq_refl)).
    right. right. right. simpl. lia.
Defined.

(** What one pass adds to the store and to the emitted events. *)
Lemma run_iteration_step (self : OllamaMonitor) (up : upstream) (h : host_state)
    (w w' : world) (pause : Z) :
  run_iteration self up h w = Some (w', pause) ->
  request_logs (db w') = request_logs (db w) /\
  models (db w') = models (db w) /\
  (w' = w \/
   exists row sample,
     rows_of (system_metrics (db w')) = rows_of (system_metrics (db w)) ++ [row] /\
     emitted w' = emitted w ++ [("update_metrics", sample)] /\
     holds_sample row sample).
Proof.
  unfold run_iteration.
  destruct (get_server_status self up) as [status|]; [|discriminate].
  destruct (get_ollama_process_info (processes h)) as [process|e]; simpl;
    [|intros [= <- <-]; repeat split; now left].
  destruct (save_system_metrics (db w) _) as [db'|e] eqn:Esave; simpl;
    [|intros [= <- <-]; repeat split; now left].
  intros [= <- <-]. simpl.
  destruct (save_system_metrics_inv _ _ _ Esave) as (rows & row & H0 & H1 & Hl & Hm & _ & Hr).
  split; [exact Hl|]. split; [exact Hm|]. right.
  eexists row, _. rewrite H0, H1. simpl. split; [reflexivity|]. split; [reflexivity|exact Hr].
Qed.

(** X18: over any number of turns of [run], the rows added to
    [system_metrics] and the events emitted go in pairs, in the same order: each
    event is an [update_metrics] whose sample its row holds, so no sample is
    stored without being emitted or emitted without being stored.  What was
    stored and emitted before stays in place, and [request_logs] and [models]
    are never written. *)
Theorem run_pairs_rows_and_events (self : OllamaMonitor) (up : upstream)
    (turns : list (bool * host_state)) :
  forall w w',
    run self up turns w = Some w' ->
    exists rows events,
      rows_of (system_metrics (db w')) = rows_of (system_metrics (db w)) ++ rows /\
      emitted w' = emitted w ++ events /\
      Forall2 (fun row event => fst event = "update_metrics" /\ holds_sample row (snd event))
        rows events /\
      (List.length rows <= List.length turns)%nat /\
      request_logs (db w') = request_logs (db w) /\
      models (db w') = models (db w).
Proof.
  induction turns as [|[still_running h] turns IH]; intros w w'; simpl.
  - intros [= <-]. exists [], []. rewrite !app_nil_r. repeat split; auto.
  - destruct still_running.
    + destruct (run_iteration self up h w) as [[w1 pause]|] eqn:E; [|discriminate].
      intros Hrest.
      destruct (IH _ _ Hrest) as (rows & events & Hrows & Hev & Hpairs & Hlen & Hl & Hm).
      destruct (run_iteration_step _ _ _ _ _ _ E)
        as (Hl1 & Hm1 & [->|(row & sample & H1 & He1 & Hs)]).
      * exists rows, events. repeat split; auto.
      * exists (row :: rows), (("update_metrics", sample) :: events).
        rewrite Hrows, Hev, H1, He1, Hl, Hm.
        rewrite <- !app_assoc. simpl.
        split; [reflexivity|]. split; [reflexivity|].
        split; [constructor; [now split|exact Hpairs]|].
        split; [lia|]. split; congruence.
    + intros [= <-]. exists [], []. rewrite !app_nil_r.
      repeat split; auto. simpl. lia.
Qed.

Lemma run_pairs_rows_and_events_witness :
  run SampleGeneration.monitor SampleProxy.refusing
    [(true, SampleHost.half_past_noon [SampleFailures.vanished_server]);
     (true, SampleHost.half_past_noon [SampleFailures.listening_server]);
     (false, SampleHost.half_past_noon [])]
    SampleHost.before <> None /\
  forall w',
    run SampleGeneration.monitor SampleProxy.refusing
      [(true, SampleHost.half_past_noon [SampleFailures.vanished_server]);
       (true, SampleHost.half_past_noon [SampleFailures.listening_server]);
       (false, SampleHost.half_past_noon [])]
      SampleHost.before = Some w' ->
    exists rows events,
      rows_of (system_metrics (db w')) =
        rows_of (system_metrics (db SampleHost.before)) ++ rows /\
      emitted w' = emitted SampleHost.before ++ events /\
      Forall2 (fun row event => fst event = "update_metrics" /\ holds_sample row (snd event))
        rows events /\
      (List.length rows <= 3)%nat /\
      request_logs (db w') = request_logs (db SampleHost.before) /\
      models (db w') = models (db SampleHost.before).
Proof.
  split; [discriminate|].
  intros w'.
  apply (run_pairs_rows_and_events SampleGeneration.monitor SampleProxy.refusing
           [(true, SampleHost.half_past_noon [SampleFailures.vanished_server]);
            (true, SampleHost.half_past_noon [SampleFailures.listening_server]);
            (false, SampleHost.half_past_noon [])]
           SampleHost.before w').
Defined.

(** ** What the generation test leaves behind *)

(** X19: a generation test that returns has either logged exactly one row and
    returns the measured latency, or has left the store untouched and returns
    [None].  A logged row carries the chosen model, the caller [127.0.0.1],
    the status 200, the latency as the REAL column gives it back and the
    endpoint [/api/generate]; [system_metrics] and [models] are never
    written. *)
Theorem test_model_generation_effect (numeric_text : string -> value)
    (self : OllamaMonitor) (up : upstream)
    (start_time end_time : float) (now : string) (db db' : db_file)
    (model_name : option string) (returned : option float) :
  test_model_generation numeric_text self up start_time end_time now db model_name =
    Some (returned, db') ->
  system_metrics db' = system_metrics db /\
  models db' = models db /\
  ((returned = None /\ db' = db) \/
   (returned = Some (end_time - start_time)%float /\
    exists rows row,
      request_logs db = Some rows /\
      request_logs db' = Some (rows ++ [row]) /\
      chosen_model self model_name = Some (RequestLogs.model_name row) /\
      RequestLogs.timestamp row = now /\
      RequestLogs.client_ip row = "127.0.0.1" /\
      reads_back (end_time - start_time)%float (RequestLogs.response_time row) /\
      RequestLogs.status_code row = 200 /\
      RequestLogs.endpoint row = "/api/generate")).
Proof.
  unfold test_model_generation.
  destruct (chosen_model self model_name) as [name|];
    [|intros [= <- <-]; repeat split; now left].
  destruct (requests_request up (generate_call self name)) as [[response|e]|];
    [| |discriminate]; simpl.
  - unfold log_generation.
    destruct (Z.eqb_spec (status_code response) 200) as [Hstatus|_];
      [|intros [= <- <-]; repeat split; now left].
    destruct (decoded response) as [[| | | | | |result]|]; simpl;
      try (intros [= <- <-]; repeat split; now left).
    destruct (save_request_log numeric_text db _) as [db1|e] eqn:Esave; simpl;
      [|intros [= <- <-]; repeat split; now left].
    intros [= <- <-].
    destruct (save_request_log_inv _ _ _ _ Esave)
      as (rows & row & H0 & H1 & Hs & Hm & _ & Hts & Hip & Hname & _ & _ & Hrt & Hst & Hep).
    simpl in *. split; [exact Hs|]. split; [exact Hm|]. right.
    split; [reflexivity|]. exists rows, row.
    rewrite Hname, Hts, Hip, Hst, Hep, Hstatus. repeat split; assumption.
  - intros [= <- <-]. repeat split. now left.
Qed.

Lemma test_model_generation_effect_witness :
  test_model_generation Sample.numeric_text SampleGeneration.monitor
    (fun _ => Answers SampleGeneration.generated)
    100 101.5 SampleGeneration.now Sample.after_midnight None =
    Some (Some 1.5%float, SampleGeneration.after_test) /\
  system_metrics SampleGeneration.after_test = system_metrics Sample.after_midnight /\
  models SampleGeneration.after_test = models Sample.after_midnight /\
  ((Some 1.5%float = None /\ SampleGeneration.after_test = Sample.after_midnight) \/
   (Some 1.5%float = Some (101.5 - 100)%float /\
    exists rows row,
      request_logs Sample.after_midnight = Some rows /\
      request_logs SampleGeneration.after_test = Some (rows ++ [row]) /\
      chosen_model SampleGeneration.monitor None = Some (RequestLogs.model_name row) /\
      RequestLogs.timestamp row = SampleGeneration.now /\
      RequestLogs.client_ip row = "127.0.0.1" /\
      reads_back (101.5 - 100)%float (RequestLogs.response_time row) /\
      RequestLogs.status_code row = 200 /\
      RequestLogs.endpoint row = "/api/generate")).
Proof.
  split; [reflexivity|].
  apply (test_model_generation_effect Sample.numeric_text SampleGeneration.monitor
           (fun _ => Answers SampleGeneration.generated) 100 101.5 SampleGeneration.now
           Sample.after_midnight SampleGeneration.after_test None (Some 1.5%float)).
  reflexivity.
Defined.

(** ** Forwarded headers *)

(** X20: the headers of a forwarded call are the inbound headers in their
    order, less those named exactly [Host]; a header is forwarded if and only
    if its name is not [Host], so the upstream call never carries one. *)
Theorem proxy_call_headers (req : request) (path : string) (call : upstream_call) :
  proxy_call req path = Some call ->
  call_headers call = without_host (headers req) /\
  (forall key value,
     In (key, value) (call_headers call) <-> In (key, value) (headers req) /\ key <> "Host") /\
  ~ In "Host" (map fst (call_headers call)).
Proof.
  intros Hcall.
  assert (H : call_headers call = without_host (headers req)).
  { revert Hcall. unfold proxy_call.
    repeat match goal with |- context [if ?b then _ else _] => destruct b end;
      intros [= <-]; reflexivity. }
  assert (Hin : forall key value,
             In (key, value) (without_host (headers req)) <->
             In (key, value) (headers req) /\ key <> "Host").
  { intros key value. unfold without_host. rewrite filter_In.
    rewrite negb_true_iff, String.eqb_neq. reflexivity. }
  rewrite H. split; [reflexivity|]. split; [exact Hin|].
  intros Hhost. apply in_map_iff in Hhost. destruct Hhost as ([key value] & Hk & Hkv).
  simpl in Hk. subst key. apply Hin in Hkv. now destruct Hkv.
Qed.

Lemma proxy_call_headers_witness :
  proxy_call SampleProxy.delete_request "api/delete" = Some SampleProxy.delete_call /\
  call_headers SampleProxy.delete_call = without_host (headers SampleProxy.delete_request) /\
  (forall key value,
     In (key, value) (call_headers SampleProxy.delete_call) <->
     In (key, value) (headers SampleProxy.delete_request) /\ key <> "Host") /\
  ~ In "Host" (map fst (call_headers SampleProxy.delete_call)).
Proof.
  split; [reflexivity|].
  apply (proxy_call_headers SampleProxy.delete_request "api/delete" SampleProxy.delete_call).
  reflexivity.
Defined.

(** ** Model discovery *)

(** X21: [get_models] fixes the default model once.  With a default model set
    it never assigns another, whatever the upstream lists; without one, a
    listing that starts with an object makes that object's [name] the default
    and is returned as it is.  A transport failure, a status other than 200 or
    a body that is not a JSON object gives the empty list and assigns
    nothing. *)
Theorem get_models_default_model (self : OllamaMonitor) (up : upstream) :
  (truthy (default_model self) = true ->
   forall returned assigned,
     get_models self up = Some (returned, assigned) -> assigned = None) /\
  (truthy (default_model self) = false ->
   forall resp body first rest,
     up (tags_call self) = Answers resp ->
     status_code resp = 200 ->
     decoded resp = Some (JObject body) ->
     dict_get body "models" (JArray []) = JArray (JObject first :: rest) ->
     get_models self up =
       Some (JArray (JObject first :: rest), Some (dict_get first "name" JNull))) /\
  (forall detail,
     up (tags_call self) = Unreachable detail -> get_models self up = Some (JArray [], None)) /\
  (forall resp,
     up (tags_call self) = Answers resp ->
     status_code resp <> 200 \/ (forall body, decoded resp <> Some (JObject body)) ->
     get_models self up = Some (JArray [], None)).
Proof.
  unfold get_models, requests_request. split; [|split; [|split]].
  - intros Hset returned assigned.
    destruct (up (tags_call self)) as [resp|d|d|]; simpl; try (now intros [= _ <-]).
    destruct (status_code resp =? 200); [|now intros [= _ <-]].
    destruct (decoded resp) as [[| | | | | |body]|]; try (now intros [= _ <-]).
    rewrite Hset. cbn [negb]. rewrite andb_false_r. now intros [= _ <-].
  - intros Hunset resp body first rest Hup Hstatus Hbody Hmodels.
    rewrite Hup, Hstatus, Hbody, Hmodels, Hunset. reflexivity.
  - intros detail Hup. now rewrite Hup.
  - intros resp Hup Hbad. rewrite Hup.
    destruct (Z.eqb_spec (status_code resp) 200) as [Hstatus|_]; [|reflexivity].
    destruct Hbad as [Hbad|Hbad]; [contradiction|].
    destruct (decoded resp) as [[| | | | | |body]|]; try reflexivity.
    now destruct (Hbad body).
Qed.

Lemma get_models_default_model_witness :
  truthy (default_model SampleGeneration.monitor) = true /\
  truthy (default_model SampleDiscovery.fresh) = false /\
  get_models SampleGeneration.monitor (fun _ => Answers SampleDiscovery.listing) =
    Some (SampleDiscovery.listed, None) /\
  get_models SampleDiscovery.fresh (fun _ => Answers SampleDiscovery.listing) =
    Some (SampleDiscovery.listed, Some (JString "phi3")) /\
  get_models SampleDiscovery.fresh SampleProxy.refusing = Some (JArray [], None) /\
  get_models SampleDiscovery.fresh (fun _ => Answers SampleGeneration.overloaded) =
    Some (JArray [], None).
Proof.
  split; [reflexivity|]. split; [reflexivity|]. split; [reflexivity|].
  split; [|split].
  - apply (proj1 (proj2 (get_models_default_model SampleDiscovery.fresh
                           (fun _ => Answers SampleDiscovery.listing)))
             eq_refl SampleDiscovery.listing [("models", SampleDiscovery.listed)]
             [("name", JString "phi3"); ("size", JInt 2176178913)]
             [JObject [("name", JString "llama3:8b")]]); reflexivity.
  - apply (proj1 (proj2 (proj2 (get_models_default_model SampleDiscovery.fresh
                                  SampleProxy.refusing))) "Connection refused").
    reflexivity.
  - apply (proj2 (proj2 (proj2 (get_models_default_model SampleDiscovery.fresh
                                  (fun _ => Answers SampleGeneration.overloaded))))
             SampleGeneration.overloaded); [reflexivity|].
    left. discriminate.
Defined.

(** ** The latest snapshot and the empty relation *)

(** X22: on a created [models] table, [get_latest_models] returns no row
    exactly when the relation holds none, and the rows it returns all carry
    one timestamp. *)
Theorem get_latest_models_one_timestamp (db : db_file) (rows : list Models.row) :
  get_latest_models db = Ok rows ->
  (rows = [] <-> rows_of (models db) = []) /\
  (forall r r', In r rows -> In r' rows -> Models.timestamp r = Models.timestamp r').
Proof.
  unfold get_latest_models.
  destruct (models db) as [t|]; simpl; [|discriminate].
  destruct (max_text (map Models.timestamp t)) as [latest|] eqn:E; intros [= <-].
  - split.
    + destruct (max_text_spec _ _ E) as [Hin _].
      apply in_map_iff in Hin. destruct Hin as (r & Hr & Hin).
      assert (Hkept : In r (filter (fun r => (Models.timestamp r =? latest)%string) t)).
      { apply filter_In. split; [exact Hin|]. now apply String.eqb_eq. }
      split; intros H.
      * rewrite H in Hkept. destruct Hkept.
      * subst t. destruct Hin.
    + intros r r' Hr Hr'. apply filter_In in Hr, Hr'.
      destruct Hr as [_ Hr]. destruct Hr' as [_ Hr'].
      apply String.eqb_eq in Hr, Hr'. congruence.
  - apply max_text_none, map_eq_nil in E. subst t. split; [tauto|intros r r' []].
Qed.

Lemma get_latest_models_one_timestamp_witness :
  get_latest_models SampleModels.after_evening =
    Ok [models_row 3 SampleModels.evening SampleModels.phi] /\
  ([models_row 3 SampleModels.evening SampleModels.phi] = [] <->
   rows_of (models SampleModels.after_evening) = []) /\
  (forall r r',
     In r [models_row 3 SampleModels.evening SampleModels.phi] ->
     In r' [models_row 3 SampleModels.evening SampleModels.phi] ->
     Models.timestamp r = Models.timestamp r').
Proof.
  split; [reflexivity|].
  apply (get_latest_models_one_timestamp SampleModels.after_evening
           [models_row 3 SampleModels.evening SampleModels.phi]).
  reflexivity.
Defined.

(** ** Forwarded query parameters *)

Lemma first_values_In (args : list (string * string)) :
  forall seen key v,
    In (key, v) (first_values seen args) <->
    ~ In key seen /\
    exists pre post, args = pre ++ (key, v) :: post /\ ~ In key (map fst pre).
Proof.
  induction args as [|[k0 v0] rest IH]; intros seen key v; simpl.
  - split; [intros []|]. intros (_ & [|p pre] & post & H & _); discriminate.
  - destruct (existsb (String.eqb k0) seen) eqn:E.
    + apply existsb_eqb_In in E. rewrite IH. split.
      * intros (Hseen & pre & post & -> & Hpre). split; [exact Hseen|].
        exists ((k0, v0) :: pre), post. split; [reflexivity|].
        simpl. intros [<-|H]; [now apply Hseen|now apply Hpre].
      * intros (Hseen & pre & post & H & Hpre). split; [exact Hseen|].
        destruct pre as [|p pre]; simpl in H.
        -- injection H as Hk _ _. subst k0. now destruct (Hseen E).
        -- injection H as _ Hrest. subst rest. exists pre, post. split; [reflexivity|].
           intros Hin. apply Hpre. now right.
    + assert (Hk0 : ~ In k0 seen).
      { intros H. apply existsb_eqb_In in H. congruence. }
      simpl. rewrite IH. split.
      * intros [[= <- <-]|(Hseen & pre & post & -> & Hpre)].
        -- split; [exact Hk0|]. exists [], rest. split; [reflexivity|intros []].
        -- split; [intros H; apply Hseen; now right|].
           exists ((k0, v0) :: pre), post. split; [reflexivity|].
           simpl. intros [<-|H]; [apply Hseen; now left|now apply Hpre].
      * intros (Hseen & pre & post & H & Hpre).
        destruct pre as [|p pre]; simpl in H.
        -- injection H as Hk Hv _. subst k0 v0. now left.
        -- injection H as Hp Hrest. subst p rest. right. split.
           ++ intros [<-|H]; [apply Hpre; now left|now apply Hseen].
           ++ exists pre, post. split; [reflexivity|].
              intros Hin. apply Hpre. now right.
Qed.

Lemma first_values_NoDup (args : list (string * string)) :
  forall seen, NoDup (map fst (first_values seen args)).
Proof.
  induction args as [|[k0 v0] rest IH]; intros seen; simpl; [constructor|].
  destruct (existsb (String.eqb k0) seen); [apply IH|].
  simpl. constructor; [|apply IH].
  intros H. apply in_map_iff in H. destruct H as ([k v] & Hk & Hin).
  simpl in Hk. subst k. apply first_values_In in Hin.
  destruct Hin as [Hseen _]. apply Hseen. now left.
Qed.

Lemma first_values_distinct (args : list (string * string)) :
  forall seen,
    (forall key, In key (map fst args) -> ~ In key seen) ->
    NoDup (map fst args) ->
    first_values seen args = args.
Proof.
  induction args as [|[k0 v0] rest IH]; intros seen Hseen Hnd; simpl; [reflexivity|].
  simpl in Hnd. inversion Hnd as [|? ? Hk0 Hrest]; subst.
  destruct (existsb (String.eqb k0) seen) eqn:E.
  - apply existsb_eqb_In in E. destruct (Hseen k0); [now left|exact E].
  - f_equal. apply IH; [|exact Hrest].
    intros key Hin [<-|H]; [contradiction|].
    apply (Hseen key); [now right|exact H].
Qed.

(** X24: of the query string of a forwarded [GET] each key goes upstream
    once, with the first of its values: the forwarded pairs are those pairs of
    the query string that no pair of the same key precedes, so a query string
    without a repeated key is forwarded as it is. *)
Theorem proxy_call_query_parameters (req : request) (path : string) (call : upstream_call) :
  method req = "GET" ->
  proxy_call req path = Some call ->
  NoDup (map fst (call_params call)) /\
  (forall key v,
     In (key, v) (call_params call) <->
     exists pre post, args req = pre ++ (key, v) :: post /\ ~ In key (map fst pre)) /\
  (NoDup (map fst (args req)) -> call_params call = args req).
Proof.
  intros Hget. unfold proxy_call. rewrite Hget. simpl. intros [= <-]. simpl.
  unfold multidict_items. split; [apply first_values_NoDup|]. split.
  - intros key v. rewrite first_values_In. split.
    + now intros (_ & H).
    + intros H. split; [intros []|exact H].
  - intros Hnd. apply first_values_distinct; [intros key _ []|exact Hnd].
Qed.

Lemma proxy_call_query_parameters_witness :
  exists call,
    proxy_call SampleProxy.search_request "api/tags" = Some call /\
    NoDup (map fst (call_params call)) /\
    (forall key v,
       In (key, v) (call_params call) <->
       exists pre post,
         args SampleProxy.search_request = pre ++ (key, v) :: post /\
         ~ In key (map fst pre)) /\
    (NoDup (map fst (args SampleProxy.search_request)) ->
     call_params call = args SampleProxy.search_request).
Proof.
  eexists. split; [reflexivity|].
  apply (proxy_call_query_parameters SampleProxy.search_request "api/tags"); reflexivity.
Defined.
